(** * The system-call core of the JOS exokernel (lab6/kern/syscall.c)

    A shallow embedding of the system-call handlers of [kern/syscall.c]
    and the properties of the environment, address-space and IPC
    operations that follow from the code.

    The handlers are written in a small state-and-exit monad so that each
    definition reads like the C function it embeds: a handler threads the
    kernel state through its statements and may leave early by [return],
    by [panic] or by [sched_yield] (which never comes back to the
    handler).

    Everything that [kern/syscall.c] only calls -- the physical page
    allocator of [kern/pmap.c], the environment table of [kern/env.c] and
    the constants of the [inc/] headers -- is an interface ([Extern]);
    the handlers and the theorems are stated for every implementation of
    it, and [Module Ref] gives one implementation on which the handlers
    are evaluated on concrete kernel states. *)

From Stdlib Require Import ZArith Bool Lia List String.
Import ListNotations.
Local Open Scope Z_scope.

(** ** Data model *)

(** [env_status] of [struct Env]. *)
Inductive EnvStatus : Type :=
| ENV_FREE
| ENV_DYING
| ENV_RUNNABLE
| ENV_RUNNING
| ENV_NOT_RUNNABLE.

Definition EnvStatus_eqb (a b : EnvStatus) : bool :=
  match a, b with
  | ENV_FREE, ENV_FREE
  | ENV_DYING, ENV_DYING
  | ENV_RUNNABLE, ENV_RUNNABLE
  | ENV_RUNNING, ENV_RUNNING
  | ENV_NOT_RUNNABLE, ENV_NOT_RUNNABLE => true
  | _, _ => false
  end.

(** Modelled from the spec: [struct PushRegs] and [struct Trapframe] are
    declared in [inc/trap.h], which is not part of the sources; the saved
    register frame holds the general-purpose registers, the segment
    selectors, the flags, the instruction pointer and the stack pointer.
    [reg_eax] is the accumulator, the register a system call returns its
    value in. *)
Record PushRegs : Type := mkPushRegs {
  reg_edi : Z;
  reg_esi : Z;
  reg_ebp : Z;
  reg_oesp : Z;
  reg_ebx : Z;
  reg_edx : Z;
  reg_ecx : Z;
  reg_eax : Z
}.

Record Trapframe : Type := mkTrapframe {
  tf_regs : PushRegs;
  tf_es : Z;
  tf_ds : Z;
  tf_trapno : Z;
  tf_err : Z;
  tf_eip : Z;
  tf_cs : Z;
  tf_eflags : Z;
  tf_esp : Z;
  tf_ss : Z
}.

(** [tf.tf_regs.reg_eax = v] *)
Definition set_reg_eax (v : Z) (tf : Trapframe) : Trapframe :=
  let r := tf_regs tf in
  mkTrapframe
    (mkPushRegs (reg_edi r) (reg_esi r) (reg_ebp r) (reg_oesp r)
                (reg_ebx r) (reg_edx r) (reg_ecx r) v)
    (tf_es tf) (tf_ds tf) (tf_trapno tf) (tf_err tf) (tf_eip tf)
    (tf_cs tf) (tf_eflags tf) (tf_esp tf) (tf_ss tf).

(** A [struct Page *] that is not NULL: the index of the page in the
    [pages] array.  A pointer that may be NULL is an [option Page]. *)
Definition Page : Type := nat.

(** A [pde_t *]: the kernel address of a page directory. *)
Definition pgdir_t : Type := Z.

(** [struct Env], with the fields [kern/syscall.c] reads or writes.  A
    [struct Env *] is the index of the slot in the [envs] array. *)
Record Env : Type := mkEnv {
  env_tf : Trapframe;
  env_id : Z;
  env_parent_id : Z;
  env_status : EnvStatus;
  env_pgdir : pgdir_t;
  env_pgfault_upcall : Z;
  env_break : Z;
  env_ipc_recving : bool;
  env_ipc_dstva : Z;
  env_ipc_value : Z;
  env_ipc_from : Z;
  env_ipc_perm : Z;
  env_ipc_pending_envid : Z;
  env_ipc_pending_value : Z;
  env_ipc_pending_page : option Page;
  env_ipc_pending_perm : Z
}.

Definition set_env_tf (v : Trapframe) (e : Env) : Env :=
  mkEnv v (env_id e) (env_parent_id e) (env_status e) (env_pgdir e)
    (env_pgfault_upcall e) (env_break e) (env_ipc_recving e)
    (env_ipc_dstva e) (env_ipc_value e) (env_ipc_from e) (env_ipc_perm e)
    (env_ipc_pending_envid e) (env_ipc_pending_value e)
    (env_ipc_pending_page e) (env_ipc_pending_perm e).

Definition set_env_status (v : EnvStatus) (e : Env) : Env :=
  mkEnv (env_tf e) (env_id e) (env_parent_id e) v (env_pgdir e)
    (env_pgfault_upcall e) (env_break e) (env_ipc_recving e)
    (env_ipc_dstva e) (env_ipc_value e) (env_ipc_from e) (env_ipc_perm e)
    (env_ipc_pending_envid e) (env_ipc_pending_value e)
    (env_ipc_pending_page e) (env_ipc_pending_perm e).

Definition set_env_pgfault_upcall (v : Z) (e : Env) : Env :=
  mkEnv (env_tf e) (env_id e) (env_parent_id e) (env_status e) (env_pgdir e)
    v (env_break e) (env_ipc_recving e)
    (env_ipc_dstva e) (env_ipc_value e) (env_ipc_from e) (env_ipc_perm e)
    (env_ipc_pending_envid e) (env_ipc_pending_value e)
    (env_ipc_pending_page e) (env_ipc_pending_perm e).

Definition set_env_break (v : Z) (e : Env) : Env :=
  mkEnv (env_tf e) (env_id e) (env_parent_id e) (env_status e) (env_pgdir e)
    (env_pgfault_upcall e) v (env_ipc_recving e)
    (env_ipc_dstva e) (env_ipc_value e) (env_ipc_from e) (env_ipc_perm e)
    (env_ipc_pending_envid e) (env_ipc_pending_value e)
    (env_ipc_pending_page e) (env_ipc_pending_perm e).

Definition set_env_ipc_recving (v : bool) (e : Env) : Env :=
  mkEnv (env_tf e) (env_id e) (env_parent_id e) (env_status e) (env_pgdir e)
    (env_pgfault_upcall e) (env_break e) v
    (env_ipc_dstva e) (env_ipc_value e) (env_ipc_from e) (env_ipc_perm e)
    (env_ipc_pending_envid e) (env_ipc_pending_value e)
    (env_ipc_pending_page e) (env_ipc_pending_perm e).

Definition set_env_ipc_dstva (v : Z) (e : Env) : Env :=
  mkEnv (env_tf e) (env_id e) (env_parent_id e) (env_status e) (env_pgdir e)
    (env_pgfault_upcall e) (env_break e) (env_ipc_recving e)
    v (env_ipc_value e) (env_ipc_from e) (env_ipc_perm e)
    (env_ipc_pending_envid e) (env_ipc_pending_value e)
    (env_ipc_pending_page e) (env_ipc_pending_perm e).

Definition set_env_ipc_value (v : Z) (e : Env) : Env :=
  mkEnv (env_tf e) (env_id e) (env_parent_id e) (env_status e) (env_pgdir e)
    (env_pgfault_upcall e) (env_break e) (env_ipc_recving e)
    (env_ipc_dstva e) v (env_ipc_from e) (env_ipc_perm e)
    (env_ipc_pending_envid e) (env_ipc_pending_value e)
    (env_ipc_pending_page e) (env_ipc_pending_perm e).

Definition set_env_ipc_from (v : Z) (e : Env) : Env :=
  mkEnv (env_tf e) (env_id e) (env_parent_id e) (env_status e) (env_pgdir e)
    (env_pgfault_upcall e) (env_break e) (env_ipc_recving e)
    (env_ipc_dstva e) (env_ipc_value e) v (env_ipc_perm e)
    (env_ipc_pending_envid e) (env_ipc_pending_value e)
    (env_ipc_pending_page e) (env_ipc_pending_perm e).

Definition set_env_ipc_perm (v : Z) (e : Env) : Env :=
  mkEnv (env_tf e) (env_id e) (env_parent_id e) (env_status e) (env_pgdir e)
    (env_pgfault_upcall e) (env_break e) (env_ipc_recving e)
    (env_ipc_dstva e) (env_ipc_value e) (env_ipc_from e) v
    (env_ipc_pending_envid e) (env_ipc_pending_value e)
    (env_ipc_pending_page e) (env_ipc_pending_perm e).

Definition set_env_ipc_pending_envid (v : Z) (e : Env) : Env :=
  mkEnv (env_tf e) (env_id e) (env_parent_id e) (env_status e) (env_pgdir e)
    (env_pgfault_upcall e) (env_break e) (env_ipc_recving e)
    (env_ipc_dstva e) (env_ipc_value e) (env_ipc_from e) (env_ipc_perm e)
    v (env_ipc_pending_value e)
    (env_ipc_pending_page e) (env_ipc_pending_perm e).

Definition set_env_ipc_pending_value (v : Z) (e : Env) : Env :=
  mkEnv (env_tf e) (env_id e) (env_parent_id e) (env_status e) (env_pgdir e)
    (env_pgfault_upcall e) (env_break e) (env_ipc_recving e)
    (env_ipc_dstva e) (env_ipc_value e) (env_ipc_from e) (env_ipc_perm e)
    (env_ipc_pending_envid e) v
    (env_ipc_pending_page e) (env_ipc_pending_perm e).

Definition set_env_ipc_pending_page (v : option Page) (e : Env) : Env :=
  mkEnv (env_tf e) (env_id e) (env_parent_id e) (env_status e) (env_pgdir e)
    (env_pgfault_upcall e) (env_break e) (env_ipc_recving e)
    (env_ipc_dstva e) (env_ipc_value e) (env_ipc_from e) (env_ipc_perm e)
    (env_ipc_pending_envid e) (env_ipc_pending_value e)
    v (env_ipc_pending_perm e).

Definition set_env_ipc_pending_perm (v : Z) (e : Env) : Env :=
  mkEnv (env_tf e) (env_id e) (env_parent_id e) (env_status e) (env_pgdir e)
    (env_pgfault_upcall e) (env_break e) (env_ipc_recving e)
    (env_ipc_dstva e) (env_ipc_value e) (env_ipc_from e) (env_ipc_perm e)
    (env_ipc_pending_envid e) (env_ipc_pending_value e)
    (env_ipc_pending_page e) v.

(** [e->env_tf.tf_regs.reg_eax = v] *)
Definition set_env_eax (v : Z) (e : Env) : Env :=
  set_env_tf (set_reg_eax v (env_tf e)) e.

(** The accumulator of the saved frame of an environment. *)
Definition env_eax (e : Env) : Z := reg_eax (tf_regs (env_tf e)).

(** The kernel state a handler works on: the [envs] table (slot index to
    [struct Env]), the [curenv] pointer and the state [M] of physical
    memory (page allocator and page tables). *)
Record Kernel (M : Type) : Type := mkKernel {
  envs : nat -> Env;
  curenv : nat;
  mem : M
}.
Arguments mkKernel {M} _ _ _.
Arguments envs {M} _ _.
Arguments curenv {M} _.
Arguments mem {M} _.

(** [envs[i]] is replaced by [f envs[i]]: a store through the pointer
    [&envs[i]].  Two pointers to the same slot see each other's stores. *)
Definition upd_env (i : nat) (f : Env -> Env) (es : nat -> Env) : nat -> Env :=
  fun j => if Nat.eqb j i then f (es j) else es j.

Definition on_env {M} (i : nat) (f : Env -> Env) (k : Kernel M) : Kernel M :=
  mkKernel (upd_env i f (envs k)) (curenv k) (mem k).

Definition set_mem {M} (m : M) (k : Kernel M) : Kernel M :=
  mkKernel (envs k) (curenv k) m.

(** [*curenv] *)
Definition cur {M} (k : Kernel M) : Env := envs k (curenv k).

(** ** What [kern/syscall.c] calls but does not define *)

(** The constants of [inc/mmu.h], [inc/memlayout.h], [inc/error.h] and
    [inc/env.h], and the functions of [kern/pmap.c] and [kern/env.c] the
    handlers call.  A C function that returns a status and stores a
    pointer through an argument returns the pair; the physical-memory
    functions take the memory state and return the new one. *)
Class Extern (M : Type) : Type := {
  NENV : nat;
  PGSIZE : Z;
  UTOP : Z;
  PTE_P : Z;
  PTE_W : Z;
  PTE_U : Z;
  PTE_SYSCALL : Z;
  E_BAD_ENV : Z;
  E_INVAL : Z;
  E_NO_MEM : Z;
  (** [PADDR(kva)] *)
  PADDR : Z -> Z;
  (** [pa2page(pa)], [None] when no managed page has this address *)
  pa2page : M -> Z -> option Page;
  (** [page_alloc(ALLOC_ZERO)], [None] for NULL *)
  page_alloc : M -> option (Page * M);
  (** [page_free(pp)] *)
  page_free : M -> Page -> M;
  (** [page_lookup(pgdir, va, &pte)]: the page and the value of [*pte] *)
  page_lookup : M -> pgdir_t -> Z -> option (Page * Z);
  (** [page_insert(pgdir, pp, va, perm)] *)
  page_insert : M -> pgdir_t -> Page -> Z -> Z -> Z * M;
  (** [page_remove(pgdir, va)] *)
  page_remove : M -> pgdir_t -> Z -> M;
  (** whether a page is on the allocator's free list (an observation of
      the allocator's state, no function of [kern/pmap.c]) *)
  page_is_free : M -> Page -> bool;
  (** [envid2env(envid, &e, checkperm)]: the status and the slot stored
      in [e]; it writes nothing else *)
  envid2env : Kernel M -> Z -> bool -> Z * nat;
  (** [env_alloc(&e, parent_id)]: the status, the slot stored in [e] and
      the new kernel state *)
  env_alloc : Kernel M -> Z -> Z * nat * Kernel M
}.

(** ** The handler monad *)

(** How a handler ends: it returns [r] to the dispatcher, it gives up the
    CPU in [sched_yield] (which does not return to it), or the kernel
    panics.  Each carries the kernel state at that point. *)
Inductive Outcome (M : Type) : Type :=
| Ret (r : Z) (k : Kernel M)
| Yield (k : Kernel M)
| Panic (k : Kernel M).
Arguments Ret {M} _ _.
Arguments Yield {M} _.
Arguments Panic {M} _.

(** One statement either goes on with a value and a state, or ends the
    handler. *)
Inductive Step (M A : Type) : Type :=
| Next (a : A) (k : Kernel M)
| Done (o : Outcome M).
Arguments Next {M A} _ _.
Arguments Done {M A} _.

Definition Sys (M A : Type) : Type := Kernel M -> Step M A.

Definition ret {M A} (a : A) : Sys M A := fun k => Next a k.

Definition bind {M A B} (c : Sys M A) (f : A -> Sys M B) : Sys M B :=
  fun k => match c k with
           | Next a k' => f a k'
           | Done o => Done o
           end.

(** [return r;] *)
Definition return_ {M A} (r : Z) : Sys M A := fun k => Done (Ret r k).

(** [panic(...)] *)
Definition panic {M} : Sys M unit := fun k => Done (Panic k).

(** [sched_yield()] *)
Definition sched_yield {M} : Sys M unit := fun k => Done (Yield k).

(** read the state *)
Definition gets {M A} (f : Kernel M -> A) : Sys M A := fun k => Next (f k) k.

(** [envs[i].field = v] *)
Definition store {M} (i : nat) (f : Env -> Env) : Sys M unit :=
  fun k => Next tt (on_env i f k).

(** [curenv->field = v] *)
Definition store_cur {M} (f : Env -> Env) : Sys M unit :=
  fun k => Next tt (on_env (curenv k) f k).

(** [if (c) s] *)
Definition when {M} (c : bool) (s : Sys M unit) : Sys M unit :=
  if c then s else ret tt.

(** The handler [c] run from the state [k]. *)
Definition run {M} (c : Sys M Z) (k : Kernel M) : Outcome M :=
  match c k with
  | Next r k' => Ret r k'
  | Done o => o
  end.

Declare Scope sys_scope.
Delimit Scope sys_scope with sys.
Notation "x <- c1 ;; c2" := (bind c1 (fun x => c2))
  (at level 61, c1 at next level, right associativity) : sys_scope.
Notation "' pat <- c1 ;; c2" := (bind c1 (fun x => match x with pat => c2 end))
  (at level 61, pat pattern, c1 at next level, right associativity) : sys_scope.
Notation "c1 ;; c2" := (bind c1 (fun _ => c2))
  (at level 61, right associativity) : sys_scope.
Local Open Scope sys_scope.

(** ** The handlers of [kern/syscall.c] *)

Section Handlers.
Context {M : Type} {X : Extern M}.

(** Calls into [kern/pmap.c] and [kern/env.c], lifted to statements. *)
Definition call_page_alloc : Sys M (option Page) :=
  fun k => match page_alloc (mem k) with
           | Some (pp, m') => Next (Some pp) (set_mem m' k)
           | None => Next None k
           end.

Definition call_page_free (pp : Page) : Sys M unit :=
  fun k => Next tt (set_mem (page_free (mem k) pp) k).

Definition call_page_insert (pgdir : pgdir_t) (pp : Page) (va perm : Z) : Sys M Z :=
  fun k => let '(r, m') := page_insert (mem k) pgdir pp va perm in
           Next r (set_mem m' k).

Definition call_page_lookup (pgdir : pgdir_t) (va : Z) : Sys M (option (Page * Z)) :=
  gets (fun k => page_lookup (mem k) pgdir va).

Definition call_page_remove (pgdir : pgdir_t) (va : Z) : Sys M unit :=
  fun k => Next tt (set_mem (page_remove (mem k) pgdir va) k).

Definition call_envid2env (envid : Z) (checkperm : bool) : Sys M (Z * nat) :=
  gets (fun k => envid2env k envid checkperm).

Definition call_env_alloc (parent_id : Z) : Sys M (Z * nat) :=
  fun k => let '(r, e, k') := env_alloc k parent_id in Next (r, e) k'.

(** [!(perm & PTE_U) || !(perm & PTE_P) || (perm & ~PTE_SYSCALL)] *)
Definition perm_inappropriate (perm : Z) : bool :=
  (Z.land perm PTE_U =? 0) || (Z.land perm PTE_P =? 0)
  || negb (Z.land perm (Z.lnot PTE_SYSCALL) =? 0).

(** [(uintptr_t)va >= UTOP || (uintptr_t)va % PGSIZE] *)
Definition va_invalid (va : Z) : bool :=
  (UTOP <=? va) || negb (va mod PGSIZE =? 0).

(** [(perm & PTE_W) && !( *srcpte & PTE_W)] *)
Definition write_escalation (perm pte : Z) : bool :=
  negb (Z.land perm PTE_W =? 0) && (Z.land pte PTE_W =? 0).

(** [sys_getenvid] *)
Definition sys_getenvid : Sys M Z :=
  gets (fun k => env_id (cur k)).

(** [sys_map_kernel_page] *)
Definition sys_map_kernel_page (kpage va : Z) : Sys M Z :=
  p <- gets (fun k => pa2page (mem k) (PADDR kpage)) ;;
  match p with
  | None => return_ E_INVAL
  | Some p =>
      pgdir <- gets (fun k => env_pgdir (cur k)) ;;
      r <- call_page_insert pgdir p va (Z.lor PTE_U PTE_W) ;;
      ret r
  end.

(** [sys_exofork] *)
Definition sys_exofork : Sys M Z :=
  parent_id <- gets (fun k => env_id (cur k)) ;;
  '(r, newenv) <- call_env_alloc parent_id ;;
  when (r <? 0) (return_ r) ;;
  store newenv (set_env_status ENV_NOT_RUNNABLE) ;;
  tf <- gets (fun k => env_tf (cur k)) ;;
  store newenv (set_env_tf tf) ;;
  brk <- gets (fun k => env_break (cur k)) ;;
  store newenv (set_env_break brk) ;;
  store newenv (set_env_eax 0) ;;
  gets (fun k => env_id (envs k newenv)).

(** [sys_env_set_pgfault_upcall] *)
Definition sys_env_set_pgfault_upcall (envid func : Z) : Sys M Z :=
  '(r, env) <- call_envid2env envid true ;;
  when (r <? 0) (return_ r) ;;
  when (func =? 0) panic ;;
  store env (set_env_pgfault_upcall func) ;;
  ret 0.

(** [sys_page_alloc] *)
Definition sys_page_alloc (envid va perm : Z) : Sys M Z :=
  '(r, env) <- call_envid2env envid true ;;
  when (r <? 0) (return_ r) ;;
  when (va_invalid va) (return_ (- E_INVAL)) ;;
  when (perm_inappropriate perm) (return_ (- E_INVAL)) ;;
  page <- call_page_alloc ;;
  match page with
  | None => return_ (- E_NO_MEM)
  | Some page =>
      pgdir <- gets (fun k => env_pgdir (envs k env)) ;;
      r <- call_page_insert pgdir page va perm ;;
      when (r <? 0) (call_page_free page ;; return_ r) ;;
      ret 0
  end.

(** [sys_page_map] *)
Definition sys_page_map (srcenvid srcva dstenvid dstva perm : Z) : Sys M Z :=
  '(r, srcenv) <- call_envid2env srcenvid true ;;
  when (r <? 0) (return_ r) ;;
  '(r, dstenv) <- call_envid2env dstenvid true ;;
  when (r <? 0) (return_ r) ;;
  when (va_invalid srcva) (return_ (- E_INVAL)) ;;
  when (va_invalid dstva) (return_ (- E_INVAL)) ;;
  srcpgdir <- gets (fun k => env_pgdir (envs k srcenv)) ;;
  found <- call_page_lookup srcpgdir srcva ;;
  match found with
  | None => return_ (- E_INVAL)
  | Some (page, srcpte) =>
      when (perm_inappropriate perm) (return_ (- E_INVAL)) ;;
      when (write_escalation perm srcpte) (return_ (- E_INVAL)) ;;
      dstpgdir <- gets (fun k => env_pgdir (envs k dstenv)) ;;
      r <- call_page_insert dstpgdir page dstva perm ;;
      when (r <? 0) (return_ r) ;;
      ret 0
  end.

(** [sys_page_unmap] *)
Definition sys_page_unmap (envid va : Z) : Sys M Z :=
  '(r, env) <- call_envid2env envid true ;;
  when (r <? 0) (return_ r) ;;
  when (va_invalid va) (return_ (- E_INVAL)) ;;
  pgdir <- gets (fun k => env_pgdir (envs k env)) ;;
  found <- call_page_lookup pgdir va ;;
  match found with
  | None => return_ 0
  | Some _ => call_page_remove pgdir va ;; ret 0
  end.

(** The last statement of [sys_ipc_try_send]:
    [if (env->env_ipc_recving) { ... } else { ... }  return 0;] *)
Definition ipc_try_send_deliver (env : nat) (envid value : Z) : Sys M Z :=
  recving <- gets (fun k => env_ipc_recving (envs k env)) ;;
  (if recving then
     store env (set_env_ipc_recving false) ;;
     from <- gets (fun k => env_id (cur k)) ;;
     store env (set_env_ipc_from from) ;;
     store env (set_env_ipc_value value) ;;
     store env (set_env_status ENV_RUNNABLE) ;;
     store env (set_env_eax 0)
   else
     store_cur (set_env_ipc_pending_envid envid) ;;
     store_cur (set_env_ipc_pending_value value) ;;
     store_cur (set_env_status ENV_NOT_RUNNABLE) ;;
     sched_yield) ;;
  ret 0.

(** [sys_ipc_try_send] *)
Definition sys_ipc_try_send (envid value srcva perm : Z) : Sys M Z :=
  '(r, env) <- call_envid2env envid false ;;
  when (r <? 0) (return_ r) ;;
  recving <- gets (fun k => env_ipc_recving (envs k env)) ;;
  (if recving then store env (set_env_ipc_perm 0)
   else store_cur (set_env_ipc_pending_page None)) ;;
  dstva <- gets (fun k => env_ipc_dstva (envs k env)) ;;
  recving <- gets (fun k => env_ipc_recving (envs k env)) ;;
  (if (srcva <? UTOP) && ((dstva <? UTOP) || negb recving) then
     when (negb (srcva mod PGSIZE =? 0)) (return_ (- E_INVAL)) ;;
     when (perm_inappropriate perm) (return_ (- E_INVAL)) ;;
     pgdir <- gets (fun k => env_pgdir (cur k)) ;;
     found <- call_page_lookup pgdir srcva ;;
     match found with
     | None => return_ (- E_INVAL)
     | Some (page, srcpte) =>
         when (write_escalation perm srcpte) (return_ (- E_INVAL)) ;;
         recving <- gets (fun k => env_ipc_recving (envs k env)) ;;
         if recving then
           dstpgdir <- gets (fun k => env_pgdir (envs k env)) ;;
           dstva <- gets (fun k => env_ipc_dstva (envs k env)) ;;
           r <- call_page_insert dstpgdir page dstva perm ;;
           when (r <? 0) (return_ r) ;;
           store env (set_env_ipc_perm perm)
         else
           store_cur (set_env_ipc_pending_page (Some page)) ;;
           store_cur (set_env_ipc_pending_perm perm)
     end
   else ret tt) ;;
  ipc_try_send_deliver env envid value.

(** The condition of the scan in [sys_ipc_recv]:
    [env->env_status != ENV_FREE
     && env->env_ipc_pending_envid == curenv->env_id] *)
Definition sent_to_me (k : Kernel M) (i : nat) : bool :=
  negb (EnvStatus_eqb (env_status (envs k i)) ENV_FREE)
  && (env_ipc_pending_envid (envs k i) =? env_id (cur k)).

(** The body of the [if] inside the scan of [sys_ipc_recv], for the slot
    [env]; it ends the handler. *)
Definition ipc_recv_harvest (dstva : Z) (env : nat) : Sys M unit :=
  store_cur (set_env_ipc_perm 0) ;;
  pending_page <- gets (fun k => env_ipc_pending_page (envs k env)) ;;
  match pending_page with
  | Some page =>
      if dstva <? UTOP then
        pgdir <- gets (fun k => env_pgdir (cur k)) ;;
        pending_perm <- gets (fun k => env_ipc_pending_perm (envs k env)) ;;
        r <- call_page_insert pgdir page dstva pending_perm ;;
        when (r <? 0) (return_ r) ;;
        pending_perm <- gets (fun k => env_ipc_pending_perm (envs k env)) ;;
        store_cur (set_env_ipc_perm pending_perm)
      else ret tt
  | None => ret tt
  end ;;
  pending_value <- gets (fun k => env_ipc_pending_value (envs k env)) ;;
  store_cur (set_env_ipc_value pending_value) ;;
  from <- gets (fun k => env_id (envs k env)) ;;
  store_cur (set_env_ipc_from from) ;;
  store env (set_env_ipc_pending_envid 0) ;;
  store env (set_env_status ENV_RUNNABLE) ;;
  store env (set_env_eax 0) ;;
  return_ 0.

(** [for (i = ...; i < NENV; ++i) { env = &envs[i]; if (...) { ... } }]
    with [n] iterations left. *)
Fixpoint ipc_recv_scan (dstva : Z) (n : nat) (i : nat) : Sys M unit :=
  match n with
  | O => ret tt
  | S n' =>
      hit <- gets (fun k => sent_to_me k i) ;;
      if hit then ipc_recv_harvest dstva i
      else ipc_recv_scan dstva n' (S i)
  end.

(** [sys_ipc_recv] *)
Definition sys_ipc_recv (dstva : Z) : Sys M Z :=
  (if dstva <? UTOP then
     when (negb (dstva mod PGSIZE =? 0)) (return_ (- E_INVAL)) ;;
     store_cur (set_env_ipc_dstva dstva)
   else ret tt) ;;
  ipc_recv_scan dstva NENV 0 ;;
  store_cur (set_env_ipc_recving true) ;;
  store_cur (set_env_status ENV_NOT_RUNNABLE) ;;
  sched_yield ;;
  ret 0.

End Handlers.

(** ** A reference implementation of the interface *)

Module Ref.

(** Modelled from the spec: [kern/pmap.c] is not part of the sources.
    Physical pages are shared by reference count and reclaimable only at
    count zero; a per-environment page directory maps user pages to a
    physical page and permission bits; inserting at a mapped address
    replaces the mapping; an insertion that needs a page table and finds
    no free page fails with [-E_NO_MEM] and changes nothing. *)
Record PhysMem : Type := mkPhysMem {
  npages : nat;
  (** the page is on the free list *)
  pp_free : Page -> bool;
  pp_ref : Page -> nat;
  (** the page directory has a page table for this 4MB region *)
  pt_present : pgdir_t -> Z -> bool;
  (** the page-table entry of a page number: page and flag bits *)
  pte : pgdir_t -> Z -> option (Page * Z)
}.

Definition NENV : nat := 1024.
Definition PGSIZE : Z := 4096.
Definition PTSIZE : Z := 4194304.
Definition KERNBASE : Z := 0xF0000000.
Definition UTOP : Z := 0xEEC00000.
Definition PTE_P : Z := 1.
Definition PTE_W : Z := 2.
Definition PTE_U : Z := 4.
Definition PTE_AVAIL : Z := 0xE00.
Definition PTE_SYSCALL : Z := Z.lor PTE_AVAIL (Z.lor PTE_P (Z.lor PTE_W PTE_U)).
Definition E_BAD_ENV : Z := 2.
Definition E_INVAL : Z := 3.
Definition E_NO_MEM : Z := 4.
Definition E_NO_FREE_ENV : Z := 5.
Definition ENVGENSHIFT : Z := 12.

Definition upd_nat {A} (i : nat) (v : A) (f : nat -> A) : nat -> A :=
  fun j => if Nat.eqb j i then v else f j.

Definition upd_ZZ {A} (a b : Z) (v : A) (f : Z -> Z -> A) : Z -> Z -> A :=
  fun a' b' => if (a' =? a) && (b' =? b) then v else f a' b'.

(** The first index [j] with [i <= j < i + n] and [p j]. *)
Fixpoint first_from (p : nat -> bool) (n : nat) (i : nat) : option nat :=
  match n with
  | O => None
  | S n' => if p i then Some i else first_from p n' (S i)
  end.

Definition PADDR (kva : Z) : Z := kva - KERNBASE.

Definition pa2page (m : PhysMem) (pa : Z) : option Page :=
  if (0 <=? pa) && (pa / PGSIZE <? Z.of_nat (npages m))
  then Some (Z.to_nat (pa / PGSIZE)) else None.

Definition page_alloc (m : PhysMem) : option (Page * PhysMem) :=
  match first_from (pp_free m) (npages m) 0 with
  | Some pp =>
      Some (pp, mkPhysMem (npages m) (upd_nat pp false (pp_free m)) (pp_ref m)
                          (pt_present m) (pte m))
  | None => None
  end.

Definition page_free (m : PhysMem) (pp : Page) : PhysMem :=
  mkPhysMem (npages m) (upd_nat pp true (pp_free m)) (pp_ref m)
            (pt_present m) (pte m).

(** [*pte] is the physical address of the page with the flag bits. *)
Definition page_lookup (m : PhysMem) (pgdir : pgdir_t) (va : Z)
  : option (Page * Z) :=
  match pte m pgdir (va / PGSIZE) with
  | Some (pp, flags) => Some (pp, Z.lor (Z.of_nat pp * PGSIZE) flags)
  | None => None
  end.

(** [page_decref]: the count goes down and the page is freed at zero. *)
Definition page_decref (m : PhysMem) (pp : Page) : PhysMem :=
  let n := Nat.pred (pp_ref m pp) in
  mkPhysMem (npages m)
            (if Nat.eqb n 0 then upd_nat pp true (pp_free m) else pp_free m)
            (upd_nat pp n (pp_ref m)) (pt_present m) (pte m).

Definition page_remove (m : PhysMem) (pgdir : pgdir_t) (va : Z) : PhysMem :=
  match pte m pgdir (va / PGSIZE) with
  | Some (pp, _) =>
      let m1 := page_decref m pp in
      mkPhysMem (npages m1) (pp_free m1) (pp_ref m1) (pt_present m1)
                (upd_ZZ pgdir (va / PGSIZE) None (pte m1))
  | None => m
  end.

(** The page table for [va] exists already, or a free page becomes it. *)
Definition pgdir_walk_create (m : PhysMem) (pgdir : pgdir_t) (va : Z)
  : option PhysMem :=
  if pt_present m pgdir (va / PTSIZE) then Some m
  else match first_from (pp_free m) (npages m) 0 with
       | Some pt =>
           Some (mkPhysMem (npages m) (upd_nat pt false (pp_free m))
                           (upd_nat pt 1%nat (pp_ref m))
                           (upd_ZZ pgdir (va / PTSIZE) true (pt_present m))
                           (pte m))
       | None => None
       end.

Definition page_insert (m : PhysMem) (pgdir : pgdir_t) (pp : Page)
    (va perm : Z) : Z * PhysMem :=
  match pgdir_walk_create m pgdir va with
  | None => (- E_NO_MEM, m)
  | Some m1 =>
      let m2 := mkPhysMem (npages m1) (pp_free m1)
                          (upd_nat pp (S (pp_ref m1 pp)) (pp_ref m1))
                          (pt_present m1) (pte m1) in
      let m3 := page_remove m2 pgdir va in
      (0, mkPhysMem (npages m3) (pp_free m3) (pp_ref m3) (pt_present m3)
                    (upd_ZZ pgdir (va / PGSIZE)
                            (Some (pp, Z.lor perm PTE_P)) (pte m3)))
  end.

(** Modelled from the spec: [kern/env.c] is not part of the sources.
    [envid == 0] names [curenv]; otherwise the environment is found by
    its identifier, whose low bits are the slot number; with [checkperm]
    the lookup fails unless the target is [curenv] or the parent chain of
    the target includes [curenv]. *)
Definition slot_of (k : Kernel PhysMem) (envid : Z) : option nat :=
  let i := Z.to_nat (envid mod Z.of_nat NENV) in
  if negb (EnvStatus_eqb (env_status (envs k i)) ENV_FREE)
     && (env_id (envs k i) =? envid)
  then Some i else None.

Fixpoint descends_from_cur (k : Kernel PhysMem) (n : nat) (i : nat) : bool :=
  Nat.eqb i (curenv k)
  || match n with
     | O => false
     | S n' =>
         match slot_of k (env_parent_id (envs k i)) with
         | Some j => descends_from_cur k n' j
         | None => false
         end
     end.

Definition envid2env (k : Kernel PhysMem) (envid : Z) (checkperm : bool)
  : Z * nat :=
  if envid =? 0 then (0, curenv k)
  else match slot_of k envid with
       | None => (- E_BAD_ENV, O)
       | Some i =>
           if checkperm && negb (descends_from_cur k NENV i)
           then (- E_BAD_ENV, O) else (0, i)
       end.

Definition zero_tf : Trapframe :=
  mkTrapframe (mkPushRegs 0 0 0 0 0 0 0 0) 0 0 0 0 0 0 0 0 0.

(** Modelled from the spec: [env_alloc] takes a FREE slot, gives it a
    fresh page directory and a new identifier (generation and slot
    number), records the parent and leaves every other slot alone; it
    fails with [-E_NO_FREE_ENV] or [-E_NO_MEM]. *)
Definition env_alloc (k : Kernel PhysMem) (parent_id : Z)
  : Z * nat * Kernel PhysMem :=
  match first_from (fun i => EnvStatus_eqb (env_status (envs k i)) ENV_FREE)
                   NENV 0 with
  | None => (- E_NO_FREE_ENV, O, k)
  | Some i =>
      match page_alloc (mem k) with
      | None => (- E_NO_MEM, O, k)
      | Some (pp, m') =>
          let old := envs k i in
          let gen := Z.land (env_id old + Z.shiftl 1 ENVGENSHIFT)
                            (Z.lnot (Z.of_nat NENV - 1)) in
          let gen := if gen <=? 0 then Z.shiftl 1 ENVGENSHIFT else gen in
          let e := mkEnv zero_tf (Z.lor gen (Z.of_nat i)) parent_id
                         ENV_RUNNABLE (KERNBASE + Z.of_nat pp * PGSIZE) 0
                         (env_break old) false
                         (env_ipc_dstva old) (env_ipc_value old)
                         (env_ipc_from old) (env_ipc_perm old)
                         (env_ipc_pending_envid old)
                         (env_ipc_pending_value old)
                         (env_ipc_pending_page old)
                         (env_ipc_pending_perm old) in
          (0, i, mkKernel (upd_env i (fun _ => e) (envs k)) (curenv k)
                          (mkPhysMem (npages m') (pp_free m')
                                     (upd_nat pp 1%nat (pp_ref m'))
                                     (pt_present m') (pte m')))
      end
  end.

(** Modelled from the spec: the scheduler and [env_run] of [kern/env.c]
    are not part of the sources.  The environment that ran becomes
    RUNNABLE again if it was RUNNING, and [e] becomes [curenv], RUNNING. *)
Definition env_run (e : nat) (k : Kernel PhysMem) : Kernel PhysMem :=
  let es :=
    match env_status (cur k) with
    | ENV_RUNNING => upd_env (curenv k) (set_env_status ENV_RUNNABLE) (envs k)
    | _ => envs k
    end in
  mkKernel (upd_env e (set_env_status ENV_RUNNING) es) e (mem k).

#[global] Instance ext : Extern PhysMem :=
  Build_Extern PhysMem NENV PGSIZE UTOP PTE_P PTE_W PTE_U PTE_SYSCALL
    E_BAD_ENV E_INVAL E_NO_MEM PADDR pa2page page_alloc page_free
    page_lookup page_insert page_remove pp_free envid2env env_alloc.

End Ref.

(** ** What the handlers expect of [kern/env.c] and [kern/pmap.c] *)

Section Contracts.
Context {M : Type} {X : Extern M}.

(** [env_alloc], called by a live environment, stores a slot other than
    the caller's, records the parent it was given there, and touches
    neither [curenv] nor the caller's [struct Env]. *)
Definition env_alloc_contract : Prop :=
  forall (k : Kernel M) (parent_id r : Z) (e : nat) (k1 : Kernel M),
    env_alloc k parent_id = (r, e, k1) ->
    0 <= r ->
    env_status (cur k) <> ENV_FREE ->
    e <> curenv k /\ curenv k1 = curenv k /\ cur k1 = cur k
    /\ env_parent_id (envs k1 e) = parent_id.

(** The page allocator: [page_alloc] takes a page off the free list,
    [page_free] puts one back, neither touches a mapping, and a
    [page_insert] that fails has changed nothing. *)
Record pmap_contract : Prop := {
  page_insert_failed :
    forall (m : M) pgdir pp va perm r m',
      page_insert m pgdir pp va perm = (r, m') -> r < 0 -> m' = m;
  page_alloc_takes :
    forall (m : M) pp m1,
      page_alloc m = Some (pp, m1) ->
      page_is_free m pp = true /\ page_is_free m1 pp = false
      /\ forall q, q <> pp -> page_is_free m1 q = page_is_free m q;
  page_alloc_lookup :
    forall (m : M) pp m1,
      page_alloc m = Some (pp, m1) ->
      forall pgdir va, page_lookup m1 pgdir va = page_lookup m pgdir va;
  page_free_gives :
    forall (m : M) pp,
      page_is_free (page_free m pp) pp = true
      /\ forall q, q <> pp -> page_is_free (page_free m pp) q = page_is_free m q;
  page_free_lookup :
    forall (m : M) pp pgdir va,
      page_lookup (page_free m pp) pgdir va = page_lookup m pgdir va
}.

(** The kernel state an outcome carries. *)
Definition state_of (o : Outcome M) : Kernel M :=
  match o with
  | Ret _ k => k
  | Yield k => k
  | Panic k => k
  end.

(** The value a handler returns to the dispatcher, if it returns. *)
Definition returned (o : Outcome M) : option Z :=
  match o with
  | Ret r _ => Some r
  | _ => None
  end.

(** The handler ended in [sched_yield]. *)
Definition yielded (o : Outcome M) : bool :=
  match o with
  | Yield _ => true
  | _ => false
  end.

(** The slot [i] is the first one the scan of [sys_ipc_recv] stops at. *)
Definition first_sent_to_me (k : Kernel M) (i : nat) : Prop :=
  (i < NENV)%nat /\ sent_to_me k i = true
  /\ forall j, (j < i)%nat -> sent_to_me k j = false.

(** What a parked sender keeps while it is blocked. *)
Definition same_parked_state (a b : Env) : Prop :=
  env_status a = env_status b
  /\ env_ipc_pending_envid a = env_ipc_pending_envid b
  /\ env_ipc_pending_value a = env_ipc_pending_value b
  /\ env_ipc_pending_page a = env_ipc_pending_page b
  /\ env_ipc_pending_perm a = env_ipc_pending_perm b.

End Contracts.

(** ** Concrete kernel states *)

Module Scenario.

Definition blank : Env :=
  mkEnv Ref.zero_tf 0 0 ENV_FREE 0 0 0 false 0 0 0 0 0 0 None 0.

Definition pgdir_S : pgdir_t := 0xF0001000.
Definition pgdir_R : pgdir_t := 0xF0002000.

(** The sender [S] (slot 1, id 0x1001), running. *)
Definition env_S : Env :=
  mkEnv (set_reg_eax 77 Ref.zero_tf) 0x1001 0 ENV_RUNNING pgdir_S 0 0x10000000
        false 0 0 0 0 0 0 None 0.

(** The receiver [R] (slot 2, id 0x1002), a child of [S]. *)
Definition env_R : Env :=
  mkEnv (set_reg_eax 13 Ref.zero_tf) 0x1002 0x1001 ENV_RUNNABLE pgdir_R
        0x800020 0 false 0 0 0 0 0 0 None 0.

Definition envs0 (i : nat) : Env :=
  match i with
  | 1%nat => env_S
  | 2%nat => env_R
  | _ => blank
  end.

(** Sixteen pages, the first six in use; page 5 is mapped writable at
    0x400000 in [S] and page 4 read-only at 0x401000. *)
Definition mem0 : Ref.PhysMem :=
  Ref.mkPhysMem 16
    (fun pp => (6 <=? pp)%nat)
    (fun pp => if (pp <? 6)%nat then 1%nat else 0%nat)
    (fun pgdir pdx => (pgdir =? pgdir_S) && (pdx =? 1))
    (fun pgdir vpn =>
       if (pgdir =? pgdir_S) && (vpn =? 0x400) then Some (5%nat, 7)
       else if (pgdir =? pgdir_S) && (vpn =? 0x401) then Some (4%nat, 5)
       else None).

(** [S] is running. *)
Definition k0 : Kernel Ref.PhysMem := mkKernel envs0 1 mem0.

(** [R] receives a page at 0x800000 and blocks; [S] sends page 5 with
    perm 7; [R] runs again and unmaps the page. *)
Definition k1 : Kernel Ref.PhysMem :=
  state_of (run (sys_ipc_recv 0x800000) (Ref.env_run 2 k0)).
Definition k2 : Kernel Ref.PhysMem :=
  state_of (run (sys_ipc_try_send 0x1002 1 0x400000 7) (Ref.env_run 1 k1)).
Definition k3 : Kernel Ref.PhysMem :=
  state_of (run (sys_page_unmap 0 0x800000) (Ref.env_run 2 k2)).

(** [R] receives again, this time asking for no page ([dstva = UTOP]),
    and blocks; [S] runs. *)
Definition k4 : Kernel Ref.PhysMem :=
  Ref.env_run 1 (state_of (run (sys_ipc_recv Ref.UTOP) k3)).

(** [R] receives again at 0x800000 and blocks; [S] runs. *)
Definition k5 : Kernel Ref.PhysMem :=
  Ref.env_run 1 (state_of (run (sys_ipc_recv 0x800000) k3)).

(** [R] is running, and the environments in slots 1 and 3 are both
    parked in a send to [R]. *)
Definition env_S3 : Env :=
  mkEnv Ref.zero_tf 0x1003 0x1001 ENV_NOT_RUNNABLE 0xF0003000 0 0 false
        0 0 0 0 0x1002 33 None 0.

Definition k_two_senders : Kernel Ref.PhysMem :=
  mkKernel
    (fun i =>
       match i with
       | 1%nat =>
           set_env_ipc_pending_page (Some 5%nat)
             (set_env_ipc_pending_perm 7
                (set_env_ipc_pending_value 11
                   (set_env_ipc_pending_envid 0x1002
                      (set_env_status ENV_NOT_RUNNABLE env_S))))
       | 2%nat => set_env_status ENV_RUNNING env_R
       | 3%nat => env_S3
       | _ => blank
       end)
    2 mem0.

(** [R] has harvested the send parked in slot 1; [S] runs again, its
    [env_ipc_pending_page] still holding the page of that send. *)
Definition k_harvested : Kernel Ref.PhysMem :=
  Ref.env_run 1 (state_of (run (sys_ipc_recv 0x800000) k_two_senders)).

(** Page 9 is the only free page, and [S] has no page table for
    0x800000. *)
Definition mem_last : Ref.PhysMem :=
  Ref.mkPhysMem 16 (fun pp => Nat.eqb pp 9) (fun _ => 1%nat)
                (Ref.pt_present mem0) (Ref.pte mem0).

Definition k_last : Kernel Ref.PhysMem := mkKernel envs0 1 mem_last.

(** [mem_last] after [page_alloc] has taken page 9. *)
Definition mem_taken : Ref.PhysMem :=
  match Ref.page_alloc mem_last with
  | Some (_, m) => m
  | None => mem_last
  end.

End Scenario.

(** ** The rest of [kern/syscall.c] *)

(** What the remaining handlers and the dispatcher call: the console, the
    user-memory checker, the scheduler side of [kern/env.c], the lock, and
    the constants of [inc/memlayout.h], [inc/mmu.h], [inc/env.h] and
    [inc/syscall.h].  A C function is a statement of the handler monad:
    it may change the kernel state, and it may not come back. *)
Class Extern2 (M : Type) : Type := {
  ULIM : Z;
  GD_UT : Z;
  GD_UD : Z;
  FL_IF : Z;
  (** [sizeof(struct Trapframe)] *)
  sizeof_Trapframe : Z;
  (** the value of an [env_status] constant of [inc/env.h] *)
  env_status_code : EnvStatus -> Z;
  (** [ROUNDUP(a, n)] of [inc/types.h] *)
  ROUNDUP : Z -> Z -> Z;
  SYS_cputs : Z;
  SYS_cgetc : Z;
  SYS_getenvid : Z;
  SYS_env_destroy : Z;
  SYS_map_kernel_page : Z;
  SYS_yield : Z;
  SYS_exofork : Z;
  SYS_env_set_status : Z;
  SYS_env_set_trapframe : Z;
  SYS_env_set_pgfault_upcall : Z;
  SYS_exec_commit : Z;
  SYS_page_alloc : Z;
  SYS_page_map : Z;
  SYS_page_unmap : Z;
  SYS_ipc_try_send : Z;
  SYS_ipc_recv : Z;
  SYS_sbrk : Z;
  (** [user_mem_assert(env, va, len, perm)] *)
  user_mem_assert : nat -> Z -> Z -> Z -> Sys M unit;
  (** [cprintf(fmt, ...)] with its integer arguments *)
  cprintf : String.string -> list Z -> Sys M unit;
  (** [cons_getc()] *)
  cons_getc : Sys M Z;
  (** [env_destroy(e)] *)
  env_destroy : nat -> Sys M unit;
  (** [env_run(e)] *)
  env_run : nat -> Sys M unit;
  (** [lcr3(pa)] *)
  lcr3 : Z -> Sys M unit;
  (** [region_alloc(e, va, len)] *)
  region_alloc : nat -> Z -> Z -> Sys M unit;
  (** the [struct Trapframe] a user pointer points to *)
  read_trapframe : Kernel M -> Z -> Trapframe;
  (** [lock_kernel()] and [unlock_kernel()] *)
  lock_kernel : Sys M unit;
  unlock_kernel : Sys M unit
}.

Definition set_tf_es (v : Z) (tf : Trapframe) : Trapframe :=
  mkTrapframe (tf_regs tf) v (tf_ds tf) (tf_trapno tf) (tf_err tf)
    (tf_eip tf) (tf_cs tf) (tf_eflags tf) (tf_esp tf) (tf_ss tf).

Definition set_tf_ds (v : Z) (tf : Trapframe) : Trapframe :=
  mkTrapframe (tf_regs tf) (tf_es tf) v (tf_trapno tf) (tf_err tf)
    (tf_eip tf) (tf_cs tf) (tf_eflags tf) (tf_esp tf) (tf_ss tf).

Definition set_tf_cs (v : Z) (tf : Trapframe) : Trapframe :=
  mkTrapframe (tf_regs tf) (tf_es tf) (tf_ds tf) (tf_trapno tf) (tf_err tf)
    (tf_eip tf) v (tf_eflags tf) (tf_esp tf) (tf_ss tf).

Definition set_tf_eflags (v : Z) (tf : Trapframe) : Trapframe :=
  mkTrapframe (tf_regs tf) (tf_es tf) (tf_ds tf) (tf_trapno tf) (tf_err tf)
    (tf_eip tf) (tf_cs tf) v (tf_esp tf) (tf_ss tf).

Definition set_tf_ss (v : Z) (tf : Trapframe) : Trapframe :=
  mkTrapframe (tf_regs tf) (tf_es tf) (tf_ds tf) (tf_trapno tf) (tf_err tf)
    (tf_eip tf) (tf_cs tf) (tf_eflags tf) (tf_esp tf) v.

Definition set_env_pgdir (v : pgdir_t) (e : Env) : Env :=
  mkEnv (env_tf e) (env_id e) (env_parent_id e) (env_status e) v
    (env_pgfault_upcall e) (env_break e) (env_ipc_recving e)
    (env_ipc_dstva e) (env_ipc_value e) (env_ipc_from e) (env_ipc_perm e)
    (env_ipc_pending_envid e) (env_ipc_pending_value e)
    (env_ipc_pending_page e) (env_ipc_pending_perm e).

(** A value stored in a [uint32_t]. *)
Definition wrap32 (x : Z) : Z := x mod 2 ^ 32.

(** A [uint32_t] read as an [int32_t] (two's complement). *)
Definition to_int32 (x : Z) : Z :=
  if wrap32 x <? 2 ^ 31 then wrap32 x else wrap32 x - 2 ^ 32.

Section Handlers2.
Context {M : Type} {X : Extern M} {Y : Extern2 M}.

(** [sys_cputs] *)
Definition sys_cputs (s len : Z) : Sys M unit :=
  when (s =? 0) panic ;;
  c <- gets curenv ;;
  user_mem_assert c s len 0 ;;
  cprintf "%.*s" [len; s].

(** [sys_cgetc] *)
Definition sys_cgetc : Sys M Z := cons_getc.

(** [sys_env_destroy] *)
Definition sys_env_destroy (envid : Z) : Sys M Z :=
  '(r, e) <- call_envid2env envid true ;;
  when (r <? 0) (return_ r) ;;
  c <- gets curenv ;;
  me <- gets (fun k => env_id (cur k)) ;;
  (if Nat.eqb e c then cprintf "[%08x] exiting gracefully\n" [me]
   else
     it <- gets (fun k => env_id (envs k e)) ;;
     cprintf "[%08x] destroying %08x\n" [me; it]) ;;
  env_destroy e ;;
  ret 0.

(** [sys_yield] *)
Definition sys_yield : Sys M unit := sched_yield.

(** [sys_env_set_status].  [env_status] holds the constant; a [status]
    that passes the test is one of the two constants. *)
Definition sys_env_set_status (envid status : Z) : Sys M Z :=
  '(r, env) <- call_envid2env envid true ;;
  when (r <? 0) (return_ r) ;;
  when (negb (status =? env_status_code ENV_RUNNABLE)
        && negb (status =? env_status_code ENV_NOT_RUNNABLE))
       (return_ (- E_INVAL)) ;;
  store env (set_env_status
               (if status =? env_status_code ENV_RUNNABLE
                then ENV_RUNNABLE else ENV_NOT_RUNNABLE)) ;;
  ret 0.

(** [sys_env_set_trapframe] *)
Definition sys_env_set_trapframe (envid tf : Z) : Sys M Z :=
  c <- gets curenv ;;
  user_mem_assert c tf sizeof_Trapframe 0 ;;
  '(r, env) <- call_envid2env envid true ;;
  when (r <? 0) (return_ r) ;;
  utf <- gets (fun k => read_trapframe k tf) ;;
  store env (set_env_tf utf) ;;
  store env (fun e => set_env_tf (set_tf_ds (Z.lor GD_UD 3) (env_tf e)) e) ;;
  store env (fun e => set_env_tf (set_tf_es (Z.lor GD_UD 3) (env_tf e)) e) ;;
  store env (fun e => set_env_tf (set_tf_ss (Z.lor GD_UD 3) (env_tf e)) e) ;;
  store env (fun e => set_env_tf (set_tf_cs (Z.lor GD_UT 3) (env_tf e)) e) ;;
  store env (fun e => set_env_tf
                        (set_tf_eflags (Z.lor (tf_eflags (env_tf e)) FL_IF)
                                       (env_tf e)) e) ;;
  ret 0.

(** The copies and the swap of [sys_exec_commit], from
    [curenv->env_tf = env->env_tf] to [env->env_pgdir = tmp_pgdir]. *)
Definition exec_commit_swap (env : nat) : Sys M unit :=
  tf <- gets (fun k => env_tf (envs k env)) ;;
  store_cur (set_env_tf tf) ;;
  upcall <- gets (fun k => env_pgfault_upcall (envs k env)) ;;
  store_cur (set_env_pgfault_upcall upcall) ;;
  brk <- gets (fun k => env_break (envs k env)) ;;
  store_cur (set_env_break brk) ;;
  tmp_pgdir <- gets (fun k => env_pgdir (cur k)) ;;
  pgdir <- gets (fun k => env_pgdir (envs k env)) ;;
  store_cur (set_env_pgdir pgdir) ;;
  store env (set_env_pgdir tmp_pgdir).

(** The end of [sys_exec_commit], from [lcr3] on. *)
Definition exec_commit_finish (env : nat) : Sys M Z :=
  pgdir <- gets (fun k => env_pgdir (cur k)) ;;
  lcr3 (PADDR pgdir) ;;
  env_destroy env ;;
  c <- gets curenv ;;
  env_run c ;;
  ret 0.

(** [sys_exec_commit] *)
Definition sys_exec_commit (envid : Z) : Sys M Z :=
  '(r, env) <- call_envid2env envid true ;;
  when (r <? 0) (return_ r) ;;
  exec_commit_swap env ;;
  exec_commit_finish env.

(** The test of [sys_sbrk], on [uint32_t]:
    [brk + inc_size > ULIM || brk + inc_size < brk] *)
Definition sbrk_out_of_range (brk inc_size : Z) : bool :=
  (ULIM <? wrap32 (brk + inc_size)) || (wrap32 (brk + inc_size) <? brk).

(** [sys_sbrk].  [inc_size] and [env_break] are [uint32_t]; the new break
    is returned as an [int]. *)
Definition sys_sbrk (inc : Z) : Sys M Z :=
  let inc_size := wrap32 (ROUNDUP inc PGSIZE) in
  brk <- gets (fun k => env_break (cur k)) ;;
  if sbrk_out_of_range brk inc_size then
    me <- gets (fun k => env_id (cur k)) ;;
    cprintf "[%08x] sbrk out of range" [me] ;;
    c <- gets curenv ;;
    env_destroy c ;;
    return_ (- 1)
  else
    c <- gets curenv ;;
    brk <- gets (fun k => env_break (cur k)) ;;
    region_alloc c brk inc_size ;;
    brk <- gets (fun k => env_break (cur k)) ;;
    store_cur (set_env_break (wrap32 (brk + inc_size))) ;;
    brk <- gets (fun k => env_break (cur k)) ;;
    ret (to_int32 brk).

(** [syscall]: the [switch] as the chain of its cases.  An argument that
    a handler takes as [envid_t] or [int] is the [uint32_t] read as an
    [int32_t]. *)
Definition syscall (syscallno a1 a2 a3 a4 a5 : Z) : Sys M Z :=
  if syscallno =? SYS_cputs then sys_cputs a1 a2 ;; ret 0
  else if syscallno =? SYS_cgetc then sys_cgetc
  else if syscallno =? SYS_getenvid then sys_getenvid
  else if syscallno =? SYS_env_destroy then sys_env_destroy (to_int32 a1)
  else if syscallno =? SYS_map_kernel_page then sys_map_kernel_page a1 a2
  else if syscallno =? SYS_yield then sys_yield ;; ret 0
  else if syscallno =? SYS_exofork then sys_exofork
  else if syscallno =? SYS_env_set_status then
    sys_env_set_status (to_int32 a1) (to_int32 a2)
  else if syscallno =? SYS_env_set_trapframe then
    sys_env_set_trapframe (to_int32 a1) a2
  else if syscallno =? SYS_env_set_pgfault_upcall then
    sys_env_set_pgfault_upcall (to_int32 a1) a2
  else if syscallno =? SYS_exec_commit then sys_exec_commit (to_int32 a1)
  else if syscallno =? SYS_page_alloc then
    sys_page_alloc (to_int32 a1) a2 (to_int32 a3)
  else if syscallno =? SYS_page_map then
    sys_page_map (to_int32 a1) a2 (to_int32 a3) a4 (to_int32 a5)
  else if syscallno =? SYS_page_unmap then sys_page_unmap (to_int32 a1) a2
  else if syscallno =? SYS_ipc_try_send then
    sys_ipc_try_send (to_int32 a1) a2 a3 a4
  else if syscallno =? SYS_ipc_recv then sys_ipc_recv a1
  else if syscallno =? SYS_sbrk then sys_sbrk a1
  else ret (- E_INVAL).

(** [sysenter] *)
Definition sysenter (syscallno a1 a2 a3 a4 a5 : Z) (tf : Trapframe)
  : Sys M Z :=
  lock_kernel ;;
  store_cur (set_env_tf tf) ;;
  r <- syscall syscallno a1 a2 a3 a4 a5 ;;
  unlock_kernel ;;
  ret r.

End Handlers2.

(** ** A reference implementation of the second interface *)

Module Ref2.

Definition ULIM : Z := 0xEF800000.
Definition GD_UT : Z := 0x18.
Definition GD_UD : Z := 0x20.
Definition FL_IF : Z := 0x200.
Definition sizeof_Trapframe : Z := 68.

Definition env_status_code (s : EnvStatus) : Z :=
  match s with
  | ENV_FREE => 0
  | ENV_DYING => 1
  | ENV_RUNNABLE => 2
  | ENV_RUNNING => 3
  | ENV_NOT_RUNNABLE => 4
  end.

(** [a] rounded up to a multiple of [n], on [uint32_t]. *)
Definition ROUNDUP (a n : Z) : Z :=
  let s := wrap32 (a + n - 1) in s - s mod n.

(** Modelled from the spec: [env_destroy] of [kern/env.c] is not part of
    the sources.  The slot becomes FREE and the mappings of its page
    directory are dropped; destroying [curenv] does not come back.  (The
    reference memory does not put the dropped pages on the free list.) *)
Definition env_destroy (e : nat) : Sys Ref.PhysMem unit :=
  fun k =>
    let pgdir := env_pgdir (envs k e) in
    let m := mem k in
    let m' :=
      Ref.mkPhysMem (Ref.npages m) (Ref.pp_free m) (Ref.pp_ref m)
        (fun pd pdx => if pd =? pgdir then false else Ref.pt_present m pd pdx)
        (fun pd vpn => if pd =? pgdir then None else Ref.pte m pd vpn) in
    let k' := mkKernel (upd_env e (set_env_status ENV_FREE) (envs k))
                       (curenv k) m' in
    if Nat.eqb e (curenv k) then Done (Yield k') else Next tt k'.

(** Every page of the [n] pages from page number [vpn] on is mapped in
    [pgdir] with all the bits of [perm]. *)
Fixpoint pages_allow (m : Ref.PhysMem) (pgdir : pgdir_t) (perm : Z)
    (n : nat) (vpn : Z) : bool :=
  match n with
  | O => true
  | S n' =>
      match Ref.pte m pgdir vpn with
      | Some (_, flags) =>
          (Z.land flags perm =? perm) && pages_allow m pgdir perm n' (vpn + 1)
      | None => false
      end
  end.

(** Modelled from the spec: [user_mem_assert] destroys [env] if any byte
    of [[va, va+len)] is not accessible at [perm] to user mode. *)
Definition user_mem_assert (env : nat) (va len perm : Z)
  : Sys Ref.PhysMem unit :=
  fun k =>
    let first := va / Ref.PGSIZE in
    let last := (va + len - 1) / Ref.PGSIZE in
    let n := if len <=? 0 then O else Z.to_nat (last - first + 1) in
    if (va + len <=? ULIM)
       && pages_allow (mem k) (env_pgdir (envs k env))
                      (Z.lor perm (Z.lor Ref.PTE_U Ref.PTE_P)) n first
    then Next tt k
    else env_destroy env k.

(** [region_alloc]: a fresh page for each of the [n] pages from [va] on;
    the kernel panics when one cannot be had. *)
Fixpoint region_alloc_pages (pgdir : pgdir_t) (n : nat) (va : Z)
    (m : Ref.PhysMem) : option Ref.PhysMem :=
  match n with
  | O => Some m
  | S n' =>
      match Ref.page_alloc m with
      | None => None
      | Some (pp, m1) =>
          let '(r, m2) :=
            Ref.page_insert m1 pgdir pp va (Z.lor Ref.PTE_U Ref.PTE_W) in
          if r <? 0 then None
          else region_alloc_pages pgdir n' (va + Ref.PGSIZE) m2
      end
  end.

Definition region_alloc (e : nat) (va len : Z) : Sys Ref.PhysMem unit :=
  fun k =>
    let start := va - va mod Ref.PGSIZE in
    let stop := ROUNDUP (va + len) Ref.PGSIZE in
    match region_alloc_pages (env_pgdir (envs k e))
            (Z.to_nat ((stop - start) / Ref.PGSIZE)) start (mem k) with
    | Some m' => Next tt (set_mem m' k)
    | None => Done (Panic k)
    end.

(** The reference memory holds no page contents: the frame behind a user
    pointer is a fixed function of the pointer. *)
Definition read_trapframe (k : Kernel Ref.PhysMem) (va : Z) : Trapframe :=
  mkTrapframe (mkPushRegs 1 2 3 4 5 6 7 va) 0 0 0 0 (va + 4) 0x8 0
              (va + 8) 0x10.

#[global] Instance ext2 : Extern2 Ref.PhysMem :=
  Build_Extern2 Ref.PhysMem ULIM GD_UT GD_UD FL_IF sizeof_Trapframe
    env_status_code ROUNDUP
    0 1 2 3 4 5 6 7 8 9 10 11 12 13 14 15 16
    user_mem_assert
    (fun _ _ k => Next tt k)
    (fun k => Next 0 k)
    env_destroy
    (fun e k => Done (Yield (Ref.env_run e k)))
    (fun _ k => Next tt k)
    region_alloc
    read_trapframe
    (fun k => Next tt k)
    (fun k => Next tt k).

End Ref2.

(** ** What the handlers expect of the second interface *)

Section Contracts2.
Context {M : Type} {X : Extern M} {Y : Extern2 M}.

(** [page_insert] and [page_remove] against [page_lookup]: an inserted
    page is found at its address, writable exactly when [perm] has PTE_W,
    and nothing is found where a page was removed. *)
Record pmap_lookup_contract : Prop := {
  page_insert_lookup :
    forall (m : M) pgdir pp va perm r m',
      page_insert m pgdir pp va perm = (r, m') -> 0 <= r ->
      exists pte,
        page_lookup m' pgdir va = Some (pp, pte)
        /\ Z.land pte PTE_W = Z.land perm PTE_W;
  page_remove_lookup :
    forall (m : M) pgdir va,
      page_lookup (page_remove m pgdir va) pgdir va = None
}.

(** [envid2env] reads the [envs] table and [curenv], not memory. *)
Definition envid2env_reads_envs : Prop :=
  forall (k : Kernel M) (m : M) envid checkperm,
    envid2env (set_mem m k) envid checkperm = envid2env k envid checkperm.

(** [region_alloc], when it comes back, has left [curenv] and every
    [struct Env] alone. *)
Definition region_alloc_contract : Prop :=
  forall (k : Kernel M) e va len k',
    region_alloc e va len k = Next tt k' ->
    curenv k' = curenv k /\ forall j, envs k' j = envs k j.

(** The lock is no part of the kernel state of the model. *)
Definition lock_contract : Prop :=
  forall k : Kernel M, lock_kernel k = Next tt k /\ unlock_kernel k = Next tt k.

(** The case constants of the [switch] that come before [SYS_exofork]
    differ from it. *)
Definition exofork_case_reached : Prop :=
  SYS_exofork <> SYS_cputs /\ SYS_exofork <> SYS_cgetc
  /\ SYS_exofork <> SYS_getenvid /\ SYS_exofork <> SYS_env_destroy
  /\ SYS_exofork <> SYS_map_kernel_page /\ SYS_exofork <> SYS_yield.

(** [syscallno] is none of the case constants of the [switch]. *)
Definition no_such_syscall (syscallno : Z) : Prop :=
  ~ In syscallno
      [SYS_cputs; SYS_cgetc; SYS_getenvid; SYS_env_destroy;
       SYS_map_kernel_page; SYS_yield; SYS_exofork; SYS_env_set_status;
       SYS_env_set_trapframe; SYS_env_set_pgfault_upcall; SYS_exec_commit;
       SYS_page_alloc; SYS_page_map; SYS_page_unmap; SYS_ipc_try_send;
       SYS_ipc_recv; SYS_sbrk].

(** The state [b] is the state [a] after the scheduler ran: memory is
    the same and a [struct Env] differs at most in [env_status] (which
    environment is [curenv] is free). *)
Definition rescheduled (a b : Kernel M) : Prop :=
  mem b = mem a
  /\ forall j, envs b j = set_env_status (env_status (envs b j)) (envs a j).

(** The state in which [sys_ipc_recv] leaves a caller that blocks. *)
Definition recv_blocked (dstva : Z) (k : Kernel M) : Kernel M :=
  on_env (curenv k) (set_env_status ENV_NOT_RUNNABLE)
    (on_env (curenv k) (set_env_ipc_recving true)
       (if dstva <? UTOP
        then on_env (curenv k) (set_env_ipc_dstva dstva) k else k)).

End Contracts2.

(** ** Properties *)

Lemma upd_env_same (i : nat) (f : Env -> Env) (es : nat -> Env) :
  upd_env i f es i = f (es i).
Proof. unfold upd_env. now rewrite Nat.eqb_refl. Qed.

Lemma upd_env_other (i j : nat) (f : Env -> Env) (es : nat -> Env) :
  j <> i -> upd_env i f es j = es j.
Proof.
  intros Hne. unfold upd_env.
  destruct (Nat.eqb j i) eqn:E; [apply Nat.eqb_eq in E; contradiction | reflexivity].
Qed.

Lemma ltb_false_of_le (r : Z) : 0 <= r -> (r <? 0) = false.
Proof. intros H. apply Z.ltb_ge. exact H. Qed.

Lemma ltb_true_of_lt (r : Z) : r < 0 -> (r <? 0) = true.
Proof. intros H. apply Z.ltb_lt. exact H. Qed.

(** Unfolds the statements of the handler monad. *)
Ltac sys :=
  cbv beta iota delta
    [run bind ret return_ panic sched_yield gets store store_cur when
     call_page_alloc call_page_free call_page_insert call_page_lookup
     call_page_remove call_envid2env call_env_alloc] in *.

Ltac fields :=
  cbn [env_tf env_id env_parent_id env_status env_pgdir env_pgfault_upcall
       env_break env_ipc_recving env_ipc_dstva env_ipc_value env_ipc_from
       env_ipc_perm env_ipc_pending_envid env_ipc_pending_value
       env_ipc_pending_page env_ipc_pending_perm
       set_env_tf set_env_status set_env_pgfault_upcall set_env_break
       set_env_ipc_recving set_env_ipc_dstva set_env_ipc_value
       set_env_ipc_from set_env_ipc_perm set_env_ipc_pending_envid
       set_env_ipc_pending_value set_env_ipc_pending_page
       set_env_ipc_pending_perm set_env_eax set_reg_eax env_eax
       tf_regs reg_eax envs curenv mem state_of fst snd] in *.

Ltac open_state :=
  unfold cur, on_env, set_mem, upd_env in *; fields.

(** Rewrites with what is known of index comparisons and of conditions. *)
Ltac known :=
  repeat match goal with
         | |- context [Nat.eqb ?a ?a] => rewrite (Nat.eqb_refl a)
         | H : Nat.eqb ?a ?b = _ |- context [Nat.eqb ?a ?b] => rewrite H
         | H : Nat.eqb ?a ?b = _ |- context [Nat.eqb ?b ?a] =>
             rewrite (Nat.eqb_sym b a), H
         | H : ?x = true |- context [?x] => rewrite H
         | H : ?x = false |- context [?x] => rewrite H
         end.

Ltac norm :=
  repeat (progress (fields; known; cbn [andb orb negb])).

Ltac eqb_norm := norm.

(** Splits on the next index comparison, condition or call result. *)
Ltac split_path :=
  norm;
  repeat (match goal with
          | |- context [Nat.eqb ?a ?b] =>
              let E := fresh "E" in
              destruct (Nat.eqb a b) eqn:E;
              [apply Nat.eqb_eq in E; subst | ]
          | |- context [if ?c then _ else _] => destruct c eqn:?
          | |- context [match ?x with Some _ => _ | None => _ end] =>
              first [destruct x as [[? ?]|] eqn:? | destruct x eqn:?]
          | |- context [let '(_, _) := ?p in _] => destruct p eqn:?
          end; norm).

Ltac finish_fields :=
  fields; repeat split; intros; split_path; fields;
  try reflexivity; try congruence;
  repeat match goal with
         | H : Nat.eqb _ _ = true |- _ => apply Nat.eqb_eq in H
         end;
  congruence.

Section Properties.
Context {M : Type} {X : Extern M}.

(** *** Environment operations *)

(** C3: a successful [sys_exofork] leaves the child NOT_RUNNABLE, with the
    caller's register frame except that the accumulator is 0, with the
    caller's [env_break] and with the caller's [env_id] as parent, and
    returns the child's [env_id]; the caller's own frame is untouched. *)
Theorem sys_exofork_child (k : Kernel M) (r : Z) (child : nat) (k1 : Kernel M) :
  env_alloc_contract ->
  env_status (cur k) <> ENV_FREE ->
  env_alloc k (env_id (cur k)) = (r, child, k1) ->
  0 <= r ->
  exists k',
    run sys_exofork k = Ret (env_id (envs k' child)) k'
    /\ env_status (envs k' child) = ENV_NOT_RUNNABLE
    /\ env_tf (envs k' child) = set_reg_eax 0 (env_tf (cur k))
    /\ env_eax (envs k' child) = 0
    /\ env_break (envs k' child) = env_break (cur k)
    /\ env_parent_id (envs k' child) = env_id (cur k)
    /\ cur k' = cur k.
Proof.
  intros Hc Hlive Halloc Hr.
  destruct (Hc k _ _ _ _ Halloc Hr Hlive) as (Hne & Hcur & Hsame & Hpar).
  unfold sys_exofork. sys. rewrite Halloc.
  rewrite (ltb_false_of_le r Hr).
  match goal with |- exists _, Ret _ ?K = _ /\ _ => exists K end.
  split; [reflexivity|].
  unfold env_eax, cur in *. cbn [on_env envs curenv mem].
  rewrite !upd_env_same.
  rewrite !upd_env_other by (rewrite Hcur; auto).
  rewrite Hcur in *. rewrite Hsame.
  repeat split; try reflexivity. exact Hpar.
Qed.

(** C8, as the code has it: [sys_env_set_pgfault_upcall] with an envid
    that resolves and a null [func] makes the kernel panic; no value is
    returned to the caller, and no [struct Env] has been written. *)
Theorem sys_env_set_pgfault_upcall_null_panics
    (k : Kernel M) (envid r : Z) (env : nat) :
  envid2env k envid true = (r, env) ->
  0 <= r ->
  run (sys_env_set_pgfault_upcall envid 0) k = Panic k.
Proof.
  intros He Hr. unfold sys_env_set_pgfault_upcall. sys.
  rewrite He, (ltb_false_of_le r Hr). reflexivity.
Qed.

(** With a [func] that is not null the upcall is recorded. *)
Lemma sys_env_set_pgfault_upcall_ok
    (k : Kernel M) (envid func r : Z) (env : nat) :
  envid2env k envid true = (r, env) ->
  0 <= r -> func <> 0 ->
  run (sys_env_set_pgfault_upcall envid func) k
  = Ret 0 (on_env env (set_env_pgfault_upcall func) k).
Proof.
  intros He Hr Hf. unfold sys_env_set_pgfault_upcall. sys.
  rewrite He, (ltb_false_of_le r Hr).
  apply Z.eqb_neq in Hf. rewrite Hf. reflexivity.
Qed.

(** *** Address-space operations *)

(** C7, the code at the failing input: for a [kpage] whose physical
    address has no managed page, [sys_map_kernel_page] returns [E_INVAL]
    itself, a positive number, where every other handler returns
    [-E_INVAL]. *)
Theorem sys_map_kernel_page_unmanaged (k : Kernel M) (kpage va : Z) :
  0 < E_INVAL ->
  pa2page (mem k) (PADDR kpage) = None ->
  run (sys_map_kernel_page kpage va) k = Ret E_INVAL k
  /\ ~ E_INVAL < 0 /\ E_INVAL <> - E_INVAL.
Proof.
  intros Hpos Hnone. unfold sys_map_kernel_page. sys.
  rewrite Hnone. split; [reflexivity | lia].
Qed.

(** C4: when [perm] asks for PTE_W and the page at [srcva] in the source
    environment is not mapped writable (or not mapped at all),
    [sys_page_map] returns with the kernel state of its entry -- nothing
    is mapped in the destination -- and what it returns is [-E_INVAL]
    whenever both envids resolve (the two lookups are made first and
    return their own error). *)
Theorem sys_page_map_no_write_escalation
    (k : Kernel M) (srcenvid srcva dstenvid dstva perm : Z) :
  Z.land perm PTE_W <> 0 ->
  match page_lookup (mem k)
          (env_pgdir (envs k (snd (envid2env k srcenvid true)))) srcva with
  | Some (_, srcpte) => Z.land srcpte PTE_W = 0
  | None => True
  end ->
  (exists r, run (sys_page_map srcenvid srcva dstenvid dstva perm) k = Ret r k)
  /\ (0 <= fst (envid2env k srcenvid true) ->
      0 <= fst (envid2env k dstenvid true) ->
      run (sys_page_map srcenvid srcva dstenvid dstva perm) k
      = Ret (- E_INVAL) k).
Proof.
  intros Hw Hro. unfold sys_page_map. sys.
  destruct (envid2env k srcenvid true) as [r1 srcenv]. cbn [fst snd] in *.
  destruct (r1 <? 0) eqn:E1.
  { split; [eexists; reflexivity | intros H; apply Z.ltb_lt in E1; lia]. }
  destruct (envid2env k dstenvid true) as [r2 dstenv]. cbn [fst snd].
  destruct (r2 <? 0) eqn:E2.
  { split; [eexists; reflexivity | intros _ H; apply Z.ltb_lt in E2; lia]. }
  match goal with
  | |- (exists r, ?run = _) /\ _ => assert (Heq : run = Ret (- E_INVAL) k)
  end.
  { destruct (va_invalid srcva); [reflexivity|].
    destruct (va_invalid dstva); [reflexivity|].
    destruct (page_lookup (mem k) (env_pgdir (envs k srcenv)) srcva)
      as [[page srcpte]|]; [|reflexivity].
    destruct (perm_inappropriate perm); [reflexivity|].
    unfold write_escalation.
    apply Z.eqb_neq in Hw. apply Z.eqb_eq in Hro. rewrite Hw, Hro.
    reflexivity. }
  rewrite Heq. split; [eexists; reflexivity | intros _ _; reflexivity].
Qed.

(** [sys_page_map] reaches [page_insert] with PTE_W in [perm] only for a
    page that is mapped writable in the source: whenever the call
    returns 0, the source entry allowed what [perm] asks. *)
Lemma sys_page_map_success
    (k k' : Kernel M) (srcenvid srcva dstenvid dstva perm : Z) :
  run (sys_page_map srcenvid srcva dstenvid dstva perm) k = Ret 0 k' ->
  E_INVAL <> 0 ->
  exists page srcpte,
    page_lookup (mem k) (env_pgdir (envs k (snd (envid2env k srcenvid true))))
                srcva = Some (page, srcpte)
    /\ write_escalation perm srcpte = false.
Proof.
  unfold sys_page_map. sys. intros H Hnz.
  destruct (envid2env k srcenvid true) as [r1 srcenv].
  destruct (r1 <? 0) eqn:E1; [inversion H; subst; discriminate E1|].
  destruct (envid2env k dstenvid true) as [r2 dstenv].
  destruct (r2 <? 0) eqn:E2; [inversion H; subst; discriminate E2|].
  destruct (va_invalid srcva); [inversion H; lia|].
  destruct (va_invalid dstva); [inversion H; lia|].
  cbn [snd].
  destruct (page_lookup (mem k) (env_pgdir (envs k srcenv)) srcva)
    as [[page srcpte]|]; [|inversion H; lia].
  destruct (perm_inappropriate perm); [inversion H; lia|].
  destruct (write_escalation perm srcpte) eqn:Ew; [inversion H; lia|].
  exists page, srcpte. split; [reflexivity | exact Ew].
Qed.

(** *** The IPC rendezvous *)

Lemma sent_to_me_store_cur (k : Kernel M) (f : Env -> Env) (i : nat) :
  (forall e, env_status (f e) = env_status e) ->
  (forall e, env_id (f e) = env_id e) ->
  (forall e, env_ipc_pending_envid (f e) = env_ipc_pending_envid e) ->
  sent_to_me (on_env (curenv k) f k) i = sent_to_me k i.
Proof.
  intros H1 H2 H3. unfold sent_to_me. open_state.
  rewrite Nat.eqb_refl, H2.
  destruct (Nat.eqb i (curenv k)); [rewrite H1, H3|]; reflexivity.
Qed.

Lemma ipc_recv_scan_first (dstva : Z) (k : Kernel M) (i : nat) :
  forall n i0,
    (i0 <= i)%nat -> (i < i0 + n)%nat ->
    sent_to_me k i = true ->
    (forall j, (i0 <= j)%nat -> (j < i)%nat -> sent_to_me k j = false) ->
    ipc_recv_scan dstva n i0 k = ipc_recv_harvest dstva i k.
Proof.
  induction n as [|n IH]; intros i0 Hle Hlt Hi Hfirst; [lia|].
  cbn [ipc_recv_scan]. sys.
  destruct (Nat.eq_dec i0 i) as [->|Hne].
  - rewrite Hi. reflexivity.
  - rewrite (Hfirst i0) by lia.
    apply IH; [lia | lia | exact Hi | intros j Hj1 Hj2; apply Hfirst; lia].
Qed.

Lemma ipc_recv_scan_cases (dstva : Z) (k : Kernel M) :
  forall n i0,
    ipc_recv_scan dstva n i0 k = Next tt k
    \/ exists i, (i0 <= i)%nat /\ (i < i0 + n)%nat /\ sent_to_me k i = true
         /\ (forall j, (i0 <= j)%nat -> (j < i)%nat -> sent_to_me k j = false)
         /\ ipc_recv_scan dstva n i0 k = ipc_recv_harvest dstva i k.
Proof.
  induction n as [|n IH]; intros i0; [left; reflexivity|].
  cbn [ipc_recv_scan]. sys.
  destruct (sent_to_me k i0) eqn:E.
  - right. exists i0. repeat split; try lia. exact E.
  - destruct (IH (S i0)) as [Hn | (i & H1 & H2 & H3 & H4 & H5)].
    + left. exact Hn.
    + right. exists i. repeat split; try lia; try assumption.
      intros j Hj1 Hj2. destruct (Nat.eq_dec j i0) as [->|]; [exact E|].
      apply H4; lia.
Qed.

Lemma harvest_wakeup (k : Kernel M) (dstva : Z) (i j : nat) :
  exists r k',
    ipc_recv_harvest dstva i k = Done (Ret r k')
    /\ (env_status (envs k j) <> ENV_RUNNABLE ->
        env_status (envs k' j) = ENV_RUNNABLE -> env_eax (envs k' j) = 0).
Proof.
  unfold ipc_recv_harvest. sys.
  destruct k as [es c m]. open_state.
  split_path.
  all: eexists; eexists; (split; [reflexivity|]); fields; intros; split_path; congruence.
Qed.

Lemma recv_wakeup (k : Kernel M) (dstva : Z) (j : nat) :
  env_status (envs k j) <> ENV_RUNNABLE ->
  env_status (envs (state_of (run (sys_ipc_recv dstva) k)) j) = ENV_RUNNABLE ->
  env_eax (envs (state_of (run (sys_ipc_recv dstva) k)) j) = 0.
Proof.
  intros Hb. unfold sys_ipc_recv. sys.
  destruct (dstva <? UTOP) eqn:Hd.
  - destruct (negb (dstva mod PGSIZE =? 0)) eqn:Ha.
    + fields. congruence.
    + destruct (ipc_recv_scan_cases dstva (on_env (curenv k) (set_env_ipc_dstva dstva) k) NENV 0)
        as [Hn | (i & _ & _ & _ & _ & Hh)].
      * rewrite Hn. revert Hb. destruct k as [es c m]. open_state. intros Hb.
        split_path; congruence.
      * rewrite Hh.
        destruct (harvest_wakeup (on_env (curenv k) (set_env_ipc_dstva dstva) k) dstva i j)
          as (r & k' & -> & Hw).
        fields. apply Hw. revert Hb. destruct k as [es c m]. open_state. intros Hb.
        split_path; congruence.
  - destruct (ipc_recv_scan_cases dstva k NENV 0)
        as [Hn | (i & _ & _ & _ & _ & Hh)].
    + rewrite Hn. revert Hb. destruct k as [es c m]. open_state. intros Hb.
      split_path; congruence.
    + rewrite Hh.
      destruct (harvest_wakeup k dstva i j) as (r & k' & -> & Hw).
      fields. apply Hw. exact Hb.
Qed.


Lemma ipc_recv_harvest_spec (k : Kernel M) (dstva : Z) (i : nat) :
  exists r k',
    ipc_recv_harvest dstva i k = Done (Ret r k')
    /\ curenv k' = curenv k
    /\ (forall j, j <> i -> same_parked_state (envs k' j) (envs k j))
    /\ (forall j, j <> i -> j <> curenv k -> envs k' j = envs k j)
    /\ ((forall pp,
           env_ipc_pending_page (envs k i) = Some pp -> dstva < UTOP ->
           0 <= fst (page_insert (mem k) (env_pgdir (cur k)) pp dstva
                                 (env_ipc_pending_perm (envs k i)))) ->
        r = 0
        /\ env_ipc_pending_envid (envs k' i) = 0
        /\ env_status (envs k' i) = ENV_RUNNABLE
        /\ env_eax (envs k' i) = 0
        /\ env_ipc_from (cur k') = env_id (envs k i)
        /\ env_ipc_value (cur k') = env_ipc_pending_value (envs k i)).
Proof.
  unfold ipc_recv_harvest, same_parked_state. sys.
  destruct k as [es c m]. open_state.
  destruct (Nat.eqb i c) eqn:Eic; [apply Nat.eqb_eq in Eic; subst i|]; norm;
    (destruct (env_ipc_pending_page (es _)) as [pp|] eqn:Hp; norm;
     [destruct (dstva <? UTOP) eqn:Hd; norm;
      [destruct (page_insert m (env_pgdir (es c)) pp dstva _) as [r m'] eqn:Hpi;
       norm; destruct (r <? 0) eqn:Hr; norm|]|]);
    (eexists; eexists; split; [reflexivity|]); norm.
  all: split; [reflexivity|].
  all: split; [intros j Hj; split_path; try congruence; repeat split; reflexivity|].
  all: split; [intros j Hj Hjc; split_path; try congruence; reflexivity|].
  all: intros Hins.
  all: try (specialize (Hins pp eq_refl (proj1 (Z.ltb_lt _ _) Hd));
            rewrite Hpi in Hins; cbn [fst] in Hins;
            apply Z.ltb_lt in Hr; lia).
  all: norm; repeat split; reflexivity.
Qed.

Lemma store_cur_dstva_view (k : Kernel M) (v : Z) (j : nat) :
  let kd := on_env (curenv k) (set_env_ipc_dstva v) k in
  env_status (envs kd j) = env_status (envs k j)
  /\ env_id (envs kd j) = env_id (envs k j)
  /\ env_pgdir (envs kd j) = env_pgdir (envs k j)
  /\ env_ipc_pending_envid (envs kd j) = env_ipc_pending_envid (envs k j)
  /\ env_ipc_pending_value (envs kd j) = env_ipc_pending_value (envs k j)
  /\ env_ipc_pending_page (envs kd j) = env_ipc_pending_page (envs k j)
  /\ env_ipc_pending_perm (envs kd j) = env_ipc_pending_perm (envs k j)
  /\ (j <> curenv k -> envs kd j = envs k j).
Proof.
  destruct k as [es c m]. open_state.
  destruct (Nat.eqb j c) eqn:E; repeat split; try reflexivity.
  apply Nat.eqb_eq in E. congruence.
Qed.

(** C9: when the scan of [sys_ipc_recv] has senders parked for the
    caller, the one in the slot with the smallest index is the one the
    call harvests: every other slot keeps its status and its pending
    fields, whatever the call returns, and when the call gets through
    (a [dstva] below UTOP is page-aligned, the page insertion does not
    fail) it returns 0 having taken the message of that slot and woken
    it. *)
Theorem sys_ipc_recv_harvests_first (k : Kernel M) (dstva : Z) (i : nat) :
  first_sent_to_me k i ->
  let k' := state_of (run (sys_ipc_recv dstva) k) in
  (forall j, j <> i -> same_parked_state (envs k' j) (envs k j))
  /\ (forall j, j <> i -> j <> curenv k -> envs k' j = envs k j)
  /\ ((dstva < UTOP -> dstva mod PGSIZE = 0) ->
      (forall pp,
         env_ipc_pending_page (envs k i) = Some pp -> dstva < UTOP ->
         0 <= fst (page_insert (mem k) (env_pgdir (cur k)) pp dstva
                               (env_ipc_pending_perm (envs k i)))) ->
      run (sys_ipc_recv dstva) k = Ret 0 k'
      /\ env_ipc_pending_envid (envs k' i) = 0
      /\ env_status (envs k' i) = ENV_RUNNABLE
      /\ env_eax (envs k' i) = 0
      /\ env_ipc_from (cur k') = env_id (envs k i)
      /\ env_ipc_value (cur k') = env_ipc_pending_value (envs k i)).
Proof.
  intros (Hlt & Hi & Hfirst) k'. subst k'.
  unfold sys_ipc_recv. sys.
  destruct (dstva <? UTOP) eqn:Hd.
  - destruct (negb (dstva mod PGSIZE =? 0)) eqn:Ha.
    + cbn [state_of]. split; [|split].
      * intros j _. unfold same_parked_state. auto 6.
      * reflexivity.
      * intros Hal _. apply negb_true_iff, Z.eqb_neq in Ha.
        exfalso. apply Ha, Hal, Z.ltb_lt, Hd.
    + set (kd := on_env (curenv k) (set_env_ipc_dstva dstva) k).
      assert (Hscan : ipc_recv_scan dstva NENV 0 kd
                      = ipc_recv_harvest dstva i kd).
      { apply ipc_recv_scan_first; try lia.
        - unfold kd. rewrite sent_to_me_store_cur; auto.
        - intros j _ Hj. unfold kd. rewrite sent_to_me_store_cur; auto. }
      rewrite Hscan.
      destruct (ipc_recv_harvest_spec kd dstva i)
        as (r & k1 & -> & Hc & H1 & H2 & H3).
      cbn [state_of].
      assert (Hcd : curenv kd = curenv k) by reflexivity.
      assert (Hmd : mem kd = mem k) by reflexivity.
      split; [|split].
      * intros j Hj. specialize (H1 j Hj).
        destruct (store_cur_dstva_view k dstva j)
          as (V1 & _ & _ & V4 & V5 & V6 & V7 & _).
        fold kd in V1, V4, V5, V6, V7. unfold same_parked_state in *.
        rewrite <- V1, <- V4, <- V5, <- V6, <- V7. exact H1.
      * intros j Hj Hjc. rewrite (H2 j Hj) by (rewrite Hcd; exact Hjc).
        apply (store_cur_dstva_view k dstva j). exact Hjc.
      * intros _ Hins.
        destruct (store_cur_dstva_view k dstva i)
          as (_ & V2 & _ & _ & V5 & V6 & V7 & _).
        destruct (store_cur_dstva_view k dstva (curenv k))
          as (_ & _ & V3 & _).
        fold kd in V2, V3, V5, V6, V7.
        destruct H3 as (-> & R1 & R2 & R3 & R4 & R5).
        { intros pp Hpp Hlt'. unfold cur. rewrite Hcd, Hmd, V3, V7.
          apply Hins; [rewrite <- V6; exact Hpp | exact Hlt']. }
        rewrite V2 in R4. rewrite V5 in R5. auto 8.
  - assert (Hscan : ipc_recv_scan dstva NENV 0 k = ipc_recv_harvest dstva i k).
    { apply ipc_recv_scan_first; try lia; auto. }
    rewrite Hscan.
    destruct (ipc_recv_harvest_spec k dstva i)
      as (r & k1 & -> & Hc & H1 & H2 & H3).
    cbn [state_of]. split; [exact H1|]. split; [exact H2|].
    intros _ Hins. destruct (H3 Hins) as (-> & R). auto.
Qed.

Lemma try_send_wakeup (k : Kernel M) (envid value srcva perm : Z) (j : nat) :
  env_status (envs k j) <> ENV_RUNNABLE ->
  env_status
    (envs (state_of (run (sys_ipc_try_send envid value srcva perm) k)) j)
  = ENV_RUNNABLE ->
  env_eax (envs (state_of (run (sys_ipc_try_send envid value srcva perm) k)) j)
  = 0.
Proof.
  intros Hb.
  unfold sys_ipc_try_send, ipc_try_send_deliver. sys.
  destruct (envid2env k envid false) as [r0 e].
  revert Hb. destruct k as [es c m]. open_state. intros Hb.
  split_path; congruence.
Qed.

(** C5: an environment that a call of [sys_ipc_try_send] or of
    [sys_ipc_recv] wakes up -- it was not RUNNABLE when the call began and
    is RUNNABLE in the state the call leaves -- has 0 in the accumulator
    of its saved register frame, so its paused system call returns 0. *)
Theorem ipc_wakeup_sets_accumulator_zero (k : Kernel M) (j : nat) :
  env_status (envs k j) <> ENV_RUNNABLE ->
  (forall envid value srcva perm,
     let k' := state_of (run (sys_ipc_try_send envid value srcva perm) k) in
     env_status (envs k' j) = ENV_RUNNABLE -> env_eax (envs k' j) = 0)
  /\ (forall dstva,
        let k' := state_of (run (sys_ipc_recv dstva) k) in
        env_status (envs k' j) = ENV_RUNNABLE -> env_eax (envs k' j) = 0).
Proof.
  intros Hb. split.
  - intros envid value srcva perm k'. apply try_send_wakeup. exact Hb.
  - intros dstva k'. apply recv_wakeup. exact Hb.
Qed.

(** A send to a receiver that is blocked in [sys_ipc_recv] and asks for
    no page transfer delivers the value and wakes the receiver. *)
Lemma sys_ipc_try_send_delivers_value
    (k : Kernel M) (envid value srcva perm r : Z) (env : nat) :
  envid2env k envid false = (r, env) -> 0 <= r ->
  env_ipc_recving (envs k env) = true ->
  UTOP <= srcva ->
  exists k',
    run (sys_ipc_try_send envid value srcva perm) k = Ret 0 k'
    /\ env_ipc_recving (envs k' env) = false
    /\ env_ipc_from (envs k' env) = env_id (cur k)
    /\ env_ipc_value (envs k' env) = value
    /\ env_ipc_perm (envs k' env) = 0
    /\ env_status (envs k' env) = ENV_RUNNABLE
    /\ env_eax (envs k' env) = 0.
Proof.
  intros He Hr Hrecv Hsrc.
  unfold sys_ipc_try_send, ipc_try_send_deliver. sys.
  rewrite He, (ltb_false_of_le r Hr).
  apply Z.ltb_ge in Hsrc.
  revert Hrecv. destruct k as [es c m]. open_state. intros Hrecv.
  destruct (Nat.eqb env c) eqn:E; [apply Nat.eqb_eq in E; subst env|];
    repeat (eqb_norm; rewrite ?Hrecv, ?Hsrc; fields; cbn [andb]);
    (eexists; split; [reflexivity|]);
    eqb_norm; repeat split; reflexivity.
Qed.

(** C10: when [sys_ipc_try_send] parks the caller (it ends in
    [sched_yield]), the caller's [env_ipc_pending_page] is NULL if
    [srcva >= UTOP], and otherwise the page [page_lookup] found at [srcva]
    in the caller's page directory during this call, after the alignment,
    permission and write checks of this call; whatever the field held
    before the call is gone. *)
Theorem sys_ipc_try_send_parks_fresh_page
    (k k' : Kernel M) (envid value srcva perm : Z) :
  run (sys_ipc_try_send envid value srcva perm) k = Yield k' ->
  curenv k' = curenv k
  /\ env_status (cur k') = ENV_NOT_RUNNABLE
  /\ env_ipc_pending_envid (cur k') = envid
  /\ env_ipc_pending_value (cur k') = value
  /\ ((UTOP <= srcva /\ env_ipc_pending_page (cur k') = None)
      \/ (srcva < UTOP /\ srcva mod PGSIZE = 0
          /\ perm_inappropriate perm = false
          /\ exists pp srcpte,
               page_lookup (mem k) (env_pgdir (cur k)) srcva = Some (pp, srcpte)
               /\ write_escalation perm srcpte = false
               /\ env_ipc_pending_page (cur k') = Some pp
               /\ env_ipc_pending_perm (cur k') = perm)).
Proof.
  unfold sys_ipc_try_send, ipc_try_send_deliver. sys.
  destruct (envid2env k envid false) as [r0 e].
  destruct k as [es c m]. open_state.
  split_path; try discriminate;
    intros H; inversion H; subst k'; clear H; norm;
    rewrite ?orb_true_r, ?andb_true_r in *;
    (repeat split; try reflexivity);
    first
      [ left; split; [apply Z.ltb_ge; assumption | reflexivity]
      | right; split; [apply Z.ltb_lt; assumption|];
        split; [apply Z.eqb_eq;
                first [assumption | apply negb_false_iff; assumption]|];
        split; [reflexivity|];
        eexists; eexists; split; [reflexivity|];
        split; [assumption|]; split; reflexivity ].
Qed.

(** C6: [sys_page_alloc] that fails in validation (bad envid, [va] at or
    above UTOP or not page-aligned, inappropriate [perm]) returns with the
    kernel state of its entry; when the page was allocated and
    [page_insert] fails, the page is freed before the error is returned:
    the state differs from the entry state only by [page_free] of the
    allocated page after [page_alloc], so the free list and every mapping
    are as at entry, and no [struct Env] has changed. *)
Theorem sys_page_alloc_failure
    (k : Kernel M) (envid va perm r : Z) (env : nat) :
  pmap_contract ->
  envid2env k envid true = (r, env) ->
  (r < 0 -> run (sys_page_alloc envid va perm) k = Ret r k)
  /\ (0 <= r -> va_invalid va = true \/ perm_inappropriate perm = true ->
      run (sys_page_alloc envid va perm) k = Ret (- E_INVAL) k)
  /\ (forall pp m1 r' m2,
        0 <= r -> va_invalid va = false -> perm_inappropriate perm = false ->
        page_alloc (mem k) = Some (pp, m1) ->
        page_insert m1 (env_pgdir (envs k env)) pp va perm = (r', m2) ->
        r' < 0 ->
        run (sys_page_alloc envid va perm) k
        = Ret r' (set_mem (page_free m2 pp) k)
        /\ (forall q, page_is_free (page_free m2 pp) q
                      = page_is_free (mem k) q)
        /\ (forall pgdir va', page_lookup (page_free m2 pp) pgdir va'
                              = page_lookup (mem k) pgdir va')).
Proof.
  intros Hp He. unfold sys_page_alloc. sys. rewrite He.
  split; [|split].
  - intros Hr. rewrite (ltb_true_of_lt r Hr). reflexivity.
  - intros Hr Hbad. rewrite (ltb_false_of_le r Hr).
    destruct (va_invalid va); [reflexivity|].
    destruct Hbad as [Hbad|Hbad]; [discriminate|]. rewrite Hbad. reflexivity.
  - intros pp m1 r' m2 Hr Hva Hperm Ha Hi Hr'.
    rewrite (ltb_false_of_le r Hr), Hva, Hperm, Ha.
    unfold set_mem at 1 2. cbn [envs curenv mem]. rewrite Hi.
    rewrite (ltb_true_of_lt r' Hr').
    split; [reflexivity|].
    assert (m2 = m1) by (eapply page_insert_failed; eassumption). subst m2.
    destruct (page_alloc_takes Hp _ _ _ Ha) as (Hf1 & Hf2 & Hf3).
    destruct (page_free_gives Hp m1 pp) as (Hg1 & Hg2).
    split.
    + intros q. destruct (Nat.eq_dec q pp) as [->|Hne].
      * rewrite Hg1, Hf1. reflexivity.
      * rewrite (Hg2 q Hne). apply Hf3. exact Hne.
    + intros pgdir va'. rewrite (page_free_lookup Hp).
      apply (page_alloc_lookup Hp _ _ _ Ha).
Qed.

(** Without memory for the page, [sys_page_alloc] changes nothing. *)
Lemma sys_page_alloc_no_mem
    (k : Kernel M) (envid va perm r : Z) (env : nat) :
  envid2env k envid true = (r, env) -> 0 <= r ->
  va_invalid va = false -> perm_inappropriate perm = false ->
  page_alloc (mem k) = None ->
  run (sys_page_alloc envid va perm) k = Ret (- E_NO_MEM) k.
Proof.
  intros He Hr Hva Hperm Ha. unfold sys_page_alloc. sys.
  rewrite He, (ltb_false_of_le r Hr), Hva, Hperm, Ha. reflexivity.
Qed.

End Properties.

(** ** The reference implementation meets the contracts *)

Lemma first_from_sound (p : nat -> bool) :
  forall n i0 i, Ref.first_from p n i0 = Some i -> p i = true.
Proof.
  induction n as [|n IH]; intros i0 i H; cbn in H; [discriminate|].
  destruct (p i0) eqn:E.
  - inversion H; subst. exact E.
  - eapply IH. exact H.
Qed.

Lemma Ref_env_alloc_contract : @env_alloc_contract Ref.PhysMem Ref.ext.
Proof.
  intros k parent_id r e k1 H Hr Hlive.
  cbn [env_alloc Ref.ext] in H. unfold Ref.env_alloc in H.
  destruct (Ref.first_from _ Ref.NENV 0) as [i|] eqn:Hi;
    [|injection H as <- _ _; exfalso; revert Hr; apply Z.lt_nge; reflexivity].
  apply first_from_sound in Hi.
  destruct (Ref.page_alloc (mem k)) as [[pp m']|];
    [|injection H as <- _ _; exfalso; revert Hr; apply Z.lt_nge; reflexivity].
  pose proof (f_equal (fun x => snd (fst x)) H) as He.
  pose proof (f_equal snd H) as Hk.
  cbn [fst snd] in He, Hk. clear H. subst e k1.
  assert (Hne : i <> curenv k).
  { intros ->. apply Hlive. unfold cur.
    destruct (env_status (envs k (curenv k))); try discriminate; reflexivity. }
  unfold cur. cbn [envs curenv mem].
  rewrite upd_env_same, upd_env_other by auto.
  repeat split; auto.
Qed.

Lemma Ref_pmap_contract : @pmap_contract Ref.PhysMem Ref.ext.
Proof.
  constructor; cbn [page_insert page_alloc page_free page_lookup page_is_free
                    Ref.ext].
  - intros m pgdir pp va perm r m' H Hr. unfold Ref.page_insert in H.
    destruct (Ref.pgdir_walk_create m pgdir va); inversion H; subst;
      [lia | reflexivity].
  - intros m pp m1 H. unfold Ref.page_alloc in H.
    destruct (Ref.first_from (Ref.pp_free m) (Ref.npages m) 0) as [i|] eqn:Hi;
      inversion H; subst; clear H.
    apply first_from_sound in Hi. cbn [Ref.pp_free]. unfold Ref.upd_nat.
    rewrite Nat.eqb_refl. repeat split; auto.
    intros q Hq. apply Nat.eqb_neq in Hq. rewrite Hq. reflexivity.
  - intros m pp m1 H pgdir va. unfold Ref.page_alloc in H.
    destruct (Ref.first_from (Ref.pp_free m) (Ref.npages m) 0);
      inversion H; subst; reflexivity.
  - intros m pp. unfold Ref.page_free, Ref.upd_nat. cbn [Ref.pp_free].
    rewrite Nat.eqb_refl. split; [reflexivity|].
    intros q Hq. apply Nat.eqb_neq in Hq. rewrite Hq. reflexivity.
  - intros m pp pgdir va. reflexivity.
Qed.

(** ** The handlers on the concrete states *)

Lemma yielded_state {M : Type} (o : Outcome M) :
  yielded o = true -> o = Yield (state_of o).
Proof. destruct o; cbn; intros H; try discriminate H; reflexivity. Qed.

(** Splits a conjunction into its parts. *)
Ltac conjs := repeat match goal with |- _ /\ _ => split end.

(** C1, the code at the failing input.  [R] is blocked in [sys_ipc_recv]
    with [env_ipc_perm = 7] from its last receive; [S] sends to it from
    the misaligned [srcva = 0x400001]: the call returns [-E_INVAL], and
    [R]'s [env_ipc_perm] has become 0.  Likewise a send from a misaligned
    [srcva] to a target that is not receiving returns [-E_INVAL] after
    it has set the caller's [env_ipc_pending_page] to NULL. *)
Theorem sys_ipc_try_send_error_after_mutation :
  (returned (run (sys_ipc_try_send 0x1002 2 0x400001 7) Scenario.k5)
   = Some (- Ref.E_INVAL)
   /\ env_ipc_recving (envs Scenario.k5 2) = true
   /\ env_ipc_perm (envs Scenario.k5 2) = 7
   /\ env_ipc_perm
        (envs (state_of (run (sys_ipc_try_send 0x1002 2 0x400001 7)
                             Scenario.k5)) 2) = 0)
  /\ (returned (run (sys_ipc_try_send 0x1002 2 0x400001 7)
                    Scenario.k_harvested)
      = Some (- Ref.E_INVAL)
      /\ env_ipc_recving (envs Scenario.k_harvested 2) = false
      /\ env_ipc_pending_page (envs Scenario.k_harvested 1) = Some 5%nat
      /\ env_ipc_pending_page
           (envs (state_of (run (sys_ipc_try_send 0x1002 2 0x400001 7)
                                Scenario.k_harvested)) 1) = None).
Proof.
  conjs; vm_compute; reflexivity.
Qed.

(** C2, the code at the failing input.  [R], whose [env_ipc_dstva] is
    still 0x800000 from an earlier receive, calls [sys_ipc_recv(UTOP)]:
    it asks for no page, and blocks.  [S] then sends the page at
    0x400000 with perm 5: the send returns 0, page 5 is now mapped at
    0x800000 in [R]'s page directory, where nothing was mapped, and [R]'s
    [env_ipc_perm] is 5, not 0. *)
Theorem ipc_page_transferred_to_unwilling_receiver :
  (Ref.UTOP <? Ref.UTOP) = false
  /\ yielded (run (sys_ipc_recv Ref.UTOP) Scenario.k3) = true
  /\ env_ipc_recving (envs Scenario.k4 2) = true
  /\ env_ipc_dstva (envs Scenario.k4 2) = 0x800000
  /\ Ref.page_lookup (mem Scenario.k4) Scenario.pgdir_R 0x800000 = None
  /\ returned (run (sys_ipc_try_send 0x1002 2 0x400000 5) Scenario.k4)
     = Some 0
  /\ Ref.pte (mem (state_of (run (sys_ipc_try_send 0x1002 2 0x400000 5)
                                 Scenario.k4)))
             Scenario.pgdir_R (0x800000 / Ref.PGSIZE)
     = Some (5%nat, 5)
  /\ env_ipc_perm
       (envs (state_of (run (sys_ipc_try_send 0x1002 2 0x400000 5)
                            Scenario.k4)) 2) = 5
  /\ env_ipc_value
       (envs (state_of (run (sys_ipc_try_send 0x1002 2 0x400000 5)
                            Scenario.k4)) 2) = 2
  /\ env_ipc_from
       (envs (state_of (run (sys_ipc_try_send 0x1002 2 0x400000 5)
                            Scenario.k4)) 2) = 0x1001.
Proof.
  conjs; vm_compute; reflexivity.
Qed.

(** C8, the claim at a concrete input: [S] sets the upcall of its child
    [R] to null.  The envid resolves with permission, and the call
    returns nothing to the caller. *)
Lemma sys_env_set_pgfault_upcall_null_returns_nothing :
  Ref.envid2env Scenario.k0 0x1002 true = (0, 2%nat)
  /\ forall r k',
       run (sys_env_set_pgfault_upcall 0x1002 0) Scenario.k0 <> Ret r k'.
Proof.
  split; [vm_compute; reflexivity|].
  intros r k' H.
  assert (Hp : run (sys_env_set_pgfault_upcall 0x1002 0) Scenario.k0
               = Panic Scenario.k0) by (vm_compute; reflexivity).
  rewrite Hp in H. discriminate H.
Qed.

(** ** The theorems at concrete inputs *)

(** [S] forks: the child takes the free slot 0. *)
Lemma sys_exofork_child_witness :
  @env_alloc_contract Ref.PhysMem Ref.ext
  /\ env_status (cur Scenario.k0) <> ENV_FREE
  /\ env_alloc Scenario.k0 (env_id (cur Scenario.k0))
     = (0, 0%nat, snd (Ref.env_alloc Scenario.k0 0x1001))
  /\ 0 <= 0
  /\ exists k',
       run sys_exofork Scenario.k0 = Ret (env_id (envs k' 0%nat)) k'
       /\ env_status (envs k' 0%nat) = ENV_NOT_RUNNABLE
       /\ env_tf (envs k' 0%nat) = set_reg_eax 0 (env_tf (cur Scenario.k0))
       /\ env_eax (envs k' 0%nat) = 0
       /\ env_break (envs k' 0%nat) = env_break (cur Scenario.k0)
       /\ env_parent_id (envs k' 0%nat) = env_id (cur Scenario.k0)
       /\ cur k' = cur Scenario.k0.
Proof.
  assert (H1 : env_status (cur Scenario.k0) <> ENV_FREE)
    by (vm_compute; discriminate).
  assert (H2 : env_alloc Scenario.k0 (env_id (cur Scenario.k0))
               = (0, 0%nat, snd (Ref.env_alloc Scenario.k0 0x1001)))
    by (vm_compute; reflexivity).
  assert (H3 : 0 <= 0) by lia.
  split; [exact Ref_env_alloc_contract|].
  split; [exact H1|]. split; [exact H2|]. split; [exact H3|].
  exact (sys_exofork_child Scenario.k0 0 0%nat _
           Ref_env_alloc_contract H1 H2 H3).
Defined.

(** [S] clears the upcall of its child [R]. *)
Lemma sys_env_set_pgfault_upcall_null_panics_witness :
  envid2env Scenario.k0 0x1002 true = (0, 2%nat)
  /\ 0 <= 0
  /\ run (sys_env_set_pgfault_upcall 0x1002 0) Scenario.k0
     = Panic Scenario.k0.
Proof.
  assert (H1 : envid2env Scenario.k0 0x1002 true = (0, 2%nat))
    by (vm_compute; reflexivity).
  assert (H2 : 0 <= 0) by lia.
  split; [exact H1|]. split; [exact H2|].
  exact (sys_env_set_pgfault_upcall_null_panics Scenario.k0 0x1002 0 2%nat
           H1 H2).
Defined.

(** The kernel address 0xF8000000 is beyond the sixteen managed pages. *)
Lemma sys_map_kernel_page_unmanaged_witness :
  0 < Ref.E_INVAL
  /\ pa2page (mem Scenario.k0) (PADDR 0xF8000000) = None
  /\ run (sys_map_kernel_page 0xF8000000 0x400000) Scenario.k0
     = Ret Ref.E_INVAL Scenario.k0
  /\ ~ Ref.E_INVAL < 0 /\ Ref.E_INVAL <> - Ref.E_INVAL.
Proof.
  assert (H1 : 0 < @E_INVAL _ Ref.ext) by (vm_compute; reflexivity).
  assert (H2 : pa2page (mem Scenario.k0) (PADDR 0xF8000000) = None)
    by (vm_compute; reflexivity).
  split; [exact H1|]. split; [exact H2|].
  exact (sys_map_kernel_page_unmanaged Scenario.k0 0xF8000000 0x400000 H1 H2).
Defined.

(** [S] maps its read-only page at 0x401000 into [R] with PTE_W. *)
Lemma sys_page_map_no_write_escalation_witness :
  Z.land 7 Ref.PTE_W <> 0
  /\ page_lookup (mem Scenario.k0) Scenario.pgdir_S 0x401000
     = Some (4%nat, 0x4005)
  /\ Z.land 0x4005 Ref.PTE_W = 0
  /\ envid2env Scenario.k0 0 true = (0, 1%nat)
  /\ envid2env Scenario.k0 0x1002 true = (0, 2%nat)
  /\ run (sys_page_map 0 0x401000 0x1002 0x800000 7) Scenario.k0
     = Ret (- Ref.E_INVAL) Scenario.k0.
Proof.
  assert (H3 : Z.land 7 (@PTE_W _ Ref.ext) <> 0) by (vm_compute; discriminate).
  assert (H4 : match page_lookup (mem Scenario.k0)
                       (env_pgdir
                          (envs Scenario.k0
                                (snd (envid2env Scenario.k0 0 true))))
                       0x401000 with
               | Some (_, srcpte) => Z.land srcpte (@PTE_W _ Ref.ext) = 0
               | None => True
               end) by (vm_compute; reflexivity).
  split; [exact H3|].
  split; [vm_compute; reflexivity|]. split; [vm_compute; reflexivity|].
  split; [vm_compute; reflexivity|]. split; [vm_compute; reflexivity|].
  exact (proj2 (sys_page_map_no_write_escalation Scenario.k0 0 0x401000
                  0x1002 0x800000 7 H3 H4)
           ltac:(vm_compute; discriminate) ltac:(vm_compute; discriminate)).
Defined.

(** [S] wakes [R], blocked in a receive with 13 in its accumulator; [R]
    wakes the sender parked in slot 1 with 77 in its accumulator. *)
Lemma ipc_wakeup_sets_accumulator_zero_witness :
  let kS := Ref.env_run 1 Scenario.k1 in
  let kR := Scenario.k_two_senders in
  (env_status (envs kS 2) <> ENV_RUNNABLE
   /\ env_eax (envs kS 2) = 13
   /\ env_status
        (envs (state_of (run (sys_ipc_try_send 0x1002 1 0x400000 7) kS)) 2)
      = ENV_RUNNABLE
   /\ env_eax
        (envs (state_of (run (sys_ipc_try_send 0x1002 1 0x400000 7) kS)) 2)
      = 0)
  /\ (env_status (envs kR 1) <> ENV_RUNNABLE
      /\ env_eax (envs kR 1) = 77
      /\ env_status (envs (state_of (run (sys_ipc_recv 0x800000) kR)) 1)
         = ENV_RUNNABLE
      /\ env_eax (envs (state_of (run (sys_ipc_recv 0x800000) kR)) 1) = 0).
Proof.
  intros kS kR.
  assert (H1 : env_status (envs kS 2) <> ENV_RUNNABLE)
    by (vm_compute; discriminate).
  assert (H2 : env_status
                 (envs (state_of (run (sys_ipc_try_send 0x1002 1 0x400000 7)
                                      kS)) 2) = ENV_RUNNABLE)
    by (vm_compute; reflexivity).
  assert (H3 : env_status (envs kR 1) <> ENV_RUNNABLE)
    by (vm_compute; discriminate).
  assert (H4 : env_status (envs (state_of (run (sys_ipc_recv 0x800000) kR)) 1)
               = ENV_RUNNABLE)
    by (vm_compute; reflexivity).
  split; (split; [assumption|]); (split; [vm_compute; reflexivity|]);
    (split; [assumption|]).
  - exact (proj1 (ipc_wakeup_sets_accumulator_zero kS 2%nat H1)
             0x1002 1 0x400000 7 H2).
  - exact (proj2 (ipc_wakeup_sets_accumulator_zero kR 1%nat H3) 0x800000 H4).
Defined.

(** [R] receives while the environments in slots 1 and 3 are both parked
    in a send to it: slot 1 is harvested, slot 3 stays parked. *)
Lemma sys_ipc_recv_harvests_first_witness :
  let k := Scenario.k_two_senders in
  let k' := state_of (run (sys_ipc_recv 0x800000) k) in
  first_sent_to_me k 1
  /\ sent_to_me k 3 = true
  /\ same_parked_state (envs k' 3) (envs k 3)
  /\ run (sys_ipc_recv 0x800000) k = Ret 0 k'
  /\ env_ipc_pending_envid (envs k' 1) = 0
  /\ env_status (envs k' 1) = ENV_RUNNABLE
  /\ env_eax (envs k' 1) = 0
  /\ env_ipc_from (cur k') = env_id (envs k 1)
  /\ env_ipc_value (cur k') = env_ipc_pending_value (envs k 1).
Proof.
  intros k k'.
  assert (H1 : first_sent_to_me k 1).
  { split; [|split].
    - apply Nat.ltb_lt. vm_compute. reflexivity.
    - vm_compute. reflexivity.
    - intros j Hj. destruct j as [|j]; [vm_compute; reflexivity | lia]. }
  assert (H2 : 0x800000 < @UTOP _ Ref.ext -> 0x800000 mod @PGSIZE _ Ref.ext = 0)
    by (intros _; vm_compute; reflexivity).
  assert (H3 : forall pp,
             env_ipc_pending_page (envs k 1) = Some pp ->
             0x800000 < @UTOP _ Ref.ext ->
             0 <= fst (page_insert (mem k) (env_pgdir (cur k)) pp 0x800000
                         (env_ipc_pending_perm (envs k 1)))).
  { intros pp Hpp _.
    assert (Hpp' : Some 5%nat = Some pp) by exact Hpp.
    injection Hpp' as <-. vm_compute. discriminate. }
  pose proof (sys_ipc_recv_harvests_first k 0x800000 1%nat H1) as (A & _ & C).
  split; [exact H1|]. split; [vm_compute; reflexivity|].
  split; [apply A; discriminate|].
  exact (C H2 H3).
Defined.

(** [S] sends its page at 0x400000 to [R], which is not receiving. *)
Lemma sys_ipc_try_send_parks_fresh_page_witness :
  let k := Scenario.k0 in
  let k' := state_of (run (sys_ipc_try_send 0x1002 1 0x400000 7) k) in
  run (sys_ipc_try_send 0x1002 1 0x400000 7) k = Yield k'
  /\ env_ipc_pending_page (cur k') = Some 5%nat
  /\ curenv k' = curenv k
  /\ env_status (cur k') = ENV_NOT_RUNNABLE
  /\ env_ipc_pending_envid (cur k') = 0x1002
  /\ env_ipc_pending_value (cur k') = 1
  /\ ((UTOP <= 0x400000 /\ env_ipc_pending_page (cur k') = None)
      \/ (0x400000 < UTOP /\ 0x400000 mod PGSIZE = 0
          /\ perm_inappropriate 7 = false
          /\ exists pp srcpte,
               page_lookup (mem k) (env_pgdir (cur k)) 0x400000
               = Some (pp, srcpte)
               /\ write_escalation 7 srcpte = false
               /\ env_ipc_pending_page (cur k') = Some pp
               /\ env_ipc_pending_perm (cur k') = 7)).
Proof.
  intros k k'.
  assert (H : run (sys_ipc_try_send 0x1002 1 0x400000 7) k = Yield k')
    by (apply yielded_state; vm_compute; reflexivity).
  split; [exact H|]. split; [vm_compute; reflexivity|].
  exact (sys_ipc_try_send_parks_fresh_page k k' 0x1002 1 0x400000 7 H).
Defined.

(** [S] allocates for an envid that does not exist, at a misaligned
    address, and at 0x800000 with one free page left: there the page is
    taken, [page_insert] finds no page for the page table, and the page
    is given back. *)
Lemma sys_page_alloc_failure_witness :
  @pmap_contract Ref.PhysMem Ref.ext
  /\ (envid2env Scenario.k_last 0x1005 true = (- Ref.E_BAD_ENV, 0%nat)
      /\ run (sys_page_alloc 0x1005 0x800000 7) Scenario.k_last
         = Ret (- Ref.E_BAD_ENV) Scenario.k_last)
  /\ (envid2env Scenario.k_last 0 true = (0, 1%nat)
      /\ va_invalid 0x800001 = true
      /\ run (sys_page_alloc 0 0x800001 7) Scenario.k_last
         = Ret (- Ref.E_INVAL) Scenario.k_last)
  /\ (page_alloc (mem Scenario.k_last) = Some (9%nat, Scenario.mem_taken)
      /\ page_insert Scenario.mem_taken Scenario.pgdir_S 9%nat 0x800000 7
         = (- Ref.E_NO_MEM, Scenario.mem_taken)
      /\ run (sys_page_alloc 0 0x800000 7) Scenario.k_last
         = Ret (- Ref.E_NO_MEM)
               (set_mem (page_free Scenario.mem_taken 9%nat) Scenario.k_last)
      /\ (forall q, page_is_free (page_free Scenario.mem_taken 9%nat) q
                    = page_is_free (mem Scenario.k_last) q)
      /\ (forall pgdir va',
            page_lookup (page_free Scenario.mem_taken 9%nat) pgdir va'
            = page_lookup (mem Scenario.k_last) pgdir va')).
Proof.
  assert (Hbad : envid2env Scenario.k_last 0x1005 true
                 = (- Ref.E_BAD_ENV, 0%nat)) by (vm_compute; reflexivity).
  assert (Hme : envid2env Scenario.k_last 0 true = (0, 1%nat))
    by (vm_compute; reflexivity).
  assert (Hva : va_invalid 0x800001 = true) by (vm_compute; reflexivity).
  assert (Ha : page_alloc (mem Scenario.k_last)
               = Some (9%nat, Scenario.mem_taken))
    by (vm_compute; reflexivity).
  assert (Hi : page_insert Scenario.mem_taken
                 (env_pgdir (envs Scenario.k_last 1%nat)) 9%nat 0x800000 7
               = (- Ref.E_NO_MEM, Scenario.mem_taken))
    by (vm_compute; reflexivity).
  split; [exact Ref_pmap_contract|].
  split; [split; [exact Hbad|]|split; [split; [exact Hme|split; [exact Hva|]]|]].
  - exact (proj1 (sys_page_alloc_failure Scenario.k_last 0x1005 0x800000 7
                    (- Ref.E_BAD_ENV) 0%nat Ref_pmap_contract Hbad)
             ltac:(vm_compute; reflexivity)).
  - exact (proj1 (proj2 (sys_page_alloc_failure Scenario.k_last 0 0x800001 7
                           0 1%nat Ref_pmap_contract Hme))
             ltac:(lia) (or_introl Hva)).
  - split; [exact Ha|]. split; [exact Hi|].
    exact (proj2 (proj2 (sys_page_alloc_failure Scenario.k_last 0 0x800000 7
                           0 1%nat Ref_pmap_contract Hme))
             9%nat Scenario.mem_taken (- Ref.E_NO_MEM) Scenario.mem_taken
             ltac:(lia) ltac:(vm_compute; reflexivity)
             ltac:(vm_compute; reflexivity) Ha Hi
             ltac:(vm_compute; reflexivity)).
Defined.

(** ** Further properties of the handlers *)

Ltac fields ::=
  cbn [env_tf env_id env_parent_id env_status env_pgdir env_pgfault_upcall
       env_break env_ipc_recving env_ipc_dstva env_ipc_value env_ipc_from
       env_ipc_perm env_ipc_pending_envid env_ipc_pending_value
       env_ipc_pending_page env_ipc_pending_perm
       set_env_tf set_env_status set_env_pgfault_upcall set_env_break
       set_env_ipc_recving set_env_ipc_dstva set_env_ipc_value
       set_env_ipc_from set_env_ipc_perm set_env_ipc_pending_envid
       set_env_ipc_pending_value set_env_ipc_pending_page
       set_env_ipc_pending_perm set_env_eax set_reg_eax env_eax
       set_env_pgdir set_tf_es set_tf_ds set_tf_cs set_tf_ss set_tf_eflags
       tf_regs tf_es tf_ds tf_trapno tf_err tf_eip tf_cs tf_eflags tf_esp
       tf_ss reg_eax envs curenv mem state_of fst snd] in *.


Section MoreProperties.
Context {M : Type} {X : Extern M} {Y : Extern2 M}.

(** *** Address-space operations *)

Lemma land_lnot_zero_iff (a m : Z) :
  Z.land a (Z.lnot m) = 0 <-> Z.land a m = a.
Proof.
  split; intros H; apply Z.bits_inj'; intros n Hn.
  - apply (f_equal (fun x => Z.testbit x n)) in H.
    rewrite Z.land_spec, Z.lnot_spec, Z.bits_0 in H by exact Hn.
    rewrite Z.land_spec.
    destruct (Z.testbit a n), (Z.testbit m n); cbn in *; congruence.
  - apply (f_equal (fun x => Z.testbit x n)) in H.
    rewrite Z.land_spec in H.
    rewrite Z.land_spec, Z.lnot_spec, Z.bits_0 by exact Hn.
    destruct (Z.testbit a n), (Z.testbit m n); cbn in *; congruence.
Qed.

(** X1: the permission test of [sys_page_alloc], [sys_page_map] and
    [sys_ipc_try_send] accepts [perm] exactly when it has a bit of PTE_U,
    a bit of PTE_P and no bit outside PTE_SYSCALL. *)
Theorem perm_inappropriate_iff (perm : Z) :
  perm_inappropriate perm = false
  <-> Z.land perm PTE_U <> 0 /\ Z.land perm PTE_P <> 0
      /\ Z.land perm PTE_SYSCALL = perm.
Proof.
  unfold perm_inappropriate.
  rewrite !orb_false_iff, negb_false_iff, !Z.eqb_neq, Z.eqb_eq.
  rewrite land_lnot_zero_iff. tauto.
Qed.



(** X3: [sys_page_map] either leaves the kernel state as it was, or it
    returns 0 after every check has passed and the state differs by the
    one [page_insert] of the looked-up source page at [dstva]. *)
Theorem sys_page_map_all_or_nothing
    (k : Kernel M) (srcenvid srcva dstenvid dstva perm : Z) :
  pmap_contract ->
  let srcenv := snd (envid2env k srcenvid true) in
  let dstenv := snd (envid2env k dstenvid true) in
  exists r k',
    run (sys_page_map srcenvid srcva dstenvid dstva perm) k = Ret r k'
    /\ (k' = k
        \/ (r = 0
            /\ va_invalid srcva = false /\ va_invalid dstva = false
            /\ perm_inappropriate perm = false
            /\ exists page srcpte,
                 page_lookup (mem k) (env_pgdir (envs k srcenv)) srcva
                 = Some (page, srcpte)
                 /\ write_escalation perm srcpte = false
                 /\ k' = set_mem
                           (snd (page_insert (mem k)
                                   (env_pgdir (envs k dstenv)) page dstva perm))
                           k)).
Proof.
  intros Hp srcenv dstenv. subst srcenv dstenv.
  unfold sys_page_map. sys.
  destruct (envid2env k srcenvid true) as [r1 srcenv]. cbn [snd].
  destruct (r1 <? 0); [eexists; eexists; split; [reflexivity | left; reflexivity]|].
  destruct (envid2env k dstenvid true) as [r2 dstenv]. cbn [snd].
  destruct (r2 <? 0); [eexists; eexists; split; [reflexivity | left; reflexivity]|].
  destruct (va_invalid srcva);
    [eexists; eexists; split; [reflexivity | left; reflexivity]|].
  destruct (va_invalid dstva);
    [eexists; eexists; split; [reflexivity | left; reflexivity]|].
  destruct (page_lookup (mem k) (env_pgdir (envs k srcenv)) srcva)
    as [[page srcpte]|] eqn:Hl;
    [|eexists; eexists; split; [reflexivity | left; reflexivity]].
  destruct (perm_inappropriate perm);
    [eexists; eexists; split; [reflexivity | left; reflexivity]|].
  destruct (write_escalation perm srcpte) eqn:Hw;
    [eexists; eexists; split; [reflexivity | left; reflexivity]|].
  destruct (page_insert (mem k) (env_pgdir (envs k dstenv)) page dstva perm)
    as [r m'] eqn:Hi.
  destruct (r <? 0) eqn:Hr.
  - apply Z.ltb_lt in Hr.
    pose proof (page_insert_failed Hp _ _ _ _ _ _ _ Hi Hr) as ->.
    eexists; eexists; split; [reflexivity|]. left.
    destruct k; reflexivity.
  - eexists; eexists; split; [reflexivity|]. right.
    repeat (split; [reflexivity|]). exists page, srcpte.
    split; [reflexivity|]. split; [exact Hw|]. rewrite Hi. reflexivity.
Qed.

(** X4: a second [sys_page_unmap] with the same arguments returns what
    the first returned and changes nothing. *)
Theorem sys_page_unmap_idempotent (k : Kernel M) (envid va : Z) :
  pmap_lookup_contract -> envid2env_reads_envs ->
  let k1 := state_of (run (sys_page_unmap envid va) k) in
  exists r,
    run (sys_page_unmap envid va) k = Ret r k1
    /\ run (sys_page_unmap envid va) k1 = Ret r k1.
Proof.
  intros Hl He k1. subst k1. unfold sys_page_unmap. sys.
  destruct (envid2env k envid true) as [r env] eqn:E.
  destruct (r <? 0) eqn:Hr.
  { exists r. cbn [state_of]. rewrite E, Hr. split; reflexivity. }
  destruct (va_invalid va) eqn:Hva.
  { exists (- E_INVAL). cbn [state_of]. rewrite E, Hr. split; reflexivity. }
  destruct (page_lookup (mem k) (env_pgdir (envs k env)) va) as [p|] eqn:Hp.
  - exists 0. cbn [state_of]. split; [reflexivity|].
    rewrite (He k), E, Hr. unfold set_mem at 1 2 3. cbn [envs mem].
    rewrite (page_remove_lookup Hl). reflexivity.
  - exists 0. cbn [state_of]. rewrite E, Hr, Hp. split; reflexivity.
Qed.

(** X5: a page that [sys_page_alloc] mapped without PTE_W cannot be
    mapped anywhere with PTE_W by [sys_page_map]: the call returns
    [-E_INVAL] and changes nothing. *)
Theorem page_alloc_readonly_then_map_writable
    (k k1 : Kernel M) (envid va perm dstenvid dstva perm' : Z) :
  pmap_lookup_contract -> envid2env_reads_envs ->
  0 < E_INVAL -> 0 < E_NO_MEM ->
  run (sys_page_alloc envid va perm) k = Ret 0 k1 ->
  Z.land perm PTE_W = 0 ->
  Z.land perm' PTE_W <> 0 ->
  0 <= fst (envid2env k dstenvid true) ->
  run (sys_page_map envid va dstenvid dstva perm') k1 = Ret (- E_INVAL) k1.
Proof.
  intros Hl He Hinv Hnomem Hrun Hro Hw Hdst.
  unfold sys_page_alloc in Hrun. sys.
  destruct (envid2env k envid true) as [r env] eqn:E.
  destruct (r <? 0) eqn:Hr;
    [inversion Hrun; subst; discriminate Hr|].
  destruct (va_invalid va) eqn:Hva; [inversion Hrun; lia|].
  destruct (perm_inappropriate perm); [inversion Hrun; lia|].
  destruct (page_alloc (mem k)) as [[pp m1]|]; [|inversion Hrun; lia].
  unfold set_mem in Hrun at 1 2. cbn [envs curenv mem] in Hrun.
  destruct (page_insert m1 (env_pgdir (envs k env)) pp va perm)
    as [r' m2] eqn:Hi.
  destruct (r' <? 0) eqn:Hr';
    [inversion Hrun; subst; discriminate Hr'|].
  inversion Hrun; subst k1; clear Hrun.
  apply Z.ltb_ge in Hr'.
  destruct (page_insert_lookup Hl _ _ _ _ _ _ _ Hi Hr') as (pte & Hlk & Hbit).
  unfold sys_page_map. sys.
  change (set_mem m2 (set_mem m1 k)) with (set_mem m2 k).
  rewrite (He k), E, Hr. cbv beta iota. rewrite (He k).
  destruct (envid2env k dstenvid true) as [r2 dstenv]. cbn [fst] in Hdst.
  rewrite (ltb_false_of_le r2 Hdst), Hva.
  destruct (va_invalid dstva); [reflexivity|].
  cbn [set_mem envs mem]. rewrite Hlk.
  destruct (perm_inappropriate perm'); [reflexivity|].
  unfold write_escalation. rewrite Hbit, Hro.
  apply Z.eqb_neq in Hw. rewrite Hw. reflexivity.
Qed.

(** *** The IPC rendezvous *)

Lemma ipc_recv_scan_none (dstva : Z) (k : Kernel M) :
  (forall j, (j < NENV)%nat -> sent_to_me k j = false) ->
  ipc_recv_scan dstva NENV 0 k = Next tt k.
Proof.
  intros Hnone.
  destruct (ipc_recv_scan_cases dstva k NENV 0)
    as [H | (i & _ & Hi & Ht & _)]; [exact H|].
  rewrite (Hnone i) in Ht by lia. discriminate Ht.
Qed.

(** X6: when no slot of the table holds a send parked for the caller,
    [sys_ipc_recv] with a valid [dstva] ends in [sched_yield] with the
    caller NOT_RUNNABLE and [env_ipc_recving] set; [env_ipc_dstva] is
    [dstva] if that is below UTOP and keeps its old value otherwise;
    memory and every other environment are untouched. *)
Theorem sys_ipc_recv_blocks (k : Kernel M) (dstva : Z) :
  (forall j, (j < NENV)%nat -> sent_to_me k j = false) ->
  (dstva < UTOP -> dstva mod PGSIZE = 0) ->
  run (sys_ipc_recv dstva) k = Yield (recv_blocked dstva k)
  /\ env_ipc_recving (cur (recv_blocked dstva k)) = true
  /\ env_status (cur (recv_blocked dstva k)) = ENV_NOT_RUNNABLE
  /\ env_ipc_dstva (cur (recv_blocked dstva k))
     = (if dstva <? UTOP then dstva else env_ipc_dstva (cur k))
  /\ mem (recv_blocked dstva k) = mem k
  /\ forall j, j <> curenv k -> envs (recv_blocked dstva k) j = envs k j.
Proof.
  intros Hnone Hal. unfold sys_ipc_recv, recv_blocked. sys.
  destruct (dstva <? UTOP) eqn:Hd.
  - apply Z.ltb_lt in Hd. rewrite (Hal Hd), Z.eqb_refl. cbn [negb].
    rewrite ipc_recv_scan_none.
    + destruct k as [es c m]. open_state. norm.
      repeat split; try reflexivity.
      intros j Hj. apply Nat.eqb_neq in Hj. rewrite Hj. reflexivity.
    + intros j Hj. rewrite sent_to_me_store_cur; auto.
  - rewrite ipc_recv_scan_none by exact Hnone.
    destruct k as [es c m]. open_state. norm.
    repeat split; try reflexivity.
    intros j Hj. apply Nat.eqb_neq in Hj. rewrite Hj. reflexivity.
Qed.

Lemma sys_ipc_recv_yield_inv (k k1 : Kernel M) (dstva : Z) :
  run (sys_ipc_recv dstva) k = Yield k1 -> k1 = recv_blocked dstva k.
Proof.
  unfold sys_ipc_recv, recv_blocked. sys.
  destruct (dstva <? UTOP) eqn:Hd.
  - destruct (negb (dstva mod PGSIZE =? 0)); [discriminate|].
    destruct (ipc_recv_scan_cases dstva
                (on_env (curenv k) (set_env_ipc_dstva dstva) k) NENV 0)
      as [H | (i & _ & _ & _ & _ & H)]; rewrite H.
    + intros E. inversion E. reflexivity.
    + destruct (ipc_recv_harvest_spec
                  (on_env (curenv k) (set_env_ipc_dstva dstva) k) dstva i)
        as (r & k' & -> & _). discriminate.
  - destruct (ipc_recv_scan_cases dstva k NENV 0)
      as [H | (i & _ & _ & _ & _ & H)]; rewrite H.
    + intros E. inversion E. reflexivity.
    + destruct (ipc_recv_harvest_spec k dstva i) as (r & k' & -> & _).
      discriminate.
Qed.


(** What the receiver-ready branch of [sys_ipc_try_send] stores. *)
Lemma deliver_fields (k : Kernel M) (env : nat) (envid value : Z) :
  env_ipc_recving (envs k env) = true ->
  exists k',
    run (ipc_try_send_deliver env envid value) k = Ret 0 k'
    /\ mem k' = mem k /\ curenv k' = curenv k
    /\ env_ipc_recving (envs k' env) = false
    /\ env_ipc_from (envs k' env) = env_id (cur k)
    /\ env_ipc_value (envs k' env) = value
    /\ env_ipc_perm (envs k' env) = env_ipc_perm (envs k env)
    /\ env_status (envs k' env) = ENV_RUNNABLE
    /\ env_eax (envs k' env) = 0
    /\ forall j, j <> env -> envs k' j = envs k j.
Proof.
  intros Hr. unfold ipc_try_send_deliver. sys.
  revert Hr. destruct k as [es c m]. open_state. intros Hr.
  destruct (Nat.eqb env c) eqn:E; [apply Nat.eqb_eq in E; subst env|];
    norm; (eexists; split; [reflexivity|]); norm;
    do 8 (split; [reflexivity|]);
    intros j Hj; apply Nat.eqb_neq in Hj; rewrite Hj; reflexivity.
Qed.

(** The path of [sys_ipc_try_send] that skips the page block, for a
    target that is receiving. *)
Lemma try_send_skips_page
    (k : Kernel M) (envid value srcva perm r : Z) (env : nat) :
  envid2env k envid false = (r, env) -> 0 <= r ->
  env_ipc_recving (envs k env) = true ->
  UTOP <= srcva \/ UTOP <= env_ipc_dstva (envs k env) ->
  exists k',
    run (sys_ipc_try_send envid value srcva perm) k = Ret 0 k'
    /\ mem k' = mem k
    /\ env_ipc_recving (envs k' env) = false
    /\ env_ipc_from (envs k' env) = env_id (cur k)
    /\ env_ipc_value (envs k' env) = value
    /\ env_ipc_perm (envs k' env) = 0
    /\ env_status (envs k' env) = ENV_RUNNABLE
    /\ env_eax (envs k' env) = 0
    /\ forall j, j <> env -> envs k' j = envs k j.
Proof.
  intros He Hr Hrecv Hno.
  assert (Hc : (srcva <? UTOP) && ((env_ipc_dstva (envs k env) <? UTOP)
                                   || negb true) = false).
  { rewrite orb_false_r. destruct Hno as [H|H]; apply Z.ltb_ge in H; rewrite H;
      [reflexivity | apply andb_false_r]. }
  set (k0 := on_env env (set_env_ipc_perm 0) k).
  assert (Hr0 : env_ipc_recving (envs k0 env) = true).
  { unfold k0. destruct k as [es c m]. open_state. norm. reflexivity. }
  destruct (deliver_fields k0 env envid value Hr0)
    as (k' & Hrun & Hm & Hcur & A1 & A2 & A3 & A4 & A5 & A6 & A7).
  exists k'. split.
  - unfold sys_ipc_try_send. sys.
    rewrite He, (ltb_false_of_le r Hr), Hrecv.
    fold k0. replace (env_ipc_dstva (envs k0 env))
      with (env_ipc_dstva (envs k env))
      by (unfold k0; destruct k; open_state; norm; reflexivity).
    rewrite Hr0, Hc. exact Hrun.
  - unfold k0 in *. clear Hrun Hr0.
    destruct k as [es c m]. open_state. rewrite Nat.eqb_refl in A4.
    split; [exact Hm|]. split; [exact A1|]. split.
    { rewrite A2. destruct (Nat.eqb c env); reflexivity. }
    split; [exact A3|]. split; [exact A4|]. split; [exact A5|].
    split; [exact A6|].
    intros j Hj. rewrite (A7 j Hj). apply Nat.eqb_neq in Hj. rewrite Hj.
    reflexivity.
Qed.

(** X7: a send to a receiver blocked in [sys_ipc_recv], when the sender
    passes [srcva >= UTOP] or the receiver's [env_ipc_dstva] is not below
    UTOP, delivers the value with [env_ipc_perm = 0] and wakes the
    receiver, whatever [perm] and the alignment of [srcva] are; memory is
    untouched. *)
Theorem sys_ipc_try_send_value_only
    (k : Kernel M) (envid value srcva perm r : Z) (env : nat) :
  envid2env k envid false = (r, env) -> 0 <= r ->
  env_ipc_recving (envs k env) = true ->
  UTOP <= srcva \/ UTOP <= env_ipc_dstva (envs k env) ->
  exists k',
    run (sys_ipc_try_send envid value srcva perm) k = Ret 0 k'
    /\ mem k' = mem k
    /\ env_ipc_recving (envs k' env) = false
    /\ env_ipc_from (envs k' env) = env_id (cur k)
    /\ env_ipc_value (envs k' env) = value
    /\ env_ipc_perm (envs k' env) = 0
    /\ env_status (envs k' env) = ENV_RUNNABLE
    /\ env_eax (envs k' env) = 0
    /\ forall j, j <> env -> envs k' j = envs k j.
Proof.
  intros He Hr Hrecv Hno.
  exact (try_send_skips_page k envid value srcva perm r env He Hr Hrecv Hno).
Qed.

(** X8: a send to a blocked receiver with [srcva] and the receiver's
    [env_ipc_dstva] both below UTOP, when the checks pass and
    [page_insert] succeeds, maps the sender's page at the receiver's
    [env_ipc_dstva], sets [env_ipc_perm] to [perm], delivers the value
    and wakes the receiver. *)
Theorem sys_ipc_try_send_with_page
    (k : Kernel M) (envid value srcva perm r srcpte r' : Z) (env : nat)
    (page : Page) (m' : M) :
  envid2env k envid false = (r, env) -> 0 <= r ->
  env_ipc_recving (envs k env) = true ->
  srcva < UTOP -> env_ipc_dstva (envs k env) < UTOP ->
  srcva mod PGSIZE = 0 -> perm_inappropriate perm = false ->
  page_lookup (mem k) (env_pgdir (cur k)) srcva = Some (page, srcpte) ->
  write_escalation perm srcpte = false ->
  page_insert (mem k) (env_pgdir (envs k env)) page
              (env_ipc_dstva (envs k env)) perm = (r', m') ->
  0 <= r' ->
  exists k',
    run (sys_ipc_try_send envid value srcva perm) k = Ret 0 k'
    /\ mem k' = m'
    /\ env_ipc_recving (envs k' env) = false
    /\ env_ipc_from (envs k' env) = env_id (cur k)
    /\ env_ipc_value (envs k' env) = value
    /\ env_ipc_perm (envs k' env) = perm
    /\ env_status (envs k' env) = ENV_RUNNABLE
    /\ env_eax (envs k' env) = 0
    /\ forall j, j <> env -> envs k' j = envs k j.
Proof.
  intros He Hr Hrecv Hs Hd Hal Hperm Hl Hw Hi Hr'.
  apply Z.ltb_lt in Hs, Hd. apply Z.eqb_eq in Hal.
  unfold sys_ipc_try_send, ipc_try_send_deliver. sys.
  rewrite He, (ltb_false_of_le r Hr).
  revert Hrecv Hd Hl Hi. destruct k as [es c m]. open_state.
  intros Hrecv Hd Hl Hi.
  destruct (Nat.eqb env c) eqn:E; [apply Nat.eqb_eq in E; subst env|];
    norm; rewrite ?Hl, ?Hw; norm; rewrite ?Hi; norm;
    rewrite (ltb_false_of_le r' Hr'); norm;
    (eexists; split; [reflexivity|]); norm;
    do 7 (split; [reflexivity|]);
    intros j Hj; apply Nat.eqb_neq in Hj; rewrite ?Hj; reflexivity.
Qed.

(** X9: when [sys_ipc_try_send] returns a value other than 0, the
    kernel state is the one at entry except, at most, for the target's
    [env_ipc_perm] set to 0 (target receiving) or the caller's
    [env_ipc_pending_page] set to NULL (target not receiving). *)
Theorem sys_ipc_try_send_error_footprint
    (k k' : Kernel M) (envid value srcva perm r : Z) :
  pmap_contract ->
  run (sys_ipc_try_send envid value srcva perm) k = Ret r k' ->
  r <> 0 ->
  let env := snd (envid2env k envid false) in
  k' = k
  \/ (env_ipc_recving (envs k env) = true
      /\ k' = on_env env (set_env_ipc_perm 0) k)
  \/ (env_ipc_recving (envs k env) = false
      /\ k' = on_env (curenv k) (set_env_ipc_pending_page None) k).
Proof.
  intros Hp Hrun Hnz env. subst env. revert Hrun.
  unfold sys_ipc_try_send, ipc_try_send_deliver. sys.
  destruct (envid2env k envid false) as [r0 e]. cbn [snd].
  destruct k as [es c m]. open_state.
  destruct (r0 <? 0); [intros H; inversion H; left; reflexivity|].
  destruct (env_ipc_recving (es e)) eqn:Hrecv.
  - split_path; intros H; inversion H; subst; try congruence;
      try (right; left; split; reflexivity).
    all: right; left; split; [reflexivity|];
      match goal with
      | Hi : page_insert _ _ _ _ _ = (_, _), Hlt : (_ <? 0) = true |- _ =>
          apply Z.ltb_lt in Hlt;
          rewrite (page_insert_failed Hp _ _ _ _ _ _ _ Hi Hlt)
      end;
      reflexivity.
  - split_path; intros H; inversion H; subst; try congruence;
      right; right; split; reflexivity.
Qed.

(** X10: [sys_ipc_try_send] to a target that is receiving never parks
    the caller; to a target that is not receiving it never returns 0: it
    returns [-E_INVAL] or parks the caller (it has no [-E_IPC_NOT_RECV]
    return). *)
Theorem sys_ipc_try_send_never_refuses
    (k : Kernel M) (envid value srcva perm r : Z) (env : nat) :
  envid2env k envid false = (r, env) -> 0 <= r ->
  E_INVAL <> 0 ->
  (env_ipc_recving (envs k env) = true ->
   yielded (run (sys_ipc_try_send envid value srcva perm) k) = false)
  /\ (env_ipc_recving (envs k env) = false ->
      returned (run (sys_ipc_try_send envid value srcva perm) k) <> Some 0
      /\ (returned (run (sys_ipc_try_send envid value srcva perm) k)
          = Some (- E_INVAL)
          \/ yielded (run (sys_ipc_try_send envid value srcva perm) k)
             = true)).
Proof.
  intros He Hr Hnz.
  unfold sys_ipc_try_send, ipc_try_send_deliver. sys.
  rewrite He, (ltb_false_of_le r Hr).
  assert (Hneq : Some (- E_INVAL) <> Some 0)
    by (intros H; inversion H; lia).
  destruct k as [es c m]. open_state.
  split; intros Hrecv; split_path; cbn [yielded returned];
    try reflexivity; try (split; [discriminate || exact Hneq | auto]).
Qed.


(** What a rescheduling keeps of each [struct Env]. *)
Lemma rescheduled_fields (a b : Kernel M) (j : nat) :
  rescheduled a b ->
  env_id (envs b j) = env_id (envs a j)
  /\ env_pgdir (envs b j) = env_pgdir (envs a j)
  /\ env_ipc_recving (envs b j) = env_ipc_recving (envs a j)
  /\ env_ipc_dstva (envs b j) = env_ipc_dstva (envs a j)
  /\ env_ipc_pending_envid (envs b j) = env_ipc_pending_envid (envs a j)
  /\ env_ipc_pending_value (envs b j) = env_ipc_pending_value (envs a j)
  /\ env_ipc_pending_page (envs b j) = env_ipc_pending_page (envs a j)
  /\ env_ipc_pending_perm (envs b j) = env_ipc_pending_perm (envs a j).
Proof.
  intros (_ & H). rewrite (H j). repeat split; reflexivity.
Qed.

(** The state in which [sys_ipc_try_send] parks its caller. *)
Lemma try_send_park_fields (k k1 : Kernel M) (envid value srcva perm : Z) :
  run (sys_ipc_try_send envid value srcva perm) k = Yield k1 ->
  curenv k1 = curenv k /\ mem k1 = mem k
  /\ env_id (cur k1) = env_id (cur k)
  /\ env_ipc_pending_envid (cur k1) = envid
  /\ env_ipc_pending_value (cur k1) = value
  /\ ((srcva <? UTOP) = false -> env_ipc_pending_page (cur k1) = None)
  /\ ((srcva <? UTOP) = true ->
      env_ipc_pending_page (cur k1) <> None
      /\ env_ipc_pending_perm (cur k1) = perm).
Proof.
  unfold sys_ipc_try_send, ipc_try_send_deliver. sys.
  destruct (envid2env k envid false) as [r0 e].
  destruct k as [es c m]. open_state.
  split_path; try discriminate;
    intros H; inversion H; subst k1; clear H; norm;
    rewrite ?orb_true_r, ?andb_true_r, ?andb_false_r in *;
    repeat split; try reflexivity; try congruence; try discriminate.
Qed.

(** What the harvest of slot [i] delivers to the receiver. *)
Lemma ipc_recv_harvest_delivery (k : Kernel M) (dstva : Z) (i : nat) :
  (forall pp,
     env_ipc_pending_page (envs k i) = Some pp -> dstva < UTOP ->
     0 <= fst (page_insert (mem k) (env_pgdir (cur k)) pp dstva
                           (env_ipc_pending_perm (envs k i)))) ->
  exists k',
    ipc_recv_harvest dstva i k = Done (Ret 0 k')
    /\ curenv k' = curenv k
    /\ env_ipc_value (cur k') = env_ipc_pending_value (envs k i)
    /\ env_ipc_from (cur k') = env_id (envs k i)
    /\ env_ipc_perm (cur k')
       = match env_ipc_pending_page (envs k i) with
         | Some _ =>
             if dstva <? UTOP then env_ipc_pending_perm (envs k i) else 0
         | None => 0
         end
    /\ mem k'
       = match env_ipc_pending_page (envs k i) with
         | Some pp =>
             if dstva <? UTOP
             then snd (page_insert (mem k) (env_pgdir (cur k)) pp dstva
                                   (env_ipc_pending_perm (envs k i)))
             else mem k
         | None => mem k
         end
    /\ env_ipc_pending_envid (envs k' i) = 0
    /\ env_status (envs k' i) = ENV_RUNNABLE
    /\ env_eax (envs k' i) = 0.
Proof.
  unfold ipc_recv_harvest. sys.
  destruct k as [es c m]. open_state. intros Hins.
  destruct (Nat.eqb i c) eqn:Eic; [apply Nat.eqb_eq in Eic; subst i|]; norm;
    (destruct (env_ipc_pending_page (es _)) as [pp|] eqn:Hp; norm;
     [destruct (dstva <? UTOP) eqn:Hd; norm;
      [specialize (Hins pp eq_refl (proj1 (Z.ltb_lt _ _) Hd));
       destruct (page_insert m (env_pgdir (es c)) pp dstva _) as [r m'];
       cbn [fst snd] in *; rewrite (ltb_false_of_le r Hins); norm|]|]);
    (eexists; split; [reflexivity|]); norm;
    repeat split; reflexivity.
Qed.

(** X11: send before receive.  After [sys_ipc_try_send] has parked the
    sender and the scheduler has run, a [sys_ipc_recv] whose scan stops
    at the sender returns 0 with the sender's value and [env_id], with
    [env_ipc_perm = perm] exactly when both sides asked for a page
    ([srcva] and [dstva] below UTOP) and 0 otherwise, and the sender is
    RUNNABLE with accumulator 0. *)
Theorem ipc_send_then_recv
    (k k1 k2 : Kernel M) (envid value srcva perm dstva : Z) :
  run (sys_ipc_try_send envid value srcva perm) k = Yield k1 ->
  rescheduled k1 k2 ->
  first_sent_to_me k2 (curenv k) ->
  (dstva < UTOP -> dstva mod PGSIZE = 0) ->
  (forall pp,
     env_ipc_pending_page (cur k1) = Some pp -> dstva < UTOP ->
     0 <= fst (page_insert (mem k2) (env_pgdir (cur k2)) pp dstva perm)) ->
  exists k3,
    run (sys_ipc_recv dstva) k2 = Ret 0 k3
    /\ env_ipc_value (cur k3) = value
    /\ env_ipc_from (cur k3) = env_id (cur k)
    /\ env_ipc_perm (cur k3)
       = (if (srcva <? UTOP) && (dstva <? UTOP) then perm else 0)
    /\ env_ipc_pending_envid (envs k3 (curenv k)) = 0
    /\ env_status (envs k3 (curenv k)) = ENV_RUNNABLE
    /\ env_eax (envs k3 (curenv k)) = 0.
Proof.
  intros Hpark Hres (Hlt & Hi & Hfirst) Hal Hins.
  destruct (try_send_park_fields _ _ _ _ _ _ Hpark)
    as (Hc1 & Hm1 & Hid & Hpe & Hpv & Hnone & Hsome).
  set (s := curenv k) in *.
  destruct (rescheduled_fields k1 k2 s Hres)
    as (F1 & _ & _ & _ & _ & F6 & F7 & F8).
  unfold cur in Hid, Hpv, Hnone, Hsome, Hins. rewrite Hc1 in *. fold s in Hid.
  (* the state the scan runs on *)
  set (kd := if dstva <? UTOP
             then on_env (curenv k2) (set_env_ipc_dstva dstva) k2 else k2).
  assert (Hview : forall j,
             env_id (envs kd j) = env_id (envs k2 j)
             /\ env_pgdir (envs kd j) = env_pgdir (envs k2 j)
             /\ env_ipc_pending_value (envs kd j)
                = env_ipc_pending_value (envs k2 j)
             /\ env_ipc_pending_page (envs kd j)
                = env_ipc_pending_page (envs k2 j)
             /\ env_ipc_pending_perm (envs kd j)
                = env_ipc_pending_perm (envs k2 j)).
  { intros j. unfold kd. destruct (dstva <? UTOP).
    - destruct (store_cur_dstva_view k2 dstva j)
        as (_ & V2 & V3 & _ & V5 & V6 & V7 & _). auto.
    - auto. }
  assert (Hkd : curenv kd = curenv k2 /\ mem kd = mem k2)
    by (unfold kd; destruct (dstva <? UTOP); split; reflexivity).
  destruct Hkd as (Hcd & Hmd).
  assert (Hscan : ipc_recv_scan dstva NENV 0 kd = ipc_recv_harvest dstva s kd).
  { apply ipc_recv_scan_first; try lia.
    - unfold kd. destruct (dstva <? UTOP); [|exact Hi].
      rewrite sent_to_me_store_cur; auto.
    - intros j _ Hj. unfold kd. destruct (dstva <? UTOP); [|auto].
      rewrite sent_to_me_store_cur; auto. }
  destruct (Hview s) as (V2 & _ & V5 & V6 & V7).
  destruct (Hview (curenv k2)) as (_ & V3 & _).
  destruct (ipc_recv_harvest_delivery kd dstva s)
    as (k3 & Hrun & Hc3 & D1 & D2 & D3 & _ & D5 & D6 & D7).
  { intros pp Hpp Hd. unfold cur. rewrite Hcd, Hmd, V3, V7, F8.
    assert (Hs : (srcva <? UTOP) = true).
    { destruct (srcva <? UTOP); [reflexivity|].
      rewrite V6, F7, (Hnone eq_refl) in Hpp. discriminate Hpp. }
    rewrite (proj2 (Hsome Hs)). apply Hins; [|exact Hd].
    rewrite <- F7, <- V6. exact Hpp. }
  exists k3. split.
  - unfold sys_ipc_recv. sys. fold kd.
    destruct (dstva <? UTOP) eqn:Hd.
    + apply Z.ltb_lt in Hd. rewrite (Hal Hd), Z.eqb_refl. cbn [negb].
      unfold kd in Hscan, Hrun. rewrite Hscan, Hrun. reflexivity.
    + unfold kd in Hscan, Hrun. rewrite Hscan, Hrun. reflexivity.
  - rewrite D1, D2, D3, V2, V5, V6, V7, F1, F6, F7, F8, Hid, Hpv.
    split; [reflexivity|]. split; [reflexivity|].
    split; [|auto].
    destruct (srcva <? UTOP) eqn:Hs.
    + destruct (Hsome eq_refl) as (Hp & Hperm). rewrite Hperm.
      destruct (env_ipc_pending_page (envs k1 s)); [|congruence].
      reflexivity.
    + rewrite (Hnone eq_refl). reflexivity.
Qed.

(** X12: receive before send.  After [sys_ipc_recv] has blocked the
    receiver and the scheduler has run, a [sys_ipc_try_send] of a value
    without a page returns 0, and the receiver holds the value and the
    sender's [env_id], has [env_ipc_perm = 0] and is RUNNABLE with
    accumulator 0. *)
Theorem ipc_recv_then_send
    (k k1 k2 : Kernel M) (dstva envid value srcva perm r : Z) :
  run (sys_ipc_recv dstva) k = Yield k1 ->
  rescheduled k1 k2 ->
  envid2env k2 envid false = (r, curenv k) -> 0 <= r ->
  UTOP <= srcva ->
  exists k3,
    run (sys_ipc_try_send envid value srcva perm) k2 = Ret 0 k3
    /\ env_ipc_value (envs k3 (curenv k)) = value
    /\ env_ipc_from (envs k3 (curenv k)) = env_id (cur k2)
    /\ env_ipc_perm (envs k3 (curenv k)) = 0
    /\ env_ipc_recving (envs k3 (curenv k)) = false
    /\ env_status (envs k3 (curenv k)) = ENV_RUNNABLE
    /\ env_eax (envs k3 (curenv k)) = 0.
Proof.
  intros Hblock Hres He Hr Hsrc.
  apply sys_ipc_recv_yield_inv in Hblock. subst k1.
  destruct (rescheduled_fields _ k2 (curenv k) Hres) as (_ & _ & F3 & _).
  assert (Hrecv : env_ipc_recving (envs k2 (curenv k)) = true).
  { rewrite F3. unfold recv_blocked. destruct k as [es c m]. open_state.
    norm. reflexivity. }
  destruct (try_send_skips_page k2 envid value srcva perm r
              (curenv k) He Hr Hrecv (or_introl Hsrc))
    as (k3 & Hrun & _ & A1 & A2 & A3 & A4 & A5 & A6 & _).
  exists k3. auto 10.
Qed.

(** *** Environment operations, [sys_sbrk] and the dispatcher *)

(** X13: [sys_env_set_status] always returns, and whatever its
    arguments each [struct Env] is afterwards either untouched or differs
    only in [env_status], which is then the RUNNABLE or NOT_RUNNABLE that
    was asked for: the call never makes an environment FREE, DYING or
    RUNNING and writes no other field. *)
Theorem sys_env_set_status_only_status (k : Kernel M) (envid status : Z) :
  let o := run (sys_env_set_status envid status) k in
  returned o <> None
  /\ curenv (state_of o) = curenv k
  /\ mem (state_of o) = mem k
  /\ forall j,
       envs (state_of o) j = envs k j
       \/ (status = env_status_code ENV_RUNNABLE
           /\ envs (state_of o) j = set_env_status ENV_RUNNABLE (envs k j))
       \/ (status = env_status_code ENV_NOT_RUNNABLE
           /\ envs (state_of o) j
              = set_env_status ENV_NOT_RUNNABLE (envs k j)).
Proof.
  cbv zeta. unfold sys_env_set_status. sys.
  destruct (envid2env k envid true) as [r env].
  destruct (r <? 0).
  { cbn. repeat split; try discriminate. intros j. left. reflexivity. }
  destruct (status =? env_status_code ENV_RUNNABLE) eqn:E1.
  - apply Z.eqb_eq in E1. cbn [negb andb]. cbn [returned state_of].
    destruct k as [es c m]. open_state.
    repeat split; try discriminate. intros j.
    destruct (Nat.eqb j env); [right; left; split; [exact E1 | reflexivity]
                              | left; reflexivity].
  - cbn [negb andb].
    destruct (status =? env_status_code ENV_NOT_RUNNABLE) eqn:E2.
    + apply Z.eqb_eq in E2. cbn [negb]. cbn [returned state_of].
      destruct k as [es c m]. open_state.
      repeat split; try discriminate. intros j.
      destruct (Nat.eqb j env); [right; right; split; [exact E2 | reflexivity]
                                | left; reflexivity].
    + cbn. repeat split; try discriminate. intros j. left. reflexivity.
Qed.

(** [sys_exofork] on a state in which [env_alloc] succeeds. *)
Lemma exofork_fields (k : Kernel M) (r : Z) (child : nat) (ka : Kernel M) :
  env_alloc_contract ->
  env_status (cur k) <> ENV_FREE ->
  env_alloc k (env_id (cur k)) = (r, child, ka) -> 0 <= r ->
  exists k',
    run sys_exofork k = Ret (env_id (envs k' child)) k'
    /\ curenv k' = curenv k
    /\ mem k' = mem ka
    /\ cur k' = cur k
    /\ env_status (envs k' child) = ENV_NOT_RUNNABLE
    /\ env_tf (envs k' child) = set_reg_eax 0 (env_tf (cur k))
    /\ env_break (envs k' child) = env_break (cur k)
    /\ env_parent_id (envs k' child) = env_id (cur k)
    /\ env_id (envs k' child) = env_id (envs ka child).
Proof.
  intros Hc Hlive Halloc Hr.
  destruct (Hc k _ _ _ _ Halloc Hr Hlive) as (Hne & Hcur & Hsame & Hpar).
  unfold sys_exofork. sys. rewrite Halloc.
  rewrite (ltb_false_of_le r Hr).
  match goal with |- exists _, Ret _ ?K = _ /\ _ => exists K end.
  split; [reflexivity|].
  unfold env_eax, cur in *. cbn [on_env envs curenv mem].
  rewrite !upd_env_same.
  rewrite !upd_env_other by (rewrite Hcur; auto).
  rewrite Hcur in *. rewrite Hsame.
  repeat split; try reflexivity. exact Hpar.
Qed.

(** X14: [sys_exofork] followed by [sys_env_set_status] of the returned
    id to RUNNABLE leaves the child RUNNABLE with the parent's register
    frame, accumulator 0, the parent's break and the parent as parent. *)
Theorem exofork_then_set_runnable
    (k : Kernel M) (r r2 : Z) (child : nat) (ka : Kernel M) :
  env_alloc_contract ->
  env_status (cur k) <> ENV_FREE ->
  env_alloc k (env_id (cur k)) = (r, child, ka) -> 0 <= r ->
  let k1 := state_of (run sys_exofork k) in
  let id := env_id (envs k1 child) in
  envid2env k1 id true = (r2, child) -> 0 <= r2 ->
  returned (run sys_exofork k) = Some id
  /\ exists k2,
       run (sys_env_set_status id (env_status_code ENV_RUNNABLE)) k1 = Ret 0 k2
       /\ env_status (envs k2 child) = ENV_RUNNABLE
       /\ env_tf (envs k2 child) = set_reg_eax 0 (env_tf (cur k))
       /\ env_eax (envs k2 child) = 0
       /\ env_break (envs k2 child) = env_break (cur k)
       /\ env_parent_id (envs k2 child) = env_id (cur k)
       /\ env_id (envs k2 child) = id.
Proof.
  intros Hc Hlive Halloc Hr k1 id.
  destruct (exofork_fields k r child ka Hc Hlive Halloc Hr)
    as (k' & Hrun & _ & _ & _ & F1 & F2 & F3 & F4 & _).
  subst id k1. rewrite Hrun. cbn [state_of returned].
  intros He Hr2. split; [reflexivity|].
  unfold sys_env_set_status. sys.
  rewrite He, (ltb_false_of_le r2 Hr2), Z.eqb_refl. cbn [negb andb].
  eexists. split; [reflexivity|].
  revert F1 F2 F3 F4. destruct k' as [es c m]. open_state.
  rewrite Nat.eqb_refl. fields. intros F1 F2 F3 F4.
  unfold env_eax. fields. rewrite F2. fields.
  split; [reflexivity|]. split; [reflexivity|]. split; [reflexivity|].
  split; [exact F3|]. split; [exact F4|]. reflexivity.
Qed.

Lemma land_lor_absorb (a b : Z) : Z.land (Z.lor a b) b = b.
Proof.
  apply Z.bits_inj'. intros n Hn. rewrite Z.land_spec, Z.lor_spec.
  destruct (Z.testbit a n), (Z.testbit b n); reflexivity.
Qed.

(** X15: whatever frame the user supplies, the frame
    [sys_env_set_trapframe] installs has [GD_UT | 3] in [tf_cs] and
    [GD_UD | 3] in [tf_ds], [tf_es] and [tf_ss] (requested privilege
    level 3) and FL_IF set in [tf_eflags]; the registers, [tf_eip] and
    [tf_esp] are the user's, and only the target's [env_tf] changes. *)
Theorem sys_env_set_trapframe_user_mode
    (k k1 : Kernel M) (envid tf r : Z) (env : nat) :
  user_mem_assert (curenv k) tf sizeof_Trapframe 0 k = Next tt k1 ->
  envid2env k1 envid true = (r, env) -> 0 <= r ->
  exists k',
    run (sys_env_set_trapframe envid tf) k = Ret 0 k'
    /\ mem k' = mem k1 /\ curenv k' = curenv k1
    /\ (forall j, j <> env -> envs k' j = envs k1 j)
    /\ set_env_tf (env_tf (envs k' env)) (envs k1 env) = envs k' env
    /\ (let f := env_tf (envs k' env) in
        let u := read_trapframe k1 tf in
        tf_cs f = Z.lor GD_UT 3 /\ tf_ds f = Z.lor GD_UD 3
        /\ tf_es f = Z.lor GD_UD 3 /\ tf_ss f = Z.lor GD_UD 3
        /\ Z.land (tf_cs f) 3 = 3 /\ Z.land (tf_ds f) 3 = 3
        /\ Z.land (tf_es f) 3 = 3 /\ Z.land (tf_ss f) 3 = 3
        /\ Z.land (tf_eflags f) FL_IF = FL_IF
        /\ tf_eflags f = Z.lor (tf_eflags u) FL_IF
        /\ tf_regs f = tf_regs u /\ tf_eip f = tf_eip u
        /\ tf_esp f = tf_esp u /\ tf_trapno f = tf_trapno u
        /\ tf_err f = tf_err u).
Proof.
  intros Hu He Hr. unfold sys_env_set_trapframe. sys.
  rewrite Hu, He, (ltb_false_of_le r Hr).
  eexists. split; [reflexivity|].
  destruct k1 as [es c m]. open_state. rewrite Nat.eqb_refl. fields.
  rewrite !land_lor_absorb.
  split; [reflexivity|]. split; [reflexivity|].
  split; [intros j Hj; apply Nat.eqb_neq in Hj; rewrite Hj; reflexivity|].
  repeat split; reflexivity.
Qed.

(** X16: when [sys_exec_commit] reaches [lcr3], [curenv] has the
    donor's frame, upcall, break and page directory, and the donor has
    [curenv]'s old page directory and is otherwise as before; with the
    caller itself as donor the caller's fields are unchanged (and it is
    the caller that [env_destroy] is then called on). *)
Theorem sys_exec_commit_swaps
    (k : Kernel M) (envid r : Z) (env : nat) :
  envid2env k envid true = (r, env) -> 0 <= r ->
  exists k',
    run (sys_exec_commit envid) k = run (exec_commit_finish env) k'
    /\ curenv k' = curenv k /\ mem k' = mem k
    /\ (forall j, j <> env -> j <> curenv k -> envs k' j = envs k j)
    /\ (env <> curenv k ->
        cur k'
        = set_env_pgdir (env_pgdir (envs k env))
            (set_env_break (env_break (envs k env))
               (set_env_pgfault_upcall (env_pgfault_upcall (envs k env))
                  (set_env_tf (env_tf (envs k env)) (cur k))))
        /\ envs k' env = set_env_pgdir (env_pgdir (cur k)) (envs k env))
    /\ (env = curenv k ->
        env_tf (cur k') = env_tf (cur k)
        /\ env_pgfault_upcall (cur k') = env_pgfault_upcall (cur k)
        /\ env_break (cur k') = env_break (cur k)
        /\ env_pgdir (cur k') = env_pgdir (cur k)
        /\ env_id (cur k') = env_id (cur k)
        /\ env_status (cur k') = env_status (cur k)).
Proof.
  intros He Hr. unfold sys_exec_commit, exec_commit_swap. sys.
  rewrite He, (ltb_false_of_le r Hr).
  eexists. split; [reflexivity|].
  destruct k as [es c m]. open_state.
  split; [reflexivity|]. split; [reflexivity|].
  split; [|split].
  - intros j H1 H2. apply Nat.eqb_neq in H1, H2. rewrite H1, H2. reflexivity.
  - intros Hne. pose proof (proj2 (Nat.eqb_neq _ _) Hne) as E.
    pose proof (proj2 (Nat.eqb_neq _ _) (not_eq_sym Hne)) as E'.
    norm. split; reflexivity.
  - intros ->. norm. repeat split; reflexivity.
Qed.

Lemma wrap32_range (x : Z) : 0 <= wrap32 x < 2 ^ 32.
Proof. unfold wrap32. apply Z.mod_pos_bound. reflexivity. Qed.

(** A sum that does not exceed ULIM passes the test of [sys_sbrk]. *)
Lemma sbrk_in_range (brk inc_size : Z) :
  0 <= brk -> 0 <= inc_size -> ULIM < 2 ^ 32 ->
  brk + inc_size <= ULIM -> sbrk_out_of_range brk inc_size = false.
Proof.
  intros Hb Hs Hu Hle. unfold sbrk_out_of_range, wrap32.
  rewrite Z.mod_small by lia.
  apply orb_false_iff. split; apply Z.ltb_ge; lia.
Qed.

(** X17: the 32-bit test of [sys_sbrk] is exact: it fires precisely when
    the break plus the increment, as integers, exceeds ULIM (a sum that
    wraps around is caught). *)
Theorem sbrk_out_of_range_iff (brk inc_size : Z) :
  0 <= brk < 2 ^ 32 -> 0 <= inc_size < 2 ^ 32 -> 0 <= ULIM < 2 ^ 32 ->
  sbrk_out_of_range brk inc_size = true <-> ULIM < brk + inc_size.
Proof.
  intros Hb Hs Hu. unfold sbrk_out_of_range, wrap32.
  rewrite orb_true_iff, !Z.ltb_lt.
  destruct (Z_lt_ge_dec (brk + inc_size) (2 ^ 32)) as [Hlt|Hge].
  - rewrite Z.mod_small by lia. lia.
  - replace ((brk + inc_size) mod 2 ^ 32) with (brk + inc_size - 2 ^ 32).
    + lia.
    + symmetry. rewrite <- (Z.mod_add _ (-1)) by lia.
      rewrite Z.mod_small; lia.
Qed.

(** X18: when the new break does not exceed ULIM, [sys_sbrk] calls
    [region_alloc] for the old break and the rounded increment, sets
    [env_break] to their sum, which lies between the old break and ULIM,
    and returns it. *)
Theorem sys_sbrk_grows (k k1 : Kernel M) (inc : Z) :
  region_alloc_contract ->
  let brk := env_break (cur k) in
  let inc_size := wrap32 (ROUNDUP inc PGSIZE) in
  0 <= brk < 2 ^ 32 -> 0 <= ULIM < 2 ^ 32 ->
  brk + inc_size <= ULIM ->
  region_alloc (curenv k) brk inc_size k = Next tt k1 ->
  exists k',
    run (sys_sbrk inc) k = Ret (to_int32 (brk + inc_size)) k'
    /\ env_break (cur k') = brk + inc_size
    /\ brk <= env_break (cur k') <= ULIM
    /\ curenv k' = curenv k /\ mem k' = mem k1
    /\ (forall j, j <> curenv k -> envs k' j = envs k j).
Proof.
  intros Hc brk inc_size Hb Hu Hle Hra.
  pose proof (wrap32_range (ROUNDUP inc PGSIZE)) as Hs. fold inc_size in Hs.
  assert (Hok : sbrk_out_of_range brk inc_size = false)
    by (apply sbrk_in_range; lia).
  destruct (Hc _ _ _ _ _ Hra) as (Hcur & Henvs).
  assert (Hw : wrap32 (brk + inc_size) = brk + inc_size)
    by (unfold wrap32; apply Z.mod_small; lia).
  unfold sys_sbrk. cbv zeta. sys. fold inc_size. subst brk.
  rewrite Hok, Hra.
  unfold cur in *. rewrite Hcur, (Henvs (curenv k)), Hw.
  unfold on_env. cbn [envs curenv mem]. rewrite Hcur, !upd_env_same.
  cbn [env_break set_env_break].
  eexists. split; [reflexivity|].
  cbn [envs curenv mem]. rewrite ?upd_env_same.
  cbn [env_break set_env_break].
  split; [reflexivity|]. split; [lia|]. split; [reflexivity|].
  split; [reflexivity|].
  intros j Hj. rewrite upd_env_other by exact Hj. apply Henvs.
Qed.

(** X19: for a number that is none of its cases, [syscall] returns
    [-E_INVAL] and leaves the kernel state as it was. *)
Theorem syscall_unknown_number (k : Kernel M) (syscallno a1 a2 a3 a4 a5 : Z) :
  no_such_syscall syscallno ->
  run (syscall syscallno a1 a2 a3 a4 a5) k = Ret (- E_INVAL) k.
Proof.
  intros Hno. unfold no_such_syscall in Hno. cbn [In] in Hno.
  unfold syscall.
  repeat match goal with
         | |- context [syscallno =? ?c] =>
             let E := fresh "E" in
             destruct (syscallno =? c) eqn:E;
             [apply Z.eqb_eq in E; exfalso; apply Hno; subst; tauto|]
         end.
  reflexivity.
Qed.

(** X20: through [sysenter], the child of an exofork gets the trap
    frame that was passed at entry, with accumulator 0; the parent's
    saved frame is that trap frame. *)
Theorem sysenter_exofork_child_frame
    (k : Kernel M) (a1 a2 a3 a4 a5 r : Z) (tf : Trapframe) (child : nat)
    (ka : Kernel M) :
  lock_contract -> exofork_case_reached -> env_alloc_contract ->
  env_status (cur k) <> ENV_FREE ->
  env_alloc (on_env (curenv k) (set_env_tf tf) k) (env_id (cur k))
  = (r, child, ka) ->
  0 <= r ->
  exists k',
    run (sysenter SYS_exofork a1 a2 a3 a4 a5 tf) k
    = Ret (env_id (envs k' child)) k'
    /\ env_tf (envs k' child) = set_reg_eax 0 tf
    /\ env_tf (cur k') = tf
    /\ env_status (envs k' child) = ENV_NOT_RUNNABLE
    /\ env_parent_id (envs k' child) = env_id (cur k).
Proof.
  intros Hl (N1 & N2 & N3 & N4 & N5 & N6) Hc Hlive Halloc Hr.
  set (k0 := on_env (curenv k) (set_env_tf tf) k) in *.
  assert (Hcur0 : cur k0 = set_env_tf tf (cur k)).
  { unfold k0, cur. cbn [on_env envs curenv]. apply upd_env_same. }
  assert (Hlive0 : env_status (cur k0) <> ENV_FREE)
    by (rewrite Hcur0; exact Hlive).
  assert (Hid0 : env_id (cur k0) = env_id (cur k))
    by (rewrite Hcur0; reflexivity).
  rewrite <- Hid0 in Halloc.
  destruct (exofork_fields k0 r child ka Hc Hlive0 Halloc Hr)
    as (k' & Hrun & _ & _ & Hsame & F1 & F2 & _ & F4 & _).
  exists k'. split.
  - unfold sysenter, syscall.
    apply Z.eqb_neq in N1, N2, N3, N4, N5, N6.
    rewrite N1, N2, N3, N4, N5, N6, Z.eqb_refl.
    unfold run in Hrun |- *. unfold bind at 1.
    rewrite (proj1 (Hl k)). unfold bind at 1. unfold store_cur at 1.
    fold k0. unfold bind at 1.
    destruct (sys_exofork k0) as [v kk|o] eqn:E.
    + inversion Hrun; subst. unfold bind. rewrite (proj2 (Hl k')).
      reflexivity.
    + subst o. reflexivity.
  - rewrite F1, F2, F4, Hsame, Hcur0. repeat split; reflexivity.
Qed.

(** X21: a [SYS_cputs] call with a null string pointer panics the
    kernel before any check of user memory, whatever [len] is.  Entered
    through [sysenter], the panic comes after the caller's saved frame has
    been overwritten and before [unlock_kernel], whatever that does. *)
Theorem sysenter_cputs_null_panics
    (k : Kernel M) (len a3 a4 a5 : Z) (tf : Trapframe) :
  (forall k0 : Kernel M, lock_kernel k0 = Next tt k0) ->
  run (syscall SYS_cputs 0 len a3 a4 a5) k = Panic k
  /\ run (sysenter SYS_cputs 0 len a3 a4 a5 tf) k
     = Panic (on_env (curenv k) (set_env_tf tf) k).
Proof.
  intros Hl. split.
  - unfold syscall. rewrite Z.eqb_refl. reflexivity.
  - unfold sysenter, syscall. rewrite Z.eqb_refl.
    unfold run. unfold bind at 1. rewrite (Hl k). reflexivity.
Qed.

End MoreProperties.

(** ** The reference implementation meets the further contracts *)

Lemma returned_state {M : Type} (o : Outcome M) (r : Z) :
  returned o = Some r -> o = Ret r (state_of o).
Proof.
  destruct o; cbn; intros H; try discriminate H. inversion H. reflexivity.
Qed.

Lemma pair_of_fst {A B : Type} (p : A * B) (a : A) :
  fst p = a -> p = (a, snd p).
Proof. destruct p. cbn. intros ->. reflexivity. Qed.

Lemma land_page_address_W (pp : nat) :
  Z.land (Z.of_nat pp * Ref.PGSIZE) Ref.PTE_W = 0.
Proof.
  apply Z.bits_inj'. intros n Hn. rewrite Z.land_spec, Z.bits_0.
  change Ref.PTE_W with (2 ^ 1). change Ref.PGSIZE with (2 ^ 12).
  rewrite Z.pow2_bits_eqb by lia.
  destruct (Z.eqb_spec 1 n) as [<-|Hne]; [|apply andb_false_r].
  rewrite Z.mul_pow2_bits_low by lia. reflexivity.
Qed.

Lemma Ref_pmap_lookup_contract :
  @pmap_lookup_contract Ref.PhysMem Ref.ext.
Proof.
  constructor; cbn [page_insert page_lookup page_remove PTE_W Ref.ext].
  - intros m pgdir pp va perm r m' H Hr. unfold Ref.page_insert in H.
    destruct (Ref.pgdir_walk_create m pgdir va) as [m1|];
      [|pose proof (f_equal fst H) as Hf; cbn in Hf; subst r;
        exfalso; revert Hr; apply Z.lt_nge; reflexivity].
    pose proof (f_equal snd H) as Hs. cbn [snd] in Hs. subst m'.
    unfold Ref.page_lookup. cbn [Ref.pte]. unfold Ref.upd_ZZ.
    rewrite !Z.eqb_refl. cbn [andb].
    eexists. split; [reflexivity|].
    rewrite Z.land_lor_distr_l, land_page_address_W, Z.lor_0_l.
    rewrite Z.land_lor_distr_l.
    change (Z.land Ref.PTE_P Ref.PTE_W) with 0. apply Z.lor_0_r.
  - intros m pgdir va. unfold Ref.page_remove, Ref.page_lookup.
    destruct (Ref.pte m pgdir (va / Ref.PGSIZE)) as [[pp flags]|] eqn:E.
    + cbn [Ref.pte Ref.page_decref]. unfold Ref.upd_ZZ.
      rewrite !Z.eqb_refl. reflexivity.
    + rewrite E. reflexivity.
Qed.

Lemma Ref_descends_set_mem (k : Kernel Ref.PhysMem) (m : Ref.PhysMem) :
  forall n i,
    Ref.descends_from_cur (set_mem m k) n i = Ref.descends_from_cur k n i.
Proof.
  induction n as [|n IH]; intros i; cbn [Ref.descends_from_cur].
  - reflexivity.
  - unfold Ref.slot_of. cbn [set_mem envs curenv].
    destruct (_ && _); [rewrite IH|]; reflexivity.
Qed.

Lemma Ref_envid2env_reads_envs :
  @envid2env_reads_envs Ref.PhysMem Ref.ext.
Proof.
  intros k m envid checkperm. cbn [envid2env Ref.ext].
  unfold Ref.envid2env, Ref.slot_of. cbn [set_mem envs curenv].
  destruct (envid =? 0); [reflexivity|].
  destruct (_ && _); [|reflexivity].
  rewrite Ref_descends_set_mem. reflexivity.
Qed.

Lemma Ref2_region_alloc_contract :
  @region_alloc_contract Ref.PhysMem Ref2.ext2.
Proof.
  intros k e va len k' H. cbn [region_alloc Ref2.ext2] in H.
  unfold Ref2.region_alloc in H.
  destruct (Ref2.region_alloc_pages _ _ _ _); inversion H.
  split; [reflexivity | intros j; reflexivity].
Qed.

Lemma Ref2_lock_contract : @lock_contract Ref.PhysMem Ref2.ext2.
Proof. intros k. split; reflexivity. Qed.

Lemma Ref2_exofork_case_reached :
  @exofork_case_reached Ref.PhysMem Ref2.ext2.
Proof. repeat split; discriminate. Qed.

Lemma Ref_env_run_rescheduled (e : nat) (k : Kernel Ref.PhysMem) :
  rescheduled k (Ref.env_run e k).
Proof.
  split; [reflexivity|]. intros j. unfold Ref.env_run, cur.
  cbn [envs curenv mem]. unfold upd_env.
  destruct (env_status (envs k (curenv k)));
    destruct (Nat.eqb j e); try destruct (Nat.eqb j (curenv k));
    destruct (envs k j); reflexivity.
Qed.


(** ** The further theorems at concrete inputs *)

(** [S] maps its page at 0x400000 into [R] at 0x800000. *)
Lemma sys_page_map_all_or_nothing_witness :
  @pmap_contract Ref.PhysMem Ref.ext
  /\ returned (run (sys_page_map 0 0x400000 0x1002 0x800000 7) Scenario.k0)
     = Some 0
  /\ exists r k',
       run (sys_page_map 0 0x400000 0x1002 0x800000 7) Scenario.k0 = Ret r k'
       /\ (k' = Scenario.k0
           \/ (r = 0
               /\ va_invalid 0x400000 = false /\ va_invalid 0x800000 = false
               /\ perm_inappropriate 7 = false
               /\ exists page srcpte,
                    page_lookup (mem Scenario.k0)
                      (env_pgdir
                         (envs Scenario.k0
                               (snd (envid2env Scenario.k0 0 true))))
                      0x400000 = Some (page, srcpte)
                    /\ write_escalation 7 srcpte = false
                    /\ k' = set_mem
                              (snd (page_insert (mem Scenario.k0)
                                      (env_pgdir
                                         (envs Scenario.k0
                                            (snd (envid2env Scenario.k0
                                                    0x1002 true))))
                                      page 0x800000 7))
                              Scenario.k0)).
Proof.
  split; [exact Ref_pmap_contract|]. split; [vm_compute; reflexivity|].
  exact (sys_page_map_all_or_nothing Scenario.k0 0 0x400000 0x1002 0x800000 7
           Ref_pmap_contract).
Defined.

(** [S] unmaps, twice, the page that [R] received at 0x800000. *)
Lemma sys_page_unmap_idempotent_witness :
  @pmap_lookup_contract Ref.PhysMem Ref.ext
  /\ @envid2env_reads_envs Ref.PhysMem Ref.ext
  /\ Ref.pte (mem Scenario.k2) Scenario.pgdir_R (0x800000 / Ref.PGSIZE)
     = Some (5%nat, 7)
  /\ exists r,
       run (sys_page_unmap 0x1002 0x800000) Scenario.k2
       = Ret r (state_of (run (sys_page_unmap 0x1002 0x800000) Scenario.k2))
       /\ run (sys_page_unmap 0x1002 0x800000)
              (state_of (run (sys_page_unmap 0x1002 0x800000) Scenario.k2))
          = Ret r (state_of (run (sys_page_unmap 0x1002 0x800000)
                                 Scenario.k2)).
Proof.
  split; [exact Ref_pmap_lookup_contract|].
  split; [exact Ref_envid2env_reads_envs|].
  split; [vm_compute; reflexivity|].
  exact (sys_page_unmap_idempotent Scenario.k2 0x1002 0x800000
           Ref_pmap_lookup_contract Ref_envid2env_reads_envs).
Defined.

(** [S] allocates a read-only page at 0x800000 and then tries to map it
    writable into [R]. *)
Lemma page_alloc_readonly_then_map_writable_witness :
  let k1 := state_of (run (sys_page_alloc 0 0x800000 5) Scenario.k0) in
  @pmap_lookup_contract Ref.PhysMem Ref.ext
  /\ @envid2env_reads_envs Ref.PhysMem Ref.ext
  /\ 0 < Ref.E_INVAL /\ 0 < Ref.E_NO_MEM
  /\ run (sys_page_alloc 0 0x800000 5) Scenario.k0 = Ret 0 k1
  /\ Z.land 5 Ref.PTE_W = 0
  /\ Z.land 7 Ref.PTE_W <> 0
  /\ 0 <= fst (envid2env Scenario.k0 0x1002 true)
  /\ run (sys_page_map 0 0x800000 0x1002 0xA00000 7) k1
     = Ret (- Ref.E_INVAL) k1.
Proof.
  intros k1.
  assert (H1 : 0 < @E_INVAL _ Ref.ext) by reflexivity.
  assert (H2 : 0 < @E_NO_MEM _ Ref.ext) by reflexivity.
  assert (H3 : run (sys_page_alloc 0 0x800000 5) Scenario.k0 = Ret 0 k1)
    by (apply returned_state; vm_compute; reflexivity).
  assert (H4 : Z.land 5 (@PTE_W _ Ref.ext) = 0) by reflexivity.
  assert (H5 : Z.land 7 (@PTE_W _ Ref.ext) <> 0) by (vm_compute; discriminate).
  assert (H6 : 0 <= fst (envid2env Scenario.k0 0x1002 true))
    by (vm_compute; discriminate).
  split; [exact Ref_pmap_lookup_contract|].
  split; [exact Ref_envid2env_reads_envs|].
  split; [exact H1|]. split; [exact H2|]. split; [exact H3|].
  split; [exact H4|]. split; [exact H5|]. split; [exact H6|].
  exact (page_alloc_readonly_then_map_writable Scenario.k0 k1 0 0x800000 5
           0x1002 0xA00000 7 Ref_pmap_lookup_contract
           Ref_envid2env_reads_envs H1 H2 H3 H4 H5 H6).
Defined.

(** [R] runs and receives at 0x800000 while nobody has sent to it. *)
Lemma sys_ipc_recv_blocks_witness :
  let k := Ref.env_run 2 Scenario.k0 in
  (forall j, (j < Ref.NENV)%nat -> sent_to_me k j = false)
  /\ (0x800000 < Ref.UTOP -> 0x800000 mod Ref.PGSIZE = 0)
  /\ run (sys_ipc_recv 0x800000) k = Yield (recv_blocked 0x800000 k)
  /\ env_ipc_recving (cur (recv_blocked 0x800000 k)) = true
  /\ env_status (cur (recv_blocked 0x800000 k)) = ENV_NOT_RUNNABLE
  /\ env_ipc_dstva (cur (recv_blocked 0x800000 k))
     = (if 0x800000 <? Ref.UTOP then 0x800000 else env_ipc_dstva (cur k))
  /\ mem (recv_blocked 0x800000 k) = mem k
  /\ forall j, j <> curenv k -> envs (recv_blocked 0x800000 k) j = envs k j.
Proof.
  intros k.
  assert (H1 : forall j, (j < @NENV _ Ref.ext)%nat -> sent_to_me k j = false).
  { intros j _. destruct j as [|[|[|j]]]; reflexivity. }
  assert (H2 : 0x800000 < @UTOP _ Ref.ext -> 0x800000 mod @PGSIZE _ Ref.ext = 0)
    by (intros _; reflexivity).
  split; [exact H1|]. split; [exact H2|].
  exact (sys_ipc_recv_blocks k 0x800000 H1 H2).
Defined.

(** [S] sends the value 42 and no page to [R], blocked in a receive. *)
Lemma sys_ipc_try_send_value_only_witness :
  let k := Ref.env_run 1 Scenario.k1 in
  envid2env k 0x1002 false = (0, 2%nat)
  /\ 0 <= 0
  /\ env_ipc_recving (envs k 2) = true
  /\ (Ref.UTOP <= Ref.UTOP \/ Ref.UTOP <= env_ipc_dstva (envs k 2))
  /\ exists k',
       run (sys_ipc_try_send 0x1002 42 Ref.UTOP 0) k = Ret 0 k'
       /\ mem k' = mem k
       /\ env_ipc_recving (envs k' 2) = false
       /\ env_ipc_from (envs k' 2) = env_id (cur k)
       /\ env_ipc_value (envs k' 2) = 42
       /\ env_ipc_perm (envs k' 2) = 0
       /\ env_status (envs k' 2) = ENV_RUNNABLE
       /\ env_eax (envs k' 2) = 0
       /\ forall j, j <> 2%nat -> envs k' j = envs k j.
Proof.
  intros k.
  assert (H1 : envid2env k 0x1002 false = (0, 2%nat))
    by (vm_compute; reflexivity).
  assert (H2 : 0 <= 0) by lia.
  assert (H3 : env_ipc_recving (envs k 2) = true) by (vm_compute; reflexivity).
  assert (H4 : @UTOP _ Ref.ext <= Ref.UTOP
               \/ @UTOP _ Ref.ext <= env_ipc_dstva (envs k 2))
    by (left; apply Z.le_refl).
  split; [exact H1|]. split; [exact H2|]. split; [exact H3|].
  split; [exact H4|].
  exact (sys_ipc_try_send_value_only k 0x1002 42 Ref.UTOP 0 0 2%nat
           H1 H2 H3 H4).
Defined.

(** [S] sends its page at 0x400000 to [R], blocked in a receive at
    0x800000. *)
Lemma sys_ipc_try_send_with_page_witness :
  let k := Ref.env_run 1 Scenario.k1 in
  let m' := snd (page_insert (mem k) Scenario.pgdir_R 5%nat 0x800000 7) in
  envid2env k 0x1002 false = (0, 2%nat)
  /\ env_ipc_recving (envs k 2) = true
  /\ env_ipc_dstva (envs k 2) = 0x800000
  /\ page_lookup (mem k) (env_pgdir (cur k)) 0x400000 = Some (5%nat, 0x5007)
  /\ exists k',
       run (sys_ipc_try_send 0x1002 1 0x400000 7) k = Ret 0 k'
       /\ mem k' = m'
       /\ env_ipc_recving (envs k' 2) = false
       /\ env_ipc_from (envs k' 2) = env_id (cur k)
       /\ env_ipc_value (envs k' 2) = 1
       /\ env_ipc_perm (envs k' 2) = 7
       /\ env_status (envs k' 2) = ENV_RUNNABLE
       /\ env_eax (envs k' 2) = 0
       /\ forall j, j <> 2%nat -> envs k' j = envs k j.
Proof.
  intros k m'.
  assert (H1 : envid2env k 0x1002 false = (0, 2%nat))
    by (vm_compute; reflexivity).
  assert (H3 : env_ipc_recving (envs k 2) = true) by (vm_compute; reflexivity).
  assert (Hd : env_ipc_dstva (envs k 2) = 0x800000)
    by (vm_compute; reflexivity).
  assert (H6 : page_lookup (mem k) (env_pgdir (cur k)) 0x400000
               = Some (5%nat, 0x5007)) by (vm_compute; reflexivity).
  assert (H8 : page_insert (mem k) (env_pgdir (envs k 2)) 5%nat
                 (env_ipc_dstva (envs k 2)) 7 = (0, m')).
  { rewrite Hd. apply pair_of_fst. vm_compute. reflexivity. }
  split; [exact H1|]. split; [exact H3|]. split; [exact Hd|].
  split; [exact H6|].
  exact (sys_ipc_try_send_with_page k 0x1002 1 0x400000 7 0 0x5007 0 2%nat
           5%nat m' H1 ltac:(lia) H3 ltac:(reflexivity)
           ltac:(rewrite Hd; reflexivity) ltac:(reflexivity)
           ltac:(reflexivity) H6 ltac:(reflexivity) H8 ltac:(lia)).
Defined.

(** [S] sends from the misaligned 0x400001 to [R], blocked in a receive. *)
Lemma sys_ipc_try_send_error_footprint_witness :
  let k := Scenario.k5 in
  let k' := state_of (run (sys_ipc_try_send 0x1002 2 0x400001 7) k) in
  @pmap_contract Ref.PhysMem Ref.ext
  /\ run (sys_ipc_try_send 0x1002 2 0x400001 7) k = Ret (- Ref.E_INVAL) k'
  /\ - Ref.E_INVAL <> 0
  /\ (k' = k
      \/ (env_ipc_recving (envs k (snd (envid2env k 0x1002 false))) = true
          /\ k' = on_env (snd (envid2env k 0x1002 false))
                         (set_env_ipc_perm 0) k)
      \/ (env_ipc_recving (envs k (snd (envid2env k 0x1002 false))) = false
          /\ k' = on_env (curenv k) (set_env_ipc_pending_page None) k)).
Proof.
  intros k k'.
  assert (H1 : run (sys_ipc_try_send 0x1002 2 0x400001 7) k
               = Ret (- Ref.E_INVAL) k').
  { refine (returned_state
              (run (sys_ipc_try_send 0x1002 2 0x400001 7) Scenario.k5)
              (- Ref.E_INVAL) _).
    vm_compute. reflexivity. }
  assert (H2 : - Ref.E_INVAL <> 0) by discriminate.
  split; [exact Ref_pmap_contract|]. split; [exact H1|]. split; [exact H2|].
  exact (sys_ipc_try_send_error_footprint k k' 0x1002 2 0x400001 7
           (- Ref.E_INVAL) Ref_pmap_contract H1 H2).
Defined.

(** [S] sends to [R] in the initial state, where [R] is not receiving. *)
Lemma sys_ipc_try_send_never_refuses_witness :
  let k := Scenario.k0 in
  envid2env k 0x1002 false = (0, 2%nat)
  /\ Ref.E_INVAL <> 0
  /\ env_ipc_recving (envs k 2) = false
  /\ returned (run (sys_ipc_try_send 0x1002 1 0x400000 7) k) <> Some 0
  /\ (returned (run (sys_ipc_try_send 0x1002 1 0x400000 7) k)
      = Some (- Ref.E_INVAL)
      \/ yielded (run (sys_ipc_try_send 0x1002 1 0x400000 7) k) = true).
Proof.
  intros k.
  assert (H1 : envid2env k 0x1002 false = (0, 2%nat))
    by (vm_compute; reflexivity).
  assert (H2 : @E_INVAL _ Ref.ext <> 0) by discriminate.
  assert (H3 : env_ipc_recving (envs k 2) = false) by reflexivity.
  split; [exact H1|]. split; [exact H2|]. split; [exact H3|].
  exact (proj2 (sys_ipc_try_send_never_refuses k 0x1002 1 0x400000 7 0 2%nat
                  H1 ltac:(lia) H2) H3).
Defined.

(** [S] sends its page to [R] and parks; [R] runs and receives at
    0x800000. *)
Lemma ipc_send_then_recv_witness :
  let k := Scenario.k0 in
  let k1 := state_of (run (sys_ipc_try_send 0x1002 42 0x400000 7) k) in
  let k2 := Ref.env_run 2 k1 in
  run (sys_ipc_try_send 0x1002 42 0x400000 7) k = Yield k1
  /\ rescheduled k1 k2
  /\ first_sent_to_me k2 (curenv k)
  /\ exists k3,
       run (sys_ipc_recv 0x800000) k2 = Ret 0 k3
       /\ env_ipc_value (cur k3) = 42
       /\ env_ipc_from (cur k3) = env_id (cur k)
       /\ env_ipc_perm (cur k3)
          = (if (0x400000 <? Ref.UTOP) && (0x800000 <? Ref.UTOP)
             then 7 else 0)
       /\ env_ipc_pending_envid (envs k3 (curenv k)) = 0
       /\ env_status (envs k3 (curenv k)) = ENV_RUNNABLE
       /\ env_eax (envs k3 (curenv k)) = 0.
Proof.
  intros k k1 k2.
  assert (H1 : run (sys_ipc_try_send 0x1002 42 0x400000 7) k = Yield k1)
    by (apply yielded_state; vm_compute; reflexivity).
  assert (H2 : rescheduled k1 k2) by apply Ref_env_run_rescheduled.
  assert (H3 : first_sent_to_me k2 (curenv k)).
  { split; [|split].
    - apply Nat.ltb_lt. vm_compute. reflexivity.
    - vm_compute. reflexivity.
    - intros j Hj. destruct j as [|j]; [vm_compute; reflexivity|].
      exfalso. revert Hj. apply Nat.nlt_ge. apply le_n_S, Nat.le_0_l. }
  assert (H4 : 0x800000 < @UTOP _ Ref.ext -> 0x800000 mod @PGSIZE _ Ref.ext = 0)
    by (intros _; reflexivity).
  assert (H5 : forall pp,
             env_ipc_pending_page (cur k1) = Some pp ->
             0x800000 < @UTOP _ Ref.ext ->
             0 <= fst (page_insert (mem k2) (env_pgdir (cur k2)) pp
                                   0x800000 7)).
  { intros pp Hpp _.
    assert (Hpp' : Some 5%nat = Some pp) by exact Hpp.
    injection Hpp' as <-. vm_compute. discriminate. }
  split; [exact H1|]. split; [exact H2|]. split; [exact H3|].
  exact (ipc_send_then_recv k k1 k2 0x1002 42 0x400000 7 0x800000
           H1 H2 H3 H4 H5).
Defined.

(** [R] receives and blocks; [S] runs and sends 42 without a page. *)
Lemma ipc_recv_then_send_witness :
  let k := Ref.env_run 2 Scenario.k0 in
  let k1 := state_of (run (sys_ipc_recv 0x800000) k) in
  let k2 := Ref.env_run 1 k1 in
  run (sys_ipc_recv 0x800000) k = Yield k1
  /\ rescheduled k1 k2
  /\ envid2env k2 0x1002 false = (0, curenv k)
  /\ exists k3,
       run (sys_ipc_try_send 0x1002 42 Ref.UTOP 0) k2 = Ret 0 k3
       /\ env_ipc_value (envs k3 (curenv k)) = 42
       /\ env_ipc_from (envs k3 (curenv k)) = env_id (cur k2)
       /\ env_ipc_perm (envs k3 (curenv k)) = 0
       /\ env_ipc_recving (envs k3 (curenv k)) = false
       /\ env_status (envs k3 (curenv k)) = ENV_RUNNABLE
       /\ env_eax (envs k3 (curenv k)) = 0.
Proof.
  intros k k1 k2.
  assert (H1 : run (sys_ipc_recv 0x800000) k = Yield k1)
    by (apply yielded_state; vm_compute; reflexivity).
  assert (H2 : rescheduled k1 k2) by apply Ref_env_run_rescheduled.
  assert (H3 : envid2env k2 0x1002 false = (0, curenv k))
    by (vm_compute; reflexivity).
  split; [exact H1|]. split; [exact H2|]. split; [exact H3|].
  exact (ipc_recv_then_send k k1 k2 0x800000 0x1002 42 Ref.UTOP 0 0
           H1 H2 H3 ltac:(lia) ltac:(apply Z.le_refl)).
Defined.

(** [S] forks and makes the child, in slot 0, runnable. *)
Lemma exofork_then_set_runnable_witness :
  let k := Scenario.k0 in
  let k1 := state_of (run sys_exofork k) in
  @env_alloc_contract Ref.PhysMem Ref.ext
  /\ env_status (cur k) <> ENV_FREE
  /\ env_alloc k (env_id (cur k)) = (0, 0%nat, snd (Ref.env_alloc k 0x1001))
  /\ envid2env k1 (env_id (envs k1 0)) true = (0, 0%nat)
  /\ env_id (envs k1 0) = 0x1000
  /\ env_eax (cur k) = 77
  /\ returned (run sys_exofork k) = Some (env_id (envs k1 0))
  /\ exists k2,
       run (sys_env_set_status (env_id (envs k1 0))
              (env_status_code ENV_RUNNABLE)) k1 = Ret 0 k2
       /\ env_status (envs k2 0) = ENV_RUNNABLE
       /\ env_tf (envs k2 0) = set_reg_eax 0 (env_tf (cur k))
       /\ env_eax (envs k2 0) = 0
       /\ env_break (envs k2 0) = env_break (cur k)
       /\ env_parent_id (envs k2 0) = env_id (cur k)
       /\ env_id (envs k2 0) = env_id (envs k1 0).
Proof.
  intros k k1.
  assert (H1 : env_status (cur k) <> ENV_FREE) by (vm_compute; discriminate).
  assert (H2 : env_alloc k (env_id (cur k))
               = (0, 0%nat, snd (Ref.env_alloc k 0x1001)))
    by (vm_compute; reflexivity).
  assert (H3 : envid2env k1 (env_id (envs k1 0)) true = (0, 0%nat))
    by (vm_compute; reflexivity).
  split; [exact Ref_env_alloc_contract|]. split; [exact H1|].
  split; [exact H2|]. split; [exact H3|].
  split; [vm_compute; reflexivity|]. split; [vm_compute; reflexivity|].
  exact (exofork_then_set_runnable k 0 0 0%nat _ Ref_env_alloc_contract
           H1 H2 ltac:(lia) H3 ltac:(lia)).
Defined.

(** [S] installs in its child [R] the frame behind the pointer 0x400000,
    whose [tf_cs] is the kernel's 0x8 and whose [tf_eflags] is 0. *)
Lemma sys_env_set_trapframe_user_mode_witness :
  let k := Scenario.k0 in
  user_mem_assert (curenv k) 0x400000 sizeof_Trapframe 0 k = Next tt k
  /\ envid2env k 0x1002 true = (0, 2%nat)
  /\ tf_cs (read_trapframe k 0x400000) = 0x8
  /\ tf_eflags (read_trapframe k 0x400000) = 0
  /\ exists k',
       run (sys_env_set_trapframe 0x1002 0x400000) k = Ret 0 k'
       /\ mem k' = mem k /\ curenv k' = curenv k
       /\ (forall j, j <> 2%nat -> envs k' j = envs k j)
       /\ set_env_tf (env_tf (envs k' 2)) (envs k 2) = envs k' 2
       /\ (let f := env_tf (envs k' 2) in
           let u := read_trapframe k 0x400000 in
           tf_cs f = Z.lor GD_UT 3 /\ tf_ds f = Z.lor GD_UD 3
           /\ tf_es f = Z.lor GD_UD 3 /\ tf_ss f = Z.lor GD_UD 3
           /\ Z.land (tf_cs f) 3 = 3 /\ Z.land (tf_ds f) 3 = 3
           /\ Z.land (tf_es f) 3 = 3 /\ Z.land (tf_ss f) 3 = 3
           /\ Z.land (tf_eflags f) FL_IF = FL_IF
           /\ tf_eflags f = Z.lor (tf_eflags u) FL_IF
           /\ tf_regs f = tf_regs u /\ tf_eip f = tf_eip u
           /\ tf_esp f = tf_esp u /\ tf_trapno f = tf_trapno u
           /\ tf_err f = tf_err u).
Proof.
  intros k.
  assert (H1 : user_mem_assert (curenv k) 0x400000 sizeof_Trapframe 0 k
               = Next tt k) by (vm_compute; reflexivity).
  assert (H2 : envid2env k 0x1002 true = (0, 2%nat))
    by (vm_compute; reflexivity).
  split; [exact H1|]. split; [exact H2|].
  split; [reflexivity|]. split; [reflexivity|].
  exact (sys_env_set_trapframe_user_mode k k 0x1002 0x400000 0 2%nat
           H1 H2 ltac:(lia)).
Defined.

(** [S] commits the address space of its child [R]. *)
Lemma sys_exec_commit_swaps_witness :
  let k := Scenario.k0 in
  envid2env k 0x1002 true = (0, 2%nat)
  /\ 2%nat <> curenv k
  /\ exists k',
       run (sys_exec_commit 0x1002) k = run (exec_commit_finish 2) k'
       /\ env_pgdir (cur k') = Scenario.pgdir_R
       /\ env_pgdir (envs k' 2) = Scenario.pgdir_S
       /\ env_pgfault_upcall (cur k') = 0x800020
       /\ env_id (cur k') = 0x1001 /\ env_id (envs k' 2) = 0x1002.
Proof.
  intros k.
  assert (H1 : envid2env k 0x1002 true = (0, 2%nat))
    by (vm_compute; reflexivity).
  assert (H2 : 2%nat <> curenv k) by discriminate.
  split; [exact H1|]. split; [exact H2|].
  destruct (sys_exec_commit_swaps k 0x1002 0 2%nat H1 ltac:(lia))
    as (k' & Hrun & _ & _ & _ & Hswap & _).
  destruct (Hswap H2) as (Hc & Hd).
  exists k'. split; [exact Hrun|].
  rewrite Hc, Hd. repeat split; reflexivity.
Defined.

(** A break of 0x10000000 and increments of one page and of almost four
    gigabytes. *)
Lemma sbrk_out_of_range_iff_witness :
  (0 <= 0x10000000 < 2 ^ 32 /\ 0 <= 0x1000 < 2 ^ 32
   /\ 0 <= Ref2.ULIM < 2 ^ 32
   /\ (sbrk_out_of_range 0x10000000 0x1000 = true
       <-> Ref2.ULIM < 0x10000000 + 0x1000)
   /\ sbrk_out_of_range 0x10000000 0x1000 = false)
  /\ (0 <= 0xFFFFF000 < 2 ^ 32
      /\ (sbrk_out_of_range 0x10000000 0xFFFFF000 = true
          <-> Ref2.ULIM < 0x10000000 + 0xFFFFF000)
      /\ sbrk_out_of_range 0x10000000 0xFFFFF000 = true).
Proof.
  assert (H1 : 0 <= 0x10000000 < 2 ^ 32) by lia.
  assert (H2 : 0 <= 0x1000 < 2 ^ 32) by lia.
  assert (H3 : 0 <= @ULIM _ Ref2.ext2 < 2 ^ 32)
    by (split; [discriminate | reflexivity]).
  assert (H4 : 0 <= 0xFFFFF000 < 2 ^ 32) by lia.
  split.
  - split; [exact H1|]. split; [exact H2|]. split; [exact H3|].
    split; [|reflexivity].
    exact (sbrk_out_of_range_iff 0x10000000 0x1000 H1 H2 H3).
  - split; [exact H4|]. split; [|reflexivity].
    exact (sbrk_out_of_range_iff 0x10000000 0xFFFFF000 H1 H4 H3).
Defined.

(** [S], whose break is 0x10000000, asks for 100 bytes. *)
Lemma sys_sbrk_grows_witness :
  let k := Scenario.k0 in
  let k1 := set_mem
              (match Ref2.region_alloc_pages Scenario.pgdir_S 1 0x10000000
                       (mem k) with
               | Some m => m
               | None => mem k
               end) k in
  @region_alloc_contract Ref.PhysMem Ref2.ext2
  /\ env_break (cur k) = 0x10000000
  /\ wrap32 (ROUNDUP 100 PGSIZE) = 0x1000
  /\ region_alloc (curenv k) (env_break (cur k))
       (wrap32 (ROUNDUP 100 PGSIZE)) k = Next tt k1
  /\ exists k',
       run (sys_sbrk 100) k
       = Ret (to_int32 (env_break (cur k) + wrap32 (ROUNDUP 100 PGSIZE))) k'
       /\ env_break (cur k')
          = env_break (cur k) + wrap32 (ROUNDUP 100 PGSIZE)
       /\ env_break (cur k) <= env_break (cur k') <= ULIM
       /\ curenv k' = curenv k /\ mem k' = mem k1
       /\ (forall j, j <> curenv k -> envs k' j = envs k j).
Proof.
  intros k k1.
  assert (H1 : 0 <= env_break (cur k) < 2 ^ 32)
    by (split; [discriminate | reflexivity]).
  assert (H2 : 0 <= @ULIM _ Ref2.ext2 < 2 ^ 32)
    by (split; [discriminate | reflexivity]).
  assert (H3 : env_break (cur k) + wrap32 (ROUNDUP 100 PGSIZE) <= ULIM)
    by (vm_compute; discriminate).
  assert (H4 : region_alloc (curenv k) (env_break (cur k))
                 (wrap32 (ROUNDUP 100 PGSIZE)) k = Next tt k1)
    by (vm_compute; reflexivity).
  split; [exact Ref2_region_alloc_contract|].
  split; [reflexivity|]. split; [reflexivity|]. split; [exact H4|].
  exact (sys_sbrk_grows k k1 100 Ref2_region_alloc_contract H1 H2 H3 H4).
Defined.

(** The number 17 is no case of the reference numbering. *)
Lemma syscall_unknown_number_witness :
  @no_such_syscall Ref.PhysMem Ref2.ext2 17
  /\ run (syscall 17 1 2 3 4 5) Scenario.k0
     = Ret (- Ref.E_INVAL) Scenario.k0.
Proof.
  assert (H : @no_such_syscall Ref.PhysMem Ref2.ext2 17).
  { intros Hin. cbn in Hin.
    repeat (destruct Hin as [Hin|Hin]; [discriminate Hin|]). exact Hin. }
  split; [exact H|].
  exact (syscall_unknown_number Scenario.k0 17 1 2 3 4 5 H).
Defined.

(** [S] enters exofork through [sysenter] with a frame whose accumulator
    holds the number of the call. *)
Lemma sysenter_exofork_child_frame_witness :
  let k := Scenario.k0 in
  let tf := set_reg_eax 6 (Ref2.read_trapframe k 0x400000) in
  let ka := snd (Ref.env_alloc (on_env (curenv k) (set_env_tf tf) k) 0x1001) in
  @lock_contract Ref.PhysMem Ref2.ext2
  /\ @exofork_case_reached Ref.PhysMem Ref2.ext2
  /\ @env_alloc_contract Ref.PhysMem Ref.ext
  /\ env_status (cur k) <> ENV_FREE
  /\ env_alloc (on_env (curenv k) (set_env_tf tf) k) (env_id (cur k))
     = (0, 0%nat, ka)
  /\ exists k',
       run (sysenter SYS_exofork 0 0 0 0 0 tf) k
       = Ret (env_id (envs k' 0)) k'
       /\ env_tf (envs k' 0) = set_reg_eax 0 tf
       /\ env_tf (cur k') = tf
       /\ env_status (envs k' 0) = ENV_NOT_RUNNABLE
       /\ env_parent_id (envs k' 0) = env_id (cur k).
Proof.
  intros k tf ka.
  assert (H1 : env_status (cur k) <> ENV_FREE) by (vm_compute; discriminate).
  assert (H2 : env_alloc (on_env (curenv k) (set_env_tf tf) k)
                 (env_id (cur k)) = (0, 0%nat, ka)).
  { refine (pair_of_fst _ (0, 0%nat) _). vm_compute. reflexivity. }
  split; [exact Ref2_lock_contract|].
  split; [exact Ref2_exofork_case_reached|].
  split; [exact Ref_env_alloc_contract|]. split; [exact H1|].
  split; [exact H2|].
  exact (sysenter_exofork_child_frame k 0 0 0 0 0 0 tf 0%nat ka
           Ref2_lock_contract Ref2_exofork_case_reached
           Ref_env_alloc_contract H1 H2 ltac:(lia)).
Defined.

(** [S] prints the null string of length 5. *)
Lemma sysenter_cputs_null_panics_witness :
  let k := Scenario.k0 in
  let tf := Ref2.read_trapframe k 0x400000 in
  (forall k0 : Kernel Ref.PhysMem, lock_kernel k0 = Next tt k0)
  /\ run (syscall SYS_cputs 0 5 0 0 0) k = Panic k
  /\ run (sysenter SYS_cputs 0 5 0 0 0 tf) k
     = Panic (on_env (curenv k) (set_env_tf tf) k).
Proof.
  intros k tf.
  assert (H : forall k0 : Kernel Ref.PhysMem, lock_kernel k0 = Next tt k0)
    by (intros k0; reflexivity).
  split; [exact H|].
  exact (sysenter_cputs_null_panics k 5 0 0 0 tf H).
Defined.
